(** * MoodDoctor web client: chat orchestration and mood-event pipeline

    A shallow embedding of the provider adapters (geminiService,
    openRouterService), the persistence adapter (cloudService), the chat
    window's [handleSend] and the application's [handleMoodDetected],
    followed by the properties the specification states about them; and of
    the code around them (the voice analysis, the sessions of the
    application, the capture and sign-in components, the figures of the
    dashboard, the API client), followed by further properties of the code.

    Conventions of the embedding.
    - JavaScript values of type [any] (what [JSON.parse] returns and what the
      adapters hand on unchecked) are values of [JSValue].
    - An [async] function is a computation in [IO]: it threads the React
      state of its component and the world (event trace, clock), and
      completes normally or by throwing.  An [await] is a bind; every state
      change made before a throw persists.
    - What the network and the backend answer is read from the [Runtime]
      class, so every theorem holds for all their answers.  The browser's
      local storage is part of the world.
    - A string is the UTF-8 encoding of the JavaScript string.  [trim]
      strips the white space and the line terminators of ECMAScript;
      [toUpperCase] acts on the ASCII range.  Numbers are exact
      rationals. *)

From Stdlib Require Import ZArith QArith Qround String Ascii List Bool Lia.
From Stdlib Require Import DecimalString.
From Stdlib Require DecimalZ DecimalPos.
From stdpp Require Import base tactics option list strings gmap.

Import ListNotations.
Local Open Scope string_scope.
Local Open Scope list_scope.

Set Default Proof Using "Type".
Set Warnings "-register-all".

(** ** JavaScript strings *)

Module JSString.

(** The double quote, as a one-character string. *)
Definition dq : string := String (ascii_of_nat 34) EmptyString.
(** The line feed, as a one-character string. *)
Definition nl : string := String (ascii_of_nat 10) EmptyString.

(** White space and line terminators of the ASCII range:
    TAB, LF, VT, FF, CR and SP. *)
Definition is_white_space (c : ascii) : bool :=
  let n := nat_of_ascii c in
  ((9 <=? n)%nat && (n <=? 13)%nat) || (n =? 32)%nat.

(** The string of the bytes [l]. *)
Definition bytes (l : list nat) : string :=
  string_of_list_ascii (List.map ascii_of_nat l).

(** The white space and the line terminators of ECMAScript, which [trim]
    strips, in UTF-8: TAB, LF, VT, FF, CR, SP, U+00A0, U+1680, U+2000 to
    U+200A, U+2028, U+2029, U+202F, U+205F, U+3000 and U+FEFF. *)
Definition white_spaces : list string :=
  [ bytes [9]; bytes [10]; bytes [11]; bytes [12]; bytes [13]; bytes [32];
    bytes [194; 160]; bytes [225; 154; 128];
    bytes [226; 128; 128]; bytes [226; 128; 129]; bytes [226; 128; 130];
    bytes [226; 128; 131]; bytes [226; 128; 132]; bytes [226; 128; 133];
    bytes [226; 128; 134]; bytes [226; 128; 135]; bytes [226; 128; 136];
    bytes [226; 128; 137]; bytes [226; 128; 138];
    bytes [226; 128; 168]; bytes [226; 128; 169]; bytes [226; 128; 175];
    bytes [226; 129; 159]; bytes [227; 128; 128]; bytes [239; 187; 191] ].

(** The number of bytes of the white space or line terminator that the
    string starts with, and 0 when it starts with none.  Beyond the ASCII
    range these are U+00A0 (C2 A0), U+1680 (E1 9A 80), U+2000 to U+200A
    (E2 80 80 to E2 80 8A), U+2028 and U+2029 (E2 80 A8, E2 80 A9), U+202F
    (E2 80 AF), U+205F (E2 81 9F), U+3000 (E3 80 80) and U+FEFF
    (EF BB BF). *)
Definition white_space_length (s : string) : nat :=
  match s with
  | EmptyString => 0
  | String a rest =>
      if is_white_space a then 1
      else
        match rest with
        | EmptyString => 0
        | String b rest' =>
            let x := nat_of_ascii a in
            let y := nat_of_ascii b in
            let z := match rest' with
                     | EmptyString => 0
                     | String c _ => nat_of_ascii c
                     end in
            if (x =? 194)%nat && (y =? 160)%nat then 2
            else if (x =? 225)%nat && (y =? 154)%nat && (z =? 128)%nat then 3
            else if (x =? 226)%nat && (y =? 128)%nat
                    && (((128 <=? z)%nat && (z <=? 138)%nat)
                        || (z =? 168)%nat || (z =? 169)%nat || (z =? 175)%nat)
                 then 3
            else if (x =? 226)%nat && (y =? 129)%nat && (z =? 159)%nat then 3
            else if (x =? 227)%nat && (y =? 128)%nat && (z =? 128)%nat then 3
            else if (x =? 239)%nat && (y =? 187)%nat && (z =? 191)%nat then 3
            else 0
        end
  end.

(** [trimStart], with [skip] bytes of a white space still to be dropped. *)
Fixpoint trimStart_from (skip : nat) (s : string) : string :=
  match s with
  | EmptyString => EmptyString
  | String _ s' =>
      match skip with
      | S k => trimStart_from k s'
      | O => match white_space_length s with
             | O => s
             | S k => trimStart_from k s'
             end
      end
  end.

Definition trimStart (s : string) : string := trimStart_from 0 s.

(** The string consists of white space only, after [skip] bytes of a white
    space that has begun. *)
Fixpoint only_white_space_from (skip : nat) (s : string) : bool :=
  match s with
  | EmptyString => true
  | String _ s' =>
      match skip with
      | S k => only_white_space_from k s'
      | O => match white_space_length s with
             | O => false
             | S k => only_white_space_from k s'
             end
      end
  end.

(** The string consists of white space only. *)
Definition only_white_space (s : string) : bool := only_white_space_from 0 s.

(** [trimEnd]: the string is cut where only white space follows. *)
Fixpoint trimEnd (s : string) : string :=
  match s with
  | EmptyString => EmptyString
  | String c s' =>
      if only_white_space s then EmptyString else String c (trimEnd s')
  end.

(** [String.prototype.trim] *)
Definition trim (s : string) : string := trimEnd (trimStart s).

Definition upper_ascii (c : ascii) : ascii :=
  let n := nat_of_ascii c in
  if ((97 <=? n)%nat && (n <=? 122)%nat) then ascii_of_nat (n - 32) else c.

(** [String.prototype.toUpperCase] *)
Fixpoint toUpperCase (s : string) : string :=
  match s with
  | EmptyString => EmptyString
  | String c s' => String (upper_ascii c) (toUpperCase s')
  end.

(** [String.prototype.startsWith] *)
Definition startsWith (s p : string) : bool := String.prefix p s.

(** [s.split(c)[0]]: the part of [s] before the first [c]. *)
Fixpoint split_head (c : ascii) (s : string) : string :=
  match s with
  | EmptyString => EmptyString
  | String a s' => if Ascii.eqb a c then EmptyString
                   else String a (split_head c s')
  end.

(** [Array.prototype.join] on strings. *)
Fixpoint join (sep : string) (l : list string) : string :=
  match l with
  | [] => EmptyString
  | [x] => x
  | x :: l' => x +:+ sep +:+ join sep l'
  end.

(** [n.toString()] for an integer [n]. *)
Definition of_Z (n : Z) : string := NilZero.string_of_int (Z.to_int n).

(** A string is falsy exactly when it is empty. *)
Definition truthy (s : string) : bool :=
  match s with EmptyString => false | _ => true end.

End JSString.

(** ** JavaScript values, errors and completions *)

Module JS.

(** A thrown value: every error this program throws or receives is an
    object with a [name] and a [message]. *)
Record JSError := mkError { err_name : string; err_message : string }.

Definition Error (msg : string) : JSError := mkError "Error" msg.
Definition TypeError (msg : string) : JSError := mkError "TypeError" msg.

(** How an evaluation ends: with a value, or by throwing. *)
Inductive completion (A : Type) : Type :=
| Normal (a : A)
| Throw (e : JSError).
Arguments Normal {A} a.
Arguments Throw {A} e.

(** Sequencing of evaluations that may throw. *)
Definition and_then {A B} (c : completion A) (k : A -> completion B) : completion B :=
  match c with
  | Normal a => k a
  | Throw e => Throw e
  end.

#[export] Instance completion_mret : MRet completion := @Normal.
#[export] Instance completion_mbind : MBind completion := fun A B k c => and_then c k.

(** Values of type [any].  An array carries its elements and the named
    properties assigned to it afterwards; an object carries its own
    properties, looked up from the front. *)
Inductive JSValue : Type :=
| JUndefined
| JNull
| JBool (b : bool)
| JNum (n : Q)
| JStr (s : string)
| JArr (elems : list JSValue) (props : list (string * JSValue))
| JObj (props : list (string * JSValue)).

(** [!!v] *)
Definition truthy (v : JSValue) : bool :=
  match v with
  | JUndefined | JNull => false
  | JBool b => b
  | JNum n => negb (Qeq_bool n 0)
  | JStr s => JSString.truthy s
  | JArr _ _ | JObj _ => true
  end.

(** [String(v)], as applied by template literals and by [JSON.parse] to its
    argument.  [num] prints a number. *)
Fixpoint ToString (num : Q -> string) (v : JSValue) : string :=
  match v with
  | JUndefined => "undefined"
  | JNull => "null"
  | JBool true => "true"
  | JBool false => "false"
  | JNum n => num n
  | JStr s => s
  | JArr elems _ =>
      JSString.join ","
        (List.map (fun e => match e with
                            | JUndefined | JNull => EmptyString
                            | _ => ToString num e
                            end) elems)
  | JObj _ => "[object Object]"
  end.

Fixpoint lookup_prop (k : string) (props : list (string * JSValue)) : JSValue :=
  match props with
  | [] => JUndefined
  | (k', v) :: rest => if String.eqb k' k then v else lookup_prop k rest
  end.

Fixpoint assign_prop (k : string) (x : JSValue) (props : list (string * JSValue))
  : list (string * JSValue) :=
  match props with
  | [] => [(k, x)]
  | (k', v) :: rest =>
      if String.eqb k' k then (k', x) :: rest
      else (k', v) :: assign_prop k x rest
  end.

Definition describe (v : JSValue) : string :=
  match v with JNull => "null" | _ => "undefined" end.

(** [v.k] for the property names the services read ([mood_state],
    [dominant_mood], [support_mode], [message], [choices], [content]):
    none of them is an own or inherited property of a primitive or of a
    parsed array. *)
Definition get (v : JSValue) (k : string) : completion JSValue :=
  match v with
  | JUndefined | JNull =>
      Throw (TypeError ("Cannot read properties of " +:+ describe v
                          +:+ " (reading '" +:+ k +:+ "')"))
  | JBool _ | JNum _ | JStr _ => Normal JUndefined
  | JArr _ props => Normal (lookup_prop k props)
  | JObj props => Normal (lookup_prop k props)
  end.

(** [v[i]] for an index [i]. *)
Definition get_index (v : JSValue) (i : nat) : completion JSValue :=
  match v with
  | JUndefined | JNull =>
      Throw (TypeError ("Cannot read properties of " +:+ describe v
                          +:+ " (reading '" +:+ JSString.of_Z (Z.of_nat i) +:+ "')"))
  | JBool _ | JNum _ => Normal JUndefined
  | JStr s =>
      Normal (match String.get i s with
              | Some c => JStr (String c EmptyString)
              | None => JUndefined
              end)
  | JArr elems _ => Normal (nth i elems JUndefined)
  | JObj props => Normal (lookup_prop (JSString.of_Z (Z.of_nat i)) props)
  end.

(** [v.k = x] in strict mode (module code): assigning to a property of a
    primitive throws. *)
Definition set (v : JSValue) (k : string) (x : JSValue) : completion JSValue :=
  match v with
  | JUndefined | JNull =>
      Throw (TypeError ("Cannot set properties of " +:+ describe v
                          +:+ " (setting '" +:+ k +:+ "')"))
  | JBool _ | JNum _ | JStr _ =>
      Throw (TypeError ("Cannot create property '" +:+ k +:+ "'"))
  | JArr elems props => Normal (JArr elems (assign_prop k x props))
  | JObj props => Normal (JObj (assign_prop k x props))
  end.

(** [l.includes(v)] for a list of strings [l]. *)
Definition includes (l : list string) (v : JSValue) : bool :=
  match v with
  | JStr s => existsb (String.eqb s) l
  | _ => false
  end.

(** [l.slice(-n)]: the last [n] elements. *)
Definition slice_last {A} (n : nat) (l : list A) : list A :=
  drop (length l - n) l.

(** [Math.round]: to the nearest integer, ties towards positive infinity. *)
Definition Math_round (x : Q) : Z := Qfloor (x + (1 # 2)).

End JS.

Export JS.

(** ** The shared types (types.ts) *)

Module SupportMode.
Definition LISTENING : string := "LISTENING".
Definition CALMING : string := "CALMING".
Definition MOTIVATION : string := "MOTIVATION".
Definition STABILITY : string := "STABILITY".
Definition CRISIS_AWARE : string := "CRISIS_AWARE".

(** The five members of the enum; at run time a [SupportMode] is a string. *)
Definition members : list string :=
  [LISTENING; CALMING; MOTIVATION; STABILITY; CRISIS_AWARE].
End SupportMode.

Module MoodState.
Record t := mk
  { dominant_mood : string;
    energy_level : string;
    stability : string;
    risk_score : Q }.
End MoodState.

Module MoodLogEntry.
Record t := mk
  { date : string;       (* YYYY-MM-DD *)
    mood : string;
    energy : string;
    score : Z }.
End MoodLogEntry.

Module Conversation.
Record t := mk
  { id : string;
    title : string;
    created_at : string;
    last_message : option string }.
End Conversation.

Inductive Role := user | assistant | system.

(** [{ role, content }], as sent to the providers. *)
Module Turn.
Record t := mk { role : Role; content : JSValue }.
End Turn.

Module Message.
(** [content] has the type the adapter's [response] has at run time;
    an absent [mood_state] is [JUndefined]. *)
Record t := mk
  { id : string;
    role : Role;
    content : JSValue;
    timestamp : Z;
    mood_state : JSValue;
    mode : option string }.
End Message.

(** What both adapters resolve to: [{ mood_state, mode, response }]. *)
Module Analysis.
Record t := mk
  { mood_state : JSValue;
    mode : string;
    response : JSValue }.
End Analysis.

(** ** The world outside the program *)

(** A part of a Gemini request. *)
Inductive Part :=
| text_part (text : string)
| inlineData (mimeType : string) (data : string).

(** The fields of a [fetch] response that the program reads. *)
Module Response.
Record t := mk
  { ok : bool;
    status : Z;
    statusText : string;
    body : string }.
End Response.

(** Rows sent to the backend. *)
Module MoodLogRow.
Record t := mk
  { user_id : string;
    date : string;
    mood : string;
    energy : string;
    score : Z }.
End MoodLogRow.

Module MessageRow.
Record t := mk
  { conversation_id : string;
    user_id : string;
    role : Role;
    content : JSValue;
    timestamp : string;
    mood_state : JSValue }.
End MessageRow.

Inductive ConsoleLevel := ConsoleLevel_log | ConsoleLevel_warn | ConsoleLevel_error.

(** What the program does to the world, in order. *)
Inductive event :=
| Console (level : ConsoleLevel) (label : string)
| Enter_analyzeMultimodalMood (text : option string) (history : list Turn.t)
| Enter_callOpenRouter (messages : list Turn.t)
| Gemini_generateContent (systemInstruction : string) (parts : list Part)
| Fetch_openrouter (model : string) (messages : list Turn.t)
| Supabase_auth_getUser
| Supabase_auth_signOut
| Supabase_upsert_mood_logs (row : MoodLogRow.t) (onConflict : string)
| Supabase_select (table : string)
| Supabase_insert_conversations (user_id title : string)
| Supabase_insert_messages (row : MessageRow.t)
| OnMoodDetected (mood : JSValue) (mode : string).

(** What the world answers.  The prompt texts are constants of the two
    services; everything else is decided outside the program. *)
Class Runtime := {
  (** the n-th reading of the system clock, in milliseconds *)
  clock : nat -> Z;
  Date_toISOString : Z -> string;
  Date_toLocaleTimeString : Z -> string;
  Number_toString : Q -> string;
  JSON_parse : string -> completion JSValue;
  (** geminiService *)
  gemini_systemInstruction : string;
  generateContent : string -> list Part -> completion (option string);
  (** openRouterService *)
  OPENROUTER_API_KEY : option string;
  openrouter_systemPrompt : string;
  fetch : string -> list Turn.t -> completion Response.t;
  (** the hosted backend *)
  auth_getUser : option string;
  upsert_mood_logs : MoodLogRow.t -> option JSError;
  select_conversations : JSError + list Conversation.t;
  insert_conversations : string -> string -> JSError + string;
  insert_messages : MessageRow.t -> option JSError
}.

(** The world: the events so far, the number of readings of the clock so
    far, and the browser's local storage. *)
Record World := mkWorld
  { trace : list event;
    ticks : nat;
    localStorage : gmap string string }.

(** The world after the events [evs]. *)
Definition emitted (evs : list event) (w : World) : World :=
  mkWorld (trace w ++ evs) (ticks w) (localStorage w).

(** ** Asynchronous computations over a component's state *)

Definition IO (St A : Type) : Type := St -> World -> completion A * St * World.

Definition IO_ret {St A} (a : A) : IO St A := fun s w => (Normal a, s, w).

Definition IO_bind {St A B} (k : A -> IO St B) (m : IO St A) : IO St B :=
  fun s w =>
    match m s w with
    | (Normal a, s', w') => k a s' w'
    | (Throw e, s', w') => (Throw e, s', w')
    end.

#[export] Instance IO_mret {St} : MRet (IO St) := @IO_ret St.
#[export] Instance IO_mbind {St} : MBind (IO St) := @IO_bind St.

(** [throw e] *)
Definition throw {St A} (e : JSError) : IO St A := fun s w => (Throw e, s, w).

(** A pure evaluation that may throw. *)
Definition eval {St A} (c : completion A) : IO St A := fun s w => (c, s, w).

(** [try { m } catch (e) { h e }] *)
Definition try_catch {St A} (m : IO St A) (h : JSError -> IO St A) : IO St A :=
  fun s w =>
    match m s w with
    | (Normal a, s', w') => (Normal a, s', w')
    | (Throw e, s', w') => h e s' w'
    end.

(** [try { m } finally { f }] *)
Definition try_finally {St A} (m : IO St A) (f : IO St unit) : IO St A :=
  fun s w =>
    match m s w with
    | (c, s', w') =>
        match f s' w' with
        | (Normal _, s'', w'') => (c, s'', w'')
        | (Throw e, s'', w'') => (Throw e, s'', w'')
        end
    end.

Definition emit {St} (ev : event) : IO St unit :=
  fun s w => (Normal tt, s, emitted [ev] w).

Definition console {St} (level : ConsoleLevel) (label : string) : IO St unit :=
  emit (Console level label).

(** The current state of the component, as captured by a handler. *)
Definition get_state {St} : IO St St := fun s w => (Normal s, s, w).

(** A state setter called with an updater function. *)
Definition set_state {St} (f : St -> St) : IO St unit := fun s w => (Normal tt, f s, w).

(** The functions of the service modules have no component state. *)
Definition Service (A : Type) : Type := IO unit A.

(** [await m], for a call [m] of a service function from a component. *)
Definition await {St A} (m : Service A) : IO St A :=
  fun s w =>
    match m tt w with
    | (c, _, w') => (c, s, w')
    end.

(** [Date.now()] and [new Date()]: one reading of the clock. *)
Definition Date_now `{!Runtime} {St} : IO St Z :=
  fun s w =>
    (Normal (clock (ticks w)), s, mkWorld (trace w) (S (ticks w)) (localStorage w)).

(** [localStorage.getItem(key)], [None] standing for [null] *)
Definition localStorage_getItem {St} (key : string) : IO St (option string) :=
  fun s w => (Normal (localStorage w !! key), s, w).

(** [localStorage.setItem(key, value)] *)
Definition localStorage_setItem {St} (key value : string) : IO St unit :=
  fun s w =>
    (Normal tt, s, mkWorld (trace w) (ticks w) (<[key := value]> (localStorage w))).

(** [localStorage.removeItem(key)] *)
Definition localStorage_removeItem {St} (key : string) : IO St unit :=
  fun s w => (Normal tt, s, mkWorld (trace w) (ticks w) (delete key (localStorage w))).

(** [localStorage.getItem('md_is_guest') === 'true'] in the world [w] *)
Definition guest_flag (w : World) : bool :=
  bool_decide (localStorage w !! "md_is_guest" = Some "true").

(** ** What the world answers to the other functions *)

(** The backend's answer to the read of the mood logs: an error, or the
    rows. *)
Class BackendReads := {
  select_mood_logs : JSError + list MoodLogRow.t
}.

(** The keys, the client and the model of the voice analysis.  The second
    key is the environment's, or else the one written in the source. *)
Class VoiceRuntime := {
  GEMINI_API_KEY_1 : option string;
  GEMINI_API_KEY_2 : string;
  (** the error that [new GoogleGenAI({ apiKey })] throws, if it does *)
  GoogleGenAI_new : option string -> option JSError;
  voice_systemInstruction : string;
  voice_generateContent :
    option string -> string -> list Part -> completion (option string)
}.

(** [n] calls of [m], one after the other, with their results. *)
Fixpoint repeatedly {St A} (n : nat) (m : IO St A) : IO St (list A) :=
  match n with
  | O => mret []
  | S n' => a ← m; rest ← repeatedly n' m; mret (a :: rest)
  end.

(** A computation on one of two component states, run on the pair. *)
Definition on_fst {S1 S2 A} (m : IO S1 A) : IO (S1 * S2) A :=
  fun s w =>
    match m s.1 w with
    | (c, s1, w') => (c, (s1, s.2), w')
    end.

Definition on_snd {S1 S2 A} (m : IO S2 A) : IO (S1 * S2) A :=
  fun s w =>
    match m s.2 w with
    | (c, s2, w') => (c, (s.1, s2), w')
    end.

(** A mood that is not there: [undefined] or [null], the [mood_state] of a
    reply that has none. *)
Inductive Absent := absent_undefined | absent_null.

Definition absent_value (mood : Absent) : JSValue :=
  match mood with
  | absent_undefined => JUndefined
  | absent_null => JNull
  end.

(** ** services/cloudService.ts *)

Module cloudService.
Section cloudService.
Context `{!Runtime}.

(** [supabase.auth.getUser()], the [id] of [data.user] *)
Definition getUser : Service (option string) :=
  emit Supabase_auth_getUser;; mret auth_getUser.

(** The row that [saveMoodEntry] sends for an entry. *)
Definition mood_log_row (user_id : string) (entry : MoodLogEntry.t) : MoodLogRow.t :=
  MoodLogRow.mk user_id (MoodLogEntry.date entry) (MoodLogEntry.mood entry)
    (MoodLogEntry.energy entry) (MoodLogEntry.score entry).

(** The row that [saveMessage] sends for a message. *)
Definition message_row (user_id : string) (msg : Message.t) (conversationId : string)
  : MessageRow.t :=
  MessageRow.mk conversationId user_id (Message.role msg) (Message.content msg)
    (Date_toISOString (Message.timestamp msg)) (Message.mood_state msg).

Definition saveMoodEntry (entry : MoodLogEntry.t) : Service unit :=
  user ← getUser;
  match user with
  | None => mret tt
  | Some user_id =>
      let row := mood_log_row user_id entry in
      emit (Supabase_upsert_mood_logs row "user_id,date");;
      match upsert_mood_logs row with
      | Some error => throw error
      | None => mret tt
      end
  end.

Definition createConversation (title : string) : Service string :=
  user ← getUser;
  match user with
  | None => throw (Error "Unauthorized")
  | Some user_id =>
      emit (Supabase_insert_conversations user_id title);;
      match insert_conversations user_id title with
      | inl error => throw error
      | inr id => mret id
      end
  end.

Definition getConversations : Service (list Conversation.t) :=
  emit (Supabase_select "conversations");;
  match select_conversations with
  | inl error => mret []
  | inr data => mret data
  end.

Definition saveMessage (msg : Message.t) (conversationId : string) : Service unit :=
  user ← getUser;
  match user with
  | None => mret tt
  | Some user_id =>
      let row := message_row user_id msg conversationId in
      emit (Supabase_insert_messages row);;
      match insert_messages row with
      | Some error => throw error
      | None => mret tt
      end
  end.


Context `{!BackendReads}.

(** The entry that [getMoodLogs] makes of a row. *)
Definition mood_log_entry (item : MoodLogRow.t) : MoodLogEntry.t :=
  MoodLogEntry.mk (MoodLogRow.date item) (MoodLogRow.mood item)
    (MoodLogRow.energy item) (MoodLogRow.score item).

(** Fetch all user mood logs: the rows in the order of the answer. *)
Definition getMoodLogs : Service (list MoodLogEntry.t) :=
  emit (Supabase_select "mood_logs");;
  match select_mood_logs with
  | inl error => mret []
  | inr data => mret (mood_log_entry <$> data)
  end.

End cloudService.
End cloudService.

(** What the voice analysis resolves to:
    [{ mood, transcription, confidence }]. *)
Module VoiceAnalysis.
Record t := mk
  { mood : JSValue;
    transcription : JSValue;
    confidence : JSValue }.
End VoiceAnalysis.

(** ** services/geminiService.ts *)

Module geminiService.
Section geminiService.
Context `{!Runtime}.

Definition ALLOWED_MOODS : list string :=
  [ "Happy"; "Sad"; "Anxious"; "Angry"; "Neutral";
    "Excited"; "Tired"; "Fearful"; "Surprised";
    "Frustrated"; "Melancholy" ].

(** [v.toUpperCase()] on a value of type [any] *)
Definition call_toUpperCase (v : JSValue) : completion string :=
  match v with
  | JStr s => Normal (JSString.toUpperCase s)
  | JUndefined | JNull =>
      Throw (TypeError ("Cannot read properties of " +:+ describe v
                          +:+ " (reading 'toUpperCase')"))
  | _ => Throw (TypeError "data.support_mode.toUpperCase is not a function")
  end.

Definition history_line (h : Turn.t) : string :=
  (match Turn.role h with user => "User" | _ => "MoodDoctor" end)
    +:+ ": " +:+ ToString Number_toString (Turn.content h).

(** The request parts built from the history and the current inputs. *)
Definition build_parts (text imageBuffer audioBuffer : option string)
    (history : list Turn.t) : list Part :=
  (if (0 <? length history)%nat then
     let historyContext := JSString.join JSString.nl (List.map history_line history) in
     [ text_part ("CONVERSATION LOG:" +:+ JSString.nl +:+ historyContext
                    +:+ JSString.nl +:+ JSString.nl +:+ "---") ]
   else [])
  ++ (match text with
      | Some t =>
          if JSString.truthy t then
            [ text_part ("USER INPUT (Text): " +:+ JSString.dq +:+ t +:+ JSString.dq) ]
          else []
      | None => []
      end)
  ++ (match imageBuffer with
      | Some b =>
          if JSString.truthy b then
            [ text_part "Facial expression analysis needed from attached image.";
              inlineData "image/jpeg" b ]
          else []
      | None => []
      end)
  ++ (match audioBuffer with
      | Some b =>
          if JSString.truthy b then
            [ text_part "Voice tone analysis needed from attached audio sample.";
              inlineData "audio/webm" b ]
          else []
      | None => []
      end).

(** [response.text || "{}"] *)
Definition text_or_empty_object (t : option string) : string :=
  match t with
  | Some s => if JSString.truthy s then s else "{}"
  | None => "{}"
  end.

(** The statements of the [try] that follow the request: parsing the reply
    and shaping the result. *)
Definition normalize (response_text : option string) : completion Analysis.t :=
  data ← JSON_parse (text_or_empty_object response_text);
  (* Fallback if mood isn't perfect *)
  mood_state ← get data "mood_state";
  dominant_mood ← get mood_state "dominant_mood";
  mood_state ← (if negb (includes ALLOWED_MOODS dominant_mood)
                then set mood_state "dominant_mood" (JStr "Neutral")
                else mret mood_state);
  support_mode ← get data "support_mode";
  mode ← call_toUpperCase support_mode;
  message ← get data "message";
  mret (Analysis.mk mood_state mode message).

Definition analyzeMultimodalMood (text imageBuffer audioBuffer : option string)
    (history : list Turn.t) : Service Analysis.t :=
  emit (Enter_analyzeMultimodalMood text history);;
  let parts := build_parts text imageBuffer audioBuffer history in
  try_catch
    (emit (Gemini_generateContent gemini_systemInstruction parts);;
     response_text ← eval (generateContent gemini_systemInstruction parts);
     eval (normalize response_text))
    (fun error =>
       console ConsoleLevel_error "Gemini Multimodal Analysis Error:";;
       throw (Error "I couldn't process the emotional data right now. Please try again.")).


Context `{!VoiceRuntime}.

(** Get next API key in round-robin fashion.  The state is the module's
    [apiKeyCounter], which starts at 0; [%] is the remainder of the
    truncated division. *)
Definition getNextApiKey : IO Z (option string) :=
  set_state (fun apiKeyCounter => Z.rem (apiKeyCounter + 1) 2);;
  apiKeyCounter ← get_state;
  mret (if (apiKeyCounter =? 0)%Z then GEMINI_API_KEY_1 else Some GEMINI_API_KEY_2).

(** The request parts of a voice analysis. *)
Definition voice_parts (audioBuffer : string) : list Part :=
  [ text_part "Analyze the mood and transcribe this voice recording.";
    inlineData "audio/webm" audioBuffer ].

(** Parsing the reply of a voice analysis, with the fallback if the mood
    isn't in the allowed list. *)
Definition normalize_voice (response_text : option string) : completion JSValue :=
  data ← JSON_parse (text_or_empty_object response_text);
  mood ← get data "mood";
  if negb (includes ALLOWED_MOODS mood)
  then set data "mood" (JStr "Neutral")
  else mret data.

(** Analyze voice-only for mood detection and transcription. *)
Definition analyzeVoiceOnly (audioBuffer : string) : IO Z VoiceAnalysis.t :=
  (* Get next API key for load balancing *)
  apiKey ← getNextApiKey;
  (match GoogleGenAI_new apiKey with
   | Some e => throw e
   | None => mret tt
   end);;
  let parts := voice_parts audioBuffer in
  try_catch
    (emit (Gemini_generateContent voice_systemInstruction parts);;
     response_text ← eval (voice_generateContent apiKey voice_systemInstruction parts);
     data ← eval (normalize_voice response_text);
     console ConsoleLevel_log
       ("[Voice Analysis] Using API Key "
          +:+ (if bool_decide (apiKey = GEMINI_API_KEY_1) then "1" else "2"));;
     mood ← eval (get data "mood");
     transcription ← eval (get data "transcription");
     console ConsoleLevel_log
       ("[Voice Analysis] Detected mood: " +:+ ToString Number_toString mood
          +:+ ", Transcription: " +:+ JSString.dq
          +:+ ToString Number_toString transcription +:+ JSString.dq);;
     confidence ← eval (get data "confidence");
     mret (VoiceAnalysis.mk mood transcription confidence))
    (fun error =>
       console ConsoleLevel_error "Gemini Voice Analysis Error:";;
       throw (Error "I couldn't analyze the voice recording. Please try again.")).

End geminiService.
End geminiService.

(** ** services/openRouterService.ts *)

Module openRouterService.
Section openRouterService.
Context `{!Runtime}.

Definition coerceSupportMode (value : JSValue) : string :=
  let raw := match value with
             | JStr s => JSString.toUpperCase s
             | _ => EmptyString
             end in
  if String.eqb raw "CALMING" then SupportMode.CALMING
  else if String.eqb raw "MOTIVATION" then SupportMode.MOTIVATION
  else if String.eqb raw "STABILITY" then SupportMode.STABILITY
  else if String.eqb raw "CRISIS_AWARE" then SupportMode.CRISIS_AWARE
  else SupportMode.LISTENING.

(** The mood state of the fallback result. *)
Definition fallback_mood_state : JSValue :=
  JObj [ ("dominant_mood", JStr "Neutral");
         ("energy_level", JStr "medium");
         ("stability", JStr "stable");
         ("risk_score", JNum 0) ].

(** [!OPENROUTER_API_KEY] *)
Definition api_key_missing : bool :=
  match OPENROUTER_API_KEY with
  | Some k => negb (JSString.truthy k)
  | None => true
  end.

(** [data.choices[0].message.content] *)
Definition message_content (data : JSValue) : completion JSValue :=
  choices ← get data "choices";
  choice ← get_index choices 0;
  message ← get choice "message";
  get message "content".

(** Parse JSON safely: the statements of the inner [try], and the [try] with
    its [catch]. *)
Definition normalize (content : JSValue) : completion Analysis.t :=
  parsed ← JSON_parse (ToString Number_toString content);
  mood_state ← get parsed "mood_state";
  support_mode ← get parsed "support_mode";
  message ← get parsed "message";
  mret (Analysis.mk mood_state (coerceSupportMode support_mode) message).

Definition parse_content (content : JSValue) : Service Analysis.t :=
  try_catch
    (eval (normalize content))
    (fun e =>
       console ConsoleLevel_error "Failed to parse OpenRouter JSON:";;
       (* Fallback: return raw content if JSON parse fails *)
       mret (Analysis.mk fallback_mood_state SupportMode.LISTENING content)).

Definition callOpenRouter_model (messages : list Turn.t) (model : string)
  : Service Analysis.t :=
  emit (Enter_callOpenRouter messages);;
  if api_key_missing then throw (Error "OpenRouter API Key is missing")
  else
    (* Prepend system prompt *)
    let fullMessages := Turn.mk system (JStr openrouter_systemPrompt) :: messages in
    try_catch
      (emit (Fetch_openrouter model fullMessages);;
       response ← eval (fetch model fullMessages);
       (if negb (Response.ok response) then
          let errorText := Response.body response in
          console ConsoleLevel_error "[OpenRouterService] API Error:";;
          throw (Error ("OpenRouter API Error ("
                          +:+ JSString.of_Z (Response.status response) +:+ "): "
                          +:+ (if JSString.truthy errorText then errorText
                               else Response.statusText response)))
        else mret tt);;
       data ← eval (JSON_parse (Response.body response));
       content ← eval (message_content data);
       parse_content content)
      (fun error =>
         console ConsoleLevel_error "[OpenRouterService] Error:";;
         console ConsoleLevel_error "[OpenRouterService] Error details:";;
         throw error).

(** [callOpenRouter(messages)], with the default model. *)
Definition callOpenRouter (messages : list Turn.t) : Service Analysis.t :=
  callOpenRouter_model messages "deepseek/deepseek-chat".

End openRouterService.
End openRouterService.

(** A call that is not awaited: a rejection of its promise reaches nobody.
    The call is run to its end where it is made. *)
Definition not_awaited {St A} (m : IO St A) : IO St unit :=
  fun s w =>
    match m s w with
    | (_, s', w') => (Normal tt, s', w')
    end.

(** ** components/ChatWindow.tsx *)

Module ChatWindow.

(** The state variables that the handlers below read or write. *)
Record State := mkState
  { conversations : list Conversation.t;
    activeConvId : option string;
    messages : list Message.t;
    inputText : string;
    isTyping : bool;
    showHistory : bool }.

Definition setConversations (v : list Conversation.t) (s : State) : State :=
  mkState v (activeConvId s) (messages s) (inputText s) (isTyping s) (showHistory s).
Definition setActiveConvId (v : option string) (s : State) : State :=
  mkState (conversations s) v (messages s) (inputText s) (isTyping s) (showHistory s).
Definition setMessages (f : list Message.t -> list Message.t) (s : State) : State :=
  mkState (conversations s) (activeConvId s) (f (messages s)) (inputText s)
          (isTyping s) (showHistory s).
Definition setInputText (v : string) (s : State) : State :=
  mkState (conversations s) (activeConvId s) (messages s) v (isTyping s) (showHistory s).
Definition setIsTyping (v : bool) (s : State) : State :=
  mkState (conversations s) (activeConvId s) (messages s) (inputText s) v (showHistory s).
Definition setShowHistory (v : bool) (s : State) : State :=
  mkState (conversations s) (activeConvId s) (messages s) (inputText s) (isTyping s) v.

Section ChatWindow.
Context `{!Runtime}.

(** The truth value of [activeConvId]: false for [null] and for the empty
    string. *)
Definition id_truthy (activeConvId : option string) : bool :=
  match activeConvId with
  | Some id => JSString.truthy id
  | None => false
  end.

(** [startNewChat], given what [loadConversations()] does. *)
Definition startNewChat_body (loadConversations : IO State unit) : IO State unit :=
  now ← Date_now;
  let title := "Session " +:+ Date_toLocaleTimeString now in
  try_catch
    (id ← await (cloudService.createConversation title);
     set_state (setActiveConvId (Some id));;
     not_awaited loadConversations;;
     set_state (setMessages (fun _ => []));;
     set_state (setShowHistory false))
    (fun e =>
       now ← Date_now;
       set_state (setActiveConvId (Some ("temp-" +:+ JSString.of_Z now)));;
       set_state (setMessages (fun _ => []))).

(** [loadConversations], given what [startNewChat()] does. *)
Definition loadConversations_body (startNewChat : IO State unit) : IO State unit :=
  closure ← get_state;
  try_catch
    (data ← await cloudService.getConversations;
     set_state (setConversations data);;
     match data with
     | first :: _ =>
         if negb (id_truthy (activeConvId closure))
         then set_state (setActiveConvId (Some (Conversation.id first)))
         else mret tt
     | [] => not_awaited startNewChat
     end)
    (fun e => console ConsoleLevel_error "Failed to load sessions").

(** The two functions call each other; [fuel] bounds the number of nested
    reloads, and the reload is not made when it is used up. *)
Fixpoint loadConversations (fuel : nat) : IO State unit :=
  match fuel with
  | O => mret tt
  | S fuel' => loadConversations_body (startNewChat_body (loadConversations fuel'))
  end.

Definition startNewChat (fuel : nat) : IO State unit :=
  startNewChat_body (loadConversations fuel).

(** [messages.slice(-5).map(m => ({ role: m.role, content: m.content }))] *)
Definition recent_turns (messages : list Message.t) : list Turn.t :=
  List.map (fun m => Turn.mk (Message.role m) (Message.content m))
           (slice_last 5 messages).

(** The first four bytes of the error message, as the source file has them. *)
Definition error_mark : string :=
  String (ascii_of_nat 195) (String (ascii_of_nat 162)
    (String (ascii_of_nat 197) (String (ascii_of_nat 146) EmptyString))).

Definition error_content (error : JSError) : string :=
  error_mark +:+ " Sorry, I encountered an error: "
    +:+ (if JSString.truthy (err_message error) then err_message error
         else "Unknown error")
    +:+ ". Please check your API keys in .env and try again.".

(** The guard of [handleSend] lets the call through. *)
Definition sendable (closure : State) : bool :=
  negb (negb (JSString.truthy (JSString.trim (inputText closure)))
        || isTyping closure
        || negb (id_truthy (activeConvId closure))).

(** [!isGuest && !activeConvId.startsWith('temp')] *)
Definition persists (isGuest : bool) (activeConvId : string) : bool :=
  negb isGuest && negb (JSString.startsWith activeConvId "temp").

Definition userMsg (now date : Z) (inputText : string) : Message.t :=
  Message.mk (JSString.of_Z now) user (JStr inputText) date JUndefined None.

Definition assistantMsg (now date : Z) (data : Analysis.t) : Message.t :=
  Message.mk (JSString.of_Z (now + 1)) assistant (Analysis.response data) date
    (Analysis.mood_state data) (Some (Analysis.mode data)).

Definition errorMsg (now date : Z) (error : JSError) : Message.t :=
  Message.mk (JSString.of_Z (now + 1)) assistant (JStr (error_content error)) date
    JUndefined None.

(** What [handleSend] sends to the fallback provider: the recent turns and
    the current user message. *)
Definition openRouterHistory (closure : State) : list Turn.t :=
  recent_turns (messages closure) ++ [Turn.mk user (JStr (inputText closure))].

Definition handleSend : IO State unit :=
  closure ← get_state;
  if negb (JSString.truthy (JSString.trim (inputText closure)))
     || isTyping closure
     || negb (id_truthy (activeConvId closure))
  then mret tt
  else
    let activeConvId := default EmptyString (activeConvId closure) in
    now ← Date_now;
    date ← Date_now;
    let userMsg := userMsg now date (inputText closure) in
    set_state (setMessages (fun prev => prev ++ [userMsg]));;
    let textToSend := inputText closure in
    set_state (setInputText EmptyString);;
    set_state (setIsTyping true);;
    item ← localStorage_getItem "md_is_guest";
    let isGuest := bool_decide (item = Some "true") in
    (if persists isGuest activeConvId
     then await (cloudService.saveMessage userMsg activeConvId)
     else mret tt);;
    try_finally
      (try_catch
         (console ConsoleLevel_log "[ChatWindow] Sending message:";;
          console ConsoleLevel_log "[ChatWindow] Active conversation:";;
          data ← try_catch
            (console ConsoleLevel_log "[ChatWindow] Attempting Gemini analysis...";;
             data ← await (geminiService.analyzeMultimodalMood (Some textToSend)
                             None None (recent_turns (messages closure)));
             console ConsoleLevel_log "[ChatWindow] Gemini response received:";;
             mret data)
            (fun geminiError =>
               console ConsoleLevel_warn
                 "Gemini Analysis Failed, switching to OpenRouter:";;
               console ConsoleLevel_log "[ChatWindow] Attempting OpenRouter fallback...";;
               (* Fallback to OpenRouter; add current user message *)
               data ← await (openRouterService.callOpenRouter (openRouterHistory closure));
               console ConsoleLevel_log "[ChatWindow] OpenRouter response received:";;
               mret data);
          (if negb (truthy (Analysis.response data))
           then throw (Error "No response received from AI")
           else mret tt);;
          emit (OnMoodDetected (Analysis.mood_state data) (Analysis.mode data));;
          now ← Date_now;
          date ← Date_now;
          let assistantMsg := assistantMsg now date data in
          set_state (setMessages (fun prev => prev ++ [assistantMsg]));;
          (if persists isGuest activeConvId
           then await (cloudService.saveMessage assistantMsg activeConvId)
           else mret tt))
         (fun error =>
            console ConsoleLevel_error "[ChatWindow] Error in handleSend:";;
            console ConsoleLevel_error "[ChatWindow] Error details:";;
            (* Show error message to user *)
            now ← Date_now;
            date ← Date_now;
            let errorMsg := errorMsg now date error in
            set_state (setMessages (fun prev => prev ++ [errorMsg]))))
      (set_state (setIsTyping false)).


(** The callback that the chat window gives to [MultimodalCapture], on the
    state of the chat window and its variable [showCapture].  It is an
    [async] function without an [await]: a call of it runs to its end and
    does not throw. *)
Definition onAnalysisComplete (mood : JSValue) (mode : string) (response : JSValue)
  : IO (State * bool) unit :=
  not_awaited
    (emit (OnMoodDetected mood mode);;
     now ← Date_now;
     date ← Date_now;
     let assistantMsg :=
       Message.mk (JSString.of_Z now) assistant response date mood (Some mode) in
     on_fst (set_state (setMessages (fun prev => prev ++ [assistantMsg])));;
     on_snd (set_state (fun _ => false))).

End ChatWindow.
End ChatWindow.

(** ** components/MultimodalCapture.tsx *)

Module MultimodalCapture.

(** The state variables that [handleAnalyze] reads or writes. *)
Record State := mkState
  { capturedImageBase64 : option string;
    audioBase64 : option string;
    isAnalyzing : bool;
    error : option string }.

Definition setIsAnalyzing (v : bool) (s : State) : State :=
  mkState (capturedImageBase64 s) (audioBase64 s) v (error s).
Definition setError (v : option string) (s : State) : State :=
  mkState (capturedImageBase64 s) (audioBase64 s) (isAnalyzing s) v.

(** The truth value of a string or [null]. *)
Definition captured (v : option string) : bool :=
  match v with
  | Some s => JSString.truthy s
  | None => false
  end.

(** [v || undefined] for a string or [null] *)
Definition or_undefined (v : option string) : option string :=
  match v with
  | Some s => if JSString.truthy s then Some s else None
  | None => None
  end.

Section MultimodalCapture.
Context `{!Runtime}.

(** [handleAnalyze], given the properties [history] and
    [onAnalysisComplete] of the component; [P] is the state of the parent,
    on which the callback acts. *)
Definition handleAnalyze {P} (history : list Turn.t)
    (onAnalysisComplete : JSValue -> string -> JSValue -> IO P unit)
  : IO (State * P) unit :=
  closure ← on_fst get_state;
  if negb (captured (capturedImageBase64 closure))
     && negb (captured (audioBase64 closure))
  then
    on_fst (set_state
              (setError (Some "Please capture an image or record a voice note for analysis.")))
  else
    on_fst (set_state (setIsAnalyzing true));;
    on_fst (set_state (setError None));;
    try_finally
      (try_catch
         ((* Ensure history is correctly formatted for Gemini parts *)
          let formattedHistory :=
            List.map (fun h => Turn.mk (Turn.role h) (Turn.content h)) history in
          data ← await (geminiService.analyzeMultimodalMood None
                          (or_undefined (capturedImageBase64 closure))
                          (or_undefined (audioBase64 closure))
                          formattedHistory);
          on_snd (onAnalysisComplete (Analysis.mood_state data) (Analysis.mode data)
                    (Analysis.response data)))
         (fun err =>
            console ConsoleLevel_error "Analysis Error:";;
            on_fst (set_state
                      (setError
                         (Some ("Emotional sync failed. "
                                  +:+ (if JSString.truthy (err_message err)
                                       then err_message err
                                       else "Please check your connection and try again.")))))))
      (on_fst (set_state (setIsAnalyzing false))).

(** The capture as the chat window mounts it: without a history, and with
    the chat window's callback. *)
Definition scan : IO (State * (ChatWindow.State * bool)) unit :=
  handleAnalyze [] ChatWindow.onAnalysisComplete.

End MultimodalCapture.
End MultimodalCapture.

(** The members of a session that [App] reads: [session.user.user_metadata]
    and [session.user.email]. *)
Module Session.
Record t := mk
  { user_metadata : JSValue;
    email : option string }.
End Session.

(** ** App.tsx *)

Module App.

Inductive AppState := auth | splash | onboarding | main.

(** The state variables that the handlers below read or write. *)
Record State := mkState
  { appState : AppState;
    userName : JSValue;
    currentMood : option MoodState.t;
    supportMode : string;
    isGuest : bool;
    moodLogs : list MoodLogEntry.t }.

Definition setAppState (v : AppState) (s : State) : State :=
  mkState v (userName s) (currentMood s) (supportMode s) (isGuest s) (moodLogs s).
Definition setUserName (v : JSValue) (s : State) : State :=
  mkState (appState s) v (currentMood s) (supportMode s) (isGuest s) (moodLogs s).
Definition setCurrentMood (v : option MoodState.t) (s : State) : State :=
  mkState (appState s) (userName s) v (supportMode s) (isGuest s) (moodLogs s).
Definition setSupportMode (v : string) (s : State) : State :=
  mkState (appState s) (userName s) (currentMood s) v (isGuest s) (moodLogs s).
Definition setIsGuest (v : bool) (s : State) : State :=
  mkState (appState s) (userName s) (currentMood s) (supportMode s) v (moodLogs s).
Definition setMoodLogs (f : list MoodLogEntry.t -> list MoodLogEntry.t) (s : State)
  : State :=
  mkState (appState s) (userName s) (currentMood s) (supportMode s) (isGuest s)
          (f (moodLogs s)).

(** The state when the component is mounted: the initial values that its
    [useState] calls compute in the world [w]. *)
Definition mount (w : World) : State :=
  mkState auth
    (match localStorage w !! "md_username" with
     | Some name => JStr name
     | None => JStr EmptyString
     end)
    None SupportMode.LISTENING (guest_flag w) [].

(** The updater that [handleMoodDetected] passes to [setMoodLogs]:
    [findIndex] gives the first entry of the day, [None] standing for -1. *)
Definition mergeMoodLog (today : string) (newEntry : MoodLogEntry.t)
    (prev : list MoodLogEntry.t) : list MoodLogEntry.t :=
  match list_find (fun l => MoodLogEntry.date l = today) prev with
  | Some (existingIndex, _) => <[existingIndex := newEntry]> prev
  | None => prev ++ [newEntry]
  end.

Definition newScore (mood : MoodState.t) : Z :=
  Math_round ((1 - MoodState.risk_score mood) * 100).

Definition newEntry (today : string) (mood : MoodState.t) : MoodLogEntry.t :=
  MoodLogEntry.mk today (MoodState.dominant_mood mood)
    (MoodState.energy_level mood) (newScore mood).

(** [user?.full_name] *)
Definition full_name (user : JSValue) : JSValue :=
  match user with
  | JArr _ props | JObj props => lookup_prop "full_name" props
  | _ => JUndefined
  end.

Section App.
Context `{!Runtime}.

Definition handleLogin (user : JSValue) (token : string) : IO State unit :=
  (if String.eqb token "guest-token" then
     set_state (setIsGuest true);;
     localStorage_setItem "md_is_guest" "true"
   else mret tt);;
  (if truthy (full_name user) then set_state (setUserName (full_name user))
   else mret tt);;
  set_state (setAppState splash).

(** [new Date().toISOString().split('T')[0]] *)
Definition today_of (now : Z) : string :=
  JSString.split_head "T"%char (Date_toISOString now).

Definition handleMoodDetected (mood : MoodState.t) (mode : string) : IO State unit :=
  closure ← get_state;
  set_state (setCurrentMood (Some mood));;
  set_state (setSupportMode mode);;
  now ← Date_now;
  let today := today_of now in
  let newEntry := newEntry today mood in
  set_state (setMoodLogs (mergeMoodLog today newEntry));;
  if negb (isGuest closure) then
    try_catch (await (cloudService.saveMoodEntry newEntry))
              (fun e => console ConsoleLevel_error (err_message e))
  else mret tt.

Definition handleLogout : IO State unit :=
  set_state (setIsGuest false);;
  localStorage_removeItem "md_is_guest";;
  localStorage_removeItem "md_username";;
  emit Supabase_auth_signOut;;
  set_state (setAppState auth).


(** [handleMoodDetected] when the chat window hands on no mood:
    [callOpenRouter] hands on the [mood_state] of the reply unchecked, so
    [mood] is [undefined] or [null] for a reply that has none.  The
    statements run up to the reading of [mood.risk_score], which throws;
    [None] stands for a current mood that is not there. *)
Definition handleMoodDetected_without_mood (mood : Absent) (mode : string)
  : IO State unit :=
  set_state (setCurrentMood None);;
  set_state (setSupportMode mode);;
  now ← Date_now;
  risk_score ← eval (get (absent_value mood) "risk_score");
  mret tt.

Context `{!BackendReads}.

Definition handleOnboardingComplete (name : string) : IO State unit :=
  set_state (setUserName (JStr name));;
  localStorage_setItem "md_username" name;;
  set_state (setAppState main).

(** The truth value of what [localStorage.getItem] gives. *)
Definition stored_truthy (item : option string) : bool :=
  match item with
  | Some value => JSString.truthy value
  | None => false
  end.

(** [session.user.user_metadata?.full_name
     || session.user.email?.split('@')[0] || 'Explorer'] *)
Definition session_name (session : Session.t) : JSValue :=
  if truthy (full_name (Session.user_metadata session))
  then full_name (Session.user_metadata session)
  else match Session.email session with
       | Some email =>
           if JSString.truthy (JSString.split_head "@"%char email)
           then JStr (JSString.split_head "@"%char email)
           else JStr "Explorer"
       | None => JStr "Explorer"
       end.

(** Initial Auth Logic, given what [supabase.auth.getSession()] does and
    the session it resolves to. *)
Definition initAuth (getSession : IO State (option Session.t)) : IO State unit :=
  closure ← get_state;
  (* If we are already a guest, skip session check *)
  if isGuest closure then
    name ← localStorage_getItem "md_username";
    if stored_truthy name
    then set_state (setAppState main)
    else set_state (setAppState onboarding)
  else
    session ← getSession;
    match session with
    | Some session =>
        storedName ← localStorage_getItem "md_username";
        if stored_truthy storedName then
          set_state (setUserName (JStr (default EmptyString storedName)));;
          set_state (setAppState main)
        else
          set_state (setUserName (session_name session));;
          set_state (setAppState onboarding)
    | None => mret tt
    end.

(** The callback given to [supabase.auth.onAuthStateChange].  [stateRef]
    holds the [appState] of the last render. *)
Definition onAuthStateChange (event : string) (session : option Session.t)
  : IO State unit :=
  (* Ignore if currently in Guest mode *)
  item ← localStorage_getItem "md_is_guest";
  if bool_decide (item = Some "true") then mret tt
  else
    match session with
    | Some _ =>
        stateRef ← get_state;
        match appState stateRef with
        | auth => set_state (setAppState splash)
        | _ => mret tt
        end
    | None =>
        if String.eqb event "SIGNED_OUT" then set_state (setAppState auth)
        else mret tt
    end.

(** The effect on [appState] and [isGuest] that loads the mood logs:
    [cloudService.getMoodLogs().then(setMoodLogs).catch(console.error)]. *)
Definition effect_moodLogs : IO State unit :=
  closure ← get_state;
  match appState closure with
  | main =>
      if negb (isGuest closure) then
        try_catch
          (data ← await cloudService.getMoodLogs;
           set_state (setMoodLogs (fun _ => data)))
          (fun e => console ConsoleLevel_error (err_message e))
      else mret tt
  | _ => mret tt
  end.

End App.
End App.

(** ** components/Auth.tsx *)

Module Auth.

Inductive View := login | signup | otp.

(** What an authentication call resolves to besides an error:
    [data.user?.user_metadata] and the access token of [data.session],
    [None] for a session that is [null]. *)
Module AuthData.
Record t := mk
  { user_metadata : JSValue;
    session : option string }.
End AuthData.

(** What the authentication service answers: the error of the answer or
    its data, or the error that the call rejects with. *)
Class AuthService := {
  signUp : string -> string -> string -> completion (JSError + AuthData.t);
  signInWithPassword : string -> string -> completion (JSError + AuthData.t);
  verifyOtp : string -> string -> completion (JSError + AuthData.t)
}.

(** The state variables of the component. *)
Record State := mkState
  { view : View;
    email : string;
    password : string;
    fullName : string;
    otpCode : string;
    loading : bool;
    error : option string;
    successMsg : option string }.

Definition setView (v : View) (s : State) : State :=
  mkState v (email s) (password s) (fullName s) (otpCode s) (loading s) (error s)
    (successMsg s).
Definition setLoading (v : bool) (s : State) : State :=
  mkState (view s) (email s) (password s) (fullName s) (otpCode s) v (error s)
    (successMsg s).
Definition setError (v : option string) (s : State) : State :=
  mkState (view s) (email s) (password s) (fullName s) (otpCode s) (loading s) v
    (successMsg s).
Definition setSuccessMsg (v : option string) (s : State) : State :=
  mkState (view s) (email s) (password s) (fullName s) (otpCode s) (loading s) (error s)
    v.

Section Auth.
Context `{!Runtime} `{!AuthService}.

(** [const { data, error } = await call; if (error) throw error;] *)
Definition accepted {St} (answer : completion (JSError + AuthData.t))
  : IO St AuthData.t :=
  result ← eval answer;
  match result with
  | inl error => throw error
  | inr data => mret data
  end.

(** [handleSubmit], given the property [onLogin] of the component; [P] is
    the state of the parent, on which the callback acts. *)
Definition handleSubmit {P} (onLogin : JSValue -> string -> IO P unit)
  : IO (State * P) unit :=
  closure ← on_fst get_state;
  on_fst (set_state (setError None));;
  on_fst (set_state (setLoading true));;
  try_finally
    (try_catch
       (match view closure with
        | signup =>
            data ← accepted (signUp (email closure) (password closure) (fullName closure));
            match AuthData.session data with
            | Some access_token => on_snd (onLogin (AuthData.user_metadata data) access_token)
            | None =>
                on_fst (set_state
                          (setSuccessMsg
                             (Some "Authentication code transmitted to your email.")));;
                on_fst (set_state (setView otp))
            end
        | login =>
            data ← accepted (signInWithPassword (email closure) (password closure));
            match AuthData.session data with
            | Some access_token => on_snd (onLogin (AuthData.user_metadata data) access_token)
            | None =>
                throw (TypeError "Cannot read properties of null (reading 'access_token')")
            end
        | otp =>
            data ← accepted (verifyOtp (email closure) (otpCode closure));
            on_snd (onLogin (AuthData.user_metadata data)
                      (default EmptyString (AuthData.session data)))
        end)
       (fun err =>
          on_fst (set_state
                    (setError (Some (if JSString.truthy (err_message err)
                                     then err_message err
                                     else "Verification failed."))))))
    (on_fst (set_state (setLoading false))).

(** [handleGuestLogin], when its timer has fired. *)
Definition handleGuestLogin {P} (onLogin : JSValue -> string -> IO P unit)
  : IO (State * P) unit :=
  on_fst (set_state (setLoading true));;
  on_snd (onLogin (JObj [ ("full_name", JStr "Explorer");
                          ("email", JStr "explorer@mooddoctor.ai") ])
            "guest-token").

End Auth.
End Auth.

(** ** components/Dashboard.tsx: the figures computed from the mood logs *)

Module Dashboard.

(** [moodLogs.length > 0 ? moodLogs[moodLogs.length - 1] : null] *)
Definition latestLog (moodLogs : list MoodLogEntry.t) : option MoodLogEntry.t :=
  if (0 <? length moodLogs)%nat then moodLogs !! (length moodLogs - 1)%nat else None.

(** [latestLog?.energy || 'Calm'] *)
Definition currentEnergy (moodLogs : list MoodLogEntry.t) : string :=
  match latestLog moodLogs with
  | Some l => if JSString.truthy (MoodLogEntry.energy l) then MoodLogEntry.energy l
              else "Calm"
  | None => "Calm"
  end.

Definition calculateStreak (moodLogs : list MoodLogEntry.t) : nat :=
  if (length moodLogs =? 0)%nat then 0%nat else length moodLogs.

End Dashboard.

(** ** services/api.ts *)

Module api.

Definition BASE_URL : string := "/api/v1".

(** What the member [headers] of the options may be, by the type
    [HeadersInit]: a plain object of strings, an array of pairs of a name
    and a value, or an instance of [Headers] with its entries. *)
Inductive HeadersInit :=
| Headers_object (members : gmap string string)
| Headers_pairs (pairs : list (string * string))
| Headers_instance (entries : list (string * string)).

(** The options that the caller gives: the [headers], when present, and the
    other members. *)
Module RequestInit.
Record t := mk
  { headers : option HeadersInit;
    rest : list (string * JSValue) }.
End RequestInit.

(** The options that [fetch] is called with: the object of headers that the
    function builds, and the other members, which are handed on as they
    are. *)
Module Request.
Record t := mk
  { headers : gmap string JSValue;
    rest : list (string * JSValue) }.
End Request.

(** The own enumerable properties of an array of pairs, from the index [i]
    on: each pair under its index. *)
Fixpoint indexed (i : nat) (pairs : list (string * string)) : gmap string JSValue :=
  match pairs with
  | [] => ∅
  | (name, value) :: pairs' =>
      <[ JSString.of_Z (Z.of_nat i) := JArr [JStr name; JStr value] [] ]>
        (indexed (S i) pairs')
  end.

(** [...(headers || {})]: the spread copies the own enumerable properties,
    which are the members of a plain object, the pairs of an array under
    their indices, and none for an instance of [Headers]. *)
Definition spread (headers : option HeadersInit) : gmap string JSValue :=
  match headers with
  | Some (Headers_object members) => JStr <$> members
  | Some (Headers_pairs pairs) => indexed 0 pairs
  | Some (Headers_instance _) => ∅
  | None => ∅
  end.

(** The members of a response that the program reads.  [json] is what
    [response.json()] resolves to or rejects with. *)
Module Response.
Record t := mk
  { status : Z;
    json : completion JSValue }.

(** [response.ok]: the status is in the range 200-299. *)
Definition ok (response : t) : bool :=
  ((200 <=? status response) && (status response <=? 299))%Z.
End Response.

(** What the API server answers to a request, or the error that [fetch]
    rejects with. *)
Class Server := {
  respond : string -> Request.t -> completion Response.t
}.

(** The browser outside local storage: the requests made so far and the
    events dispatched on [window] so far. *)
Record Browser := mkBrowser
  { network : list (string * Request.t);
    dispatched : list string }.

Section api.
Context `{!Runtime} `{!Server}.

(** [fetch(url, init)] *)
Definition fetch (url : string) (init : Request.t) : IO Browser Response.t :=
  set_state (fun b => mkBrowser (network b ++ [(url, init)]) (dispatched b));;
  eval (respond url init).

(** [window.dispatchEvent(new Event(type))] *)
Definition dispatchEvent (type : string) : IO Browser unit :=
  set_state (fun b => mkBrowser (network b) (dispatched b ++ [type])).

(** [...(token ? { 'Authorization': `Bearer ${token}` } : {})] *)
Definition token_header (token : option string) : gmap string JSValue :=
  match token with
  | Some t =>
      if JSString.truthy t then {[ "Authorization" := JStr ("Bearer " +:+ t) ]} else ∅
  | None => ∅
  end.

(** The statements that both functions end with: a response that is not ok
    is thrown as an error, and the body is parsed otherwise. *)
Definition parsed_or_thrown (response : Response.t) : IO Browser JSValue :=
  (if negb (Response.ok response) then
     let errorData := match Response.json response with
                      | Normal d => d
                      | Throw _ => JObj [ ("detail", JStr "Unknown error") ]
                      end in
     detail ← eval (get errorData "detail");
     throw (Error (if truthy detail then ToString Number_toString detail
                   else "API request failed"))
   else mret tt);;
  eval (Response.json response).

(** In an object literal a later member replaces an earlier one of the same
    name: what is copied from the caller's headers comes last. *)
Definition apiFetch (endpoint : string) (options : RequestInit.t)
  : IO Browser JSValue :=
  token ← localStorage_getItem "access_token";
  let headers :=
    spread (RequestInit.headers options)
      ∪ token_header token
      ∪ {[ "Content-Type" := JStr "application/json" ]} in
  response ← fetch (BASE_URL +:+ endpoint)
               (Request.mk headers (RequestInit.rest options));
  (if (Response.status response =? 401)%Z then
     (* Handle unauthorized - clear tokens *)
     localStorage_removeItem "access_token";;
     localStorage_removeItem "refresh_token";;
     dispatchEvent "auth-reset"
   else mret tt);;
  parsed_or_thrown response.

Definition apiUpload (endpoint : string) (formData : JSValue) : IO Browser JSValue :=
  token ← localStorage_getItem "access_token";
  response ← fetch (BASE_URL +:+ endpoint)
               (Request.mk (token_header token)
                  [ ("method", JStr "POST"); ("body", formData) ]);
  parsed_or_thrown response.

End api.
End api.

(** ** The hosted table [mood_logs] *)

Module Backend.

Fixpoint split_on (c : ascii) (s : string) : list string :=
  match s with
  | EmptyString => [EmptyString]
  | String a s' =>
      if Ascii.eqb a c then EmptyString :: split_on c s'
      else match split_on c s' with
           | w :: ws => String a w :: ws
           | [] => [String a EmptyString]
           end
  end.

(** Two rows agree on the column [name].  A name that is not a column of
    the table separates all rows. *)
Definition same_column (name : string) (r1 r2 : MoodLogRow.t) : bool :=
  if String.eqb name "user_id"
  then String.eqb (MoodLogRow.user_id r1) (MoodLogRow.user_id r2)
  else if String.eqb name "date"
  then String.eqb (MoodLogRow.date r1) (MoodLogRow.date r2)
  else if String.eqb name "mood"
  then String.eqb (MoodLogRow.mood r1) (MoodLogRow.mood r2)
  else if String.eqb name "energy"
  then String.eqb (MoodLogRow.energy r1) (MoodLogRow.energy r2)
  else if String.eqb name "score"
  then Z.eqb (MoodLogRow.score r1) (MoodLogRow.score r2)
  else false.

(** Two rows conflict under [onConflict], a comma-separated list of
    columns, when they agree on each of them. *)
Definition conflict (onConflict : string) (r1 r2 : MoodLogRow.t) : bool :=
  forallb (fun name => same_column name r1 r2) (split_on ","%char onConflict).

(** Modelled from the spec: the backend's upsert, which is not code of this
    repository ("one entry per user per day (upsert key = user+date); later
    entries on the same day overwrite earlier ones").  A row that conflicts
    with a stored row replaces the first such row; otherwise it is added. *)
Definition upsert (onConflict : string) (row : MoodLogRow.t)
    (table : list MoodLogRow.t) : list MoodLogRow.t :=
  match list_find (fun r => conflict onConflict r row = true) table with
  | Some (i, _) => <[i := row]> table
  | None => table ++ [row]
  end.

(** What one request does to the table: an upsert that the backend accepts
    is applied, and nothing else changes the table. *)
Definition apply `{!Runtime} (table : list MoodLogRow.t) (ev : event)
  : list MoodLogRow.t :=
  match ev with
  | Supabase_upsert_mood_logs row onConflict =>
      match upsert_mood_logs row with
      | None => upsert onConflict row table
      | Some _ => table
      end
  | _ => table
  end.

(** The table after the requests of a trace. *)
Definition after `{!Runtime} (tr : list event) (table : list MoodLogRow.t)
  : list MoodLogRow.t :=
  foldl apply table tr.

(** The key of the invariant: one row per user and day. *)
Definition key (r : MoodLogRow.t) : string * string :=
  (MoodLogRow.user_id r, MoodLogRow.date r).

End Backend.

(** ** Observing a run *)

(** The completion, final state and final world of a run. *)
Definition completion_of {St A} (r : completion A * St * World) : completion A := r.1.1.
Definition state_of {St A} (r : completion A * St * World) : St := r.1.2.
Definition world_of {St A} (r : completion A * St * World) : World := r.2.

(** The events that a run adds to the trace of the world [w] it starts in. *)
Definition new_events {St A} (w : World) (r : completion A * St * World) : list event :=
  drop (length (trace w)) (trace (world_of r)).

Definition ended_normally {A} (c : completion A) : bool :=
  match c with Normal _ => true | Throw _ => false end.

(** A service call on its own, in a world with no past. *)
Definition world0 : World := mkWorld [] 0 ∅.

(** The world after the events [evs] and [n] readings of the clock. *)
Definition after (evs : list event) (n : nat) (w : World) : World :=
  mkWorld (trace w ++ evs) (n + ticks w) (localStorage w).
Definition outcome {A} (m : Service A) : completion A := completion_of (m tt world0).
Definition events {A} (m : Service A) : list event := trace (world_of (m tt world0)).

(** A computation that leaves the component state and the clock alone and
    adds the same events in every world. *)
Definition framed {St A} (m : IO St A) (c : completion A) (evs : list event) : Prop :=
  forall s w, m s w = (c, s, emitted evs w).

(** An event that is neither the entry of a provider adapter, nor a request
    to the backend, nor a call of the parent, nor an error report. *)
Definition quiet (ev : event) : bool :=
  match ev with
  | Gemini_generateContent _ _ | Fetch_openrouter _ _ => true
  | Console ConsoleLevel_error label =>
      negb (String.eqb label "[ChatWindow] Error in handleSend:")
  | Console _ _ => true
  | _ => false
  end.

(** A computation that is framed and adds quiet events only. *)
Definition quietly {St A} (m : IO St A) : Prop :=
  exists c evs, framed m c evs /\ forallb quiet evs = true.

(** Provider A was called. *)
Definition provider_A_called (tr : list event) : bool :=
  existsb (fun ev => match ev with
                     | Enter_analyzeMultimodalMood _ _ => true
                     | _ => false
                     end) tr.

(** The arguments of the calls of each provider adapter, in order. *)
Definition calls_of_analyzeMultimodalMood (tr : list event)
  : list (option string * list Turn.t) :=
  omap (fun ev => match ev with
                  | Enter_analyzeMultimodalMood text history => Some (text, history)
                  | _ => None
                  end) tr.

Definition calls_of_callOpenRouter (tr : list event) : list (list Turn.t) :=
  omap (fun ev => match ev with
                  | Enter_callOpenRouter messages => Some messages
                  | _ => None
                  end) tr.

(** Events of a provider adapter. *)
Definition is_provider_event (ev : event) : bool :=
  match ev with
  | Enter_analyzeMultimodalMood _ _ | Enter_callOpenRouter _
  | Gemini_generateContent _ _ | Fetch_openrouter _ _ => true
  | _ => false
  end.

(** Requests to the backend. *)
Definition is_backend_event (ev : event) : bool :=
  match ev with
  | Supabase_auth_getUser | Supabase_auth_signOut
  | Supabase_upsert_mood_logs _ _ | Supabase_select _
  | Supabase_insert_conversations _ _ | Supabase_insert_messages _ => true
  | _ => false
  end.

(** Requests that write a mood entry or a message. *)
Definition is_backend_write (ev : event) : bool :=
  match ev with
  | Supabase_upsert_mood_logs _ _ | Supabase_insert_messages _ => true
  | _ => false
  end.

Definition is_onMoodDetected (ev : event) : bool :=
  match ev with OnMoodDetected _ _ => true | _ => false end.

(** [handleSend] reports an error: the first statement of its [catch]. *)
Definition is_error_report (ev : event) : bool :=
  match ev with
  | Console ConsoleLevel_error label =>
      String.eqb label "[ChatWindow] Error in handleSend:"
  | _ => false
  end.

(** ** Closed forms of runs *)

Section closed_forms.
Context `{!Runtime}.

(** The events of one mood detection. *)
Definition handleMoodDetected_events (guest : bool) (entry : MoodLogEntry.t)
  : list event :=
  if guest then []
  else match auth_getUser with
       | None => [Supabase_auth_getUser]
       | Some user_id =>
           let row := cloudService.mood_log_row user_id entry in
           Supabase_auth_getUser
             :: Supabase_upsert_mood_logs row "user_id,date"
             :: match upsert_mood_logs row with
                | Some e => [Console ConsoleLevel_error (err_message e)]
                | None => []
                end
       end.

(** The phases of [handleSend], in terms of the completions and events of
    the service calls it awaits. *)

(** Saving a message, when the session persists messages. *)
Definition save_phase (isGuest : bool) (msg : Message.t) (activeConvId : string)
  : completion unit * list event :=
  if ChatWindow.persists isGuest activeConvId
  then (outcome (cloudService.saveMessage msg activeConvId),
        events (cloudService.saveMessage msg activeConvId))
  else (Normal tt, []).

(** The call of Provider A on the text and the recent turns. *)
Definition provider_A (closure : ChatWindow.State) : Service Analysis.t :=
  geminiService.analyzeMultimodalMood (Some (ChatWindow.inputText closure)) None None
    (ChatWindow.recent_turns (ChatWindow.messages closure)).

(** The call of Provider B on the recent turns and the user message. *)
Definition provider_B (closure : ChatWindow.State) : Service Analysis.t :=
  openRouterService.callOpenRouter (ChatWindow.openRouterHistory closure).

Definition gemini_failed : list event :=
  [ Console ConsoleLevel_warn "Gemini Analysis Failed, switching to OpenRouter:";
    Console ConsoleLevel_log "[ChatWindow] Attempting OpenRouter fallback..." ].

(** Asking the providers: Provider A, and Provider B after Provider A threw. *)
Definition provider_phase (closure : ChatWindow.State)
  : completion Analysis.t * list event :=
  let attempting := Console ConsoleLevel_log "[ChatWindow] Attempting Gemini analysis..." in
  match outcome (provider_A closure) with
  | Normal data =>
      (Normal data,
       attempting :: events (provider_A closure)
         ++ [Console ConsoleLevel_log "[ChatWindow] Gemini response received:"])
  | Throw _ =>
      (outcome (provider_B closure),
       attempting :: events (provider_A closure) ++ gemini_failed
         ++ events (provider_B closure)
         ++ (if ended_normally (outcome (provider_B closure))
             then [Console ConsoleLevel_log "[ChatWindow] OpenRouter response received:"]
             else []))
  end.

(** The check [if (!data || !data.response) throw ...]. *)
Definition checked (data : completion Analysis.t) : completion Analysis.t :=
  d ← data;
  if negb (truthy (Analysis.response d))
  then Throw (Error "No response received from AI")
  else Normal d.

(** The [catch] and [finally] of [handleSend], reached in the state [s]
    after the events [evs] and [n] readings of the clock: the error is
    reported, the error message is appended and the typing indicator is
    cleared. *)
Definition reported (error : JSError) (s : ChatWindow.State) (evs : list event)
    (n : nat) (w : World) : completion unit * ChatWindow.State * World :=
  let t := (n + ticks w)%nat in
  (Normal tt,
   ChatWindow.setIsTyping false
     (ChatWindow.setMessages
        (fun prev => prev ++ [ChatWindow.errorMsg (clock t) (clock (S t)) error]) s),
   after (evs ++ [ Console ConsoleLevel_error "[ChatWindow] Error in handleSend:";
                   Console ConsoleLevel_error "[ChatWindow] Error details:" ])
         (2 + n) w).

(** The run of [handleSend] from a state that passes its guard. *)
Definition handleSend_sent (closure : ChatWindow.State) (w : World)
  : completion unit * ChatWindow.State * World :=
  let t := ticks w in
  let activeConvId := default EmptyString (ChatWindow.activeConvId closure) in
  let userMsg := ChatWindow.userMsg (clock t) (clock (S t)) (ChatWindow.inputText closure) in
  let s1 := ChatWindow.setIsTyping true
              (ChatWindow.setInputText EmptyString
                 (ChatWindow.setMessages (fun prev => prev ++ [userMsg]) closure)) in
  let saved := save_phase (guest_flag w) userMsg activeConvId in
  match saved.1 with
  | Throw e => (Throw e, s1, after saved.2 2 w)
  | Normal _ =>
      let asked := provider_phase closure in
      let evs2 := saved.2
                    ++ [ Console ConsoleLevel_log "[ChatWindow] Sending message:";
                         Console ConsoleLevel_log "[ChatWindow] Active conversation:" ]
                    ++ asked.2 in
      match checked asked.1 with
      | Throw e => reported e s1 evs2 2 w
      | Normal data =>
          let assistantMsg :=
            ChatWindow.assistantMsg (clock (2 + t)) (clock (3 + t)) data in
          let s2 := ChatWindow.setMessages (fun prev => prev ++ [assistantMsg]) s1 in
          let saved' := save_phase (guest_flag w) assistantMsg activeConvId in
          let evs3 := evs2
                        ++ [ OnMoodDetected (Analysis.mood_state data) (Analysis.mode data) ]
                        ++ saved'.2 in
          match saved'.1 with
          | Throw e => reported e s2 evs3 4 w
          | Normal _ => (Normal tt, ChatWindow.setIsTyping false s2, after evs3 4 w)
          end
      end
  end.

(** Saving the user message does not throw. *)
Definition user_saved (closure : ChatWindow.State) (w : World) : bool :=
  ended_normally
    (save_phase (guest_flag w)
       (ChatWindow.userMsg (clock (ticks w)) (clock (S (ticks w)))
          (ChatWindow.inputText closure))
       (default EmptyString (ChatWindow.activeConvId closure))).1.

(** The state of [App] agrees with the guest flag of the world. *)
Definition in_sync (s : App.State) (w : World) : Prop :=
  App.isGuest s = guest_flag w.

End closed_forms.


(** ** Sample worlds, for running the handlers on concrete inputs *)

Module Sample.

Definition q (s : string) : string := JSString.dq +:+ s +:+ JSString.dq.

(** A reply that follows the schema, with a mood and a mode outside the
    allowed lists. *)
Definition odd_reply_text : string :=
  "{" +:+ q "mood_state" +:+ ":{" +:+ q "dominant_mood" +:+ ":" +:+ q "Confused"
    +:+ "}," +:+ q "support_mode" +:+ ":" +:+ q "cheerful"
    +:+ "," +:+ q "message" +:+ ":" +:+ q "Tell me more." +:+ "}".

Definition odd_reply : JSValue :=
  JObj [ ("mood_state", JObj [ ("dominant_mood", JStr "Confused") ]);
         ("support_mode", JStr "cheerful");
         ("message", JStr "Tell me more.") ].

(** A reply that follows the schema. *)
Definition calm_reply_text : string :=
  "{" +:+ q "mood_state" +:+ ":{" +:+ q "dominant_mood" +:+ ":" +:+ q "Sad"
    +:+ "," +:+ q "risk_score" +:+ ":0.25}," +:+ q "support_mode" +:+ ":"
    +:+ q "calming" +:+ "," +:+ q "message" +:+ ":" +:+ q "I hear you." +:+ "}".

Definition calm_reply : JSValue :=
  JObj [ ("mood_state", JObj [ ("dominant_mood", JStr "Sad");
                               ("risk_score", JNum (1 # 4)) ]);
         ("support_mode", JStr "calming");
         ("message", JStr "I hear you.") ].

(** A text inside a JSON string literal: each double quote is escaped. *)
Fixpoint escape (s : string) : string :=
  match s with
  | EmptyString => EmptyString
  | String c s' =>
      if Ascii.eqb c (ascii_of_nat 34)
      then String (ascii_of_nat 92) (String c (escape s'))
      else String c (escape s')
  end.

Definition plain_reply_text : string := "Sorry, I am not sure what to say".

(** The body of a chat-completion response whose message content is
    [content]. *)
Definition completion_body_text (content : string) : string :=
  "{" +:+ q "choices" +:+ ":[{" +:+ q "message" +:+ ":{" +:+ q "content" +:+ ":"
    +:+ q (escape content) +:+ "}}]}".
Definition completion_body (content : string) : JSValue :=
  JObj [ ("choices",
          JArr [ JObj [ ("message", JObj [ ("content", JStr content) ]) ] ] []) ].

(** [JSON.parse] on the texts above; any other text used below is not JSON. *)
Definition parse (s : string) : completion JSValue :=
  if String.eqb s odd_reply_text then Normal odd_reply
  else if String.eqb s calm_reply_text then Normal calm_reply
  else if String.eqb s "{}" then Normal (JObj [])
  else if String.eqb s (completion_body_text odd_reply_text)
  then Normal (completion_body odd_reply_text)
  else if String.eqb s (completion_body_text calm_reply_text)
  then Normal (completion_body calm_reply_text)
  else if String.eqb s (completion_body_text plain_reply_text)
  then Normal (completion_body plain_reply_text)
  else Throw (mkError "SyntaxError" "Unexpected token").

Definition http_ok (body : string) : Response.t := Response.mk true 200%Z "OK" body.

(** Answers on 2024-05-01, given the signed-in user, the answers of the two
    providers and of the backend to inserts of messages and to upserts of
    mood entries. *)
Definition runtime (signed_in : option string)
    (gemini : completion (option string)) (openrouter : completion Response.t)
    (messages_error : MessageRow.t -> option JSError)
    (mood_logs_error : option JSError) : Runtime :=
  {| clock := fun n => (1714557600000 + Z.of_nat n)%Z;
     Date_toISOString := fun _ => "2024-05-01T10:00:00.000Z";
     Date_toLocaleTimeString := fun _ => "10:00 AM";
     Number_toString := fun _ => "0";
     JSON_parse := parse;
     gemini_systemInstruction := "You are MoodDoctor AI";
     generateContent := fun _ _ => gemini;
     OPENROUTER_API_KEY := Some "sk-or-sample";
     openrouter_systemPrompt := "You are MoodDoctor AI";
     fetch := fun _ _ => openrouter;
     auth_getUser := signed_in;
     upsert_mood_logs := fun _ => mood_logs_error;
     select_conversations := inr [];
     insert_conversations := fun _ _ => inr "c-1";
     insert_messages := messages_error |}.

Definition network_down : JSError := mkError "TypeError" "Failed to fetch".
Definition backend_down : JSError := mkError "PostgrestError" "connection refused".

Definition accepted : MessageRow.t -> option JSError := fun _ => None.

(** The signed-in user's providers answer with a mood and a mode outside
    the allowed lists. *)
Definition odd_replies : Runtime :=
  runtime (Some "u1") (Normal (Some odd_reply_text))
    (Normal (http_ok (completion_body_text odd_reply_text))) accepted None.

(** Both providers answer with plain text. *)
Definition plain_replies : Runtime :=
  runtime (Some "u1") (Normal (Some plain_reply_text))
    (Normal (http_ok (completion_body_text plain_reply_text))) accepted None.

(** Provider A is unreachable, Provider B answers. *)
Definition fallback : Runtime :=
  runtime (Some "u1") (Throw network_down)
    (Normal (http_ok (completion_body_text calm_reply_text))) accepted None.

(** Both providers are unreachable. *)
Definition offline : Runtime :=
  runtime (Some "u1") (Throw network_down) (Throw network_down) accepted None.

(** The backend rejects inserts of messages. *)
Definition messages_rejected : Runtime :=
  runtime (Some "u1") (Normal (Some calm_reply_text)) (Throw network_down)
    (fun _ => Some backend_down) None.

(** The backend rejects inserts of the assistant's messages. *)
Definition replies_rejected : Runtime :=
  runtime (Some "u1") (Normal (Some calm_reply_text)) (Throw network_down)
    (fun row => match MessageRow.role row with
                | assistant => Some backend_down
                | _ => None
                end) None.

(** The backend rejects upserts of mood entries. *)
Definition moods_rejected : Runtime :=
  runtime (Some "u1") (Normal (Some calm_reply_text)) (Throw network_down)
    accepted (Some backend_down).

(** Nobody is signed in. *)
Definition signed_out : Runtime :=
  runtime None (Normal (Some calm_reply_text)) (Throw network_down) accepted None.

(** A signed-in session in which everything answers. *)
Definition signed_in : Runtime :=
  runtime (Some "u1") (Normal (Some calm_reply_text))
    (Normal (http_ok (completion_body_text calm_reply_text))) accepted None.

(** The world of a guest session when it starts: the flag is set. *)
Definition guest_world : World := mkWorld [] 0 {[ "md_is_guest" := "true" ]}.

Definition hi : list Turn.t := [Turn.mk user (JStr "hi")].

Definition sad : MoodState.t := MoodState.mk "Sad" "low" "fragile" (3 # 10).
Definition happy : MoodState.t := MoodState.mk "Happy" "high" "stable" (1 # 10).

Definition log_before : list MoodLogEntry.t :=
  [ MoodLogEntry.mk "2024-04-30" "Tired" "low" 60%Z;
    MoodLogEntry.mk "2024-05-01" "Anxious" "medium" 55%Z ].

Definition app (guest : bool) (logs : list MoodLogEntry.t) : App.State :=
  App.mkState App.main (JStr "Explorer") None SupportMode.LISTENING guest logs.

Definition earlier : list Message.t :=
  [ Message.mk "1" user (JStr "hello") 1%Z JUndefined None;
    Message.mk "2" assistant (JStr "Hi, how are you?") 2%Z JUndefined None ].

Definition chat (text : string) (typing : bool) (conv : option string)
  : ChatWindow.State :=
  ChatWindow.mkState [] conv earlier text typing false.

(** The user has typed a message in the conversation c-1. *)
Definition ready : ChatWindow.State := chat "I feel low" false (Some "c-1").

(** A space, a no-break space (U+00A0), a line separator (U+2028) and a
    tab. *)
Definition blanks : list string :=
  [ " "; JSString.bytes [194; 160]; JSString.bytes [226; 128; 168];
    JSString.bytes [9] ].

Definition blank : string := foldr String.append EmptyString blanks.

(** A transcript of seven messages. *)
Definition seven : list Message.t :=
  [ Message.mk "1" user (JStr "hello") 1%Z JUndefined None;
    Message.mk "2" assistant (JStr "Hi, how are you?") 2%Z JUndefined None;
    Message.mk "3" user (JStr "tired") 3%Z JUndefined None;
    Message.mk "4" assistant (JStr "Did you sleep?") 4%Z JUndefined None;
    Message.mk "5" user (JStr "not much") 5%Z JUndefined None;
    Message.mk "6" assistant (JStr "What kept you up?") 6%Z JUndefined None;
    Message.mk "7" user (JStr "work") 7%Z JUndefined None ].

(** The user has typed a message under the transcript of seven messages. *)
Definition ready_after_seven : ChatWindow.State :=
  ChatWindow.mkState [] (Some "c-1") seven "I feel low" false false.

(** The chat window when it is mounted. *)
Definition mounted : ChatWindow.State := ChatWindow.mkState [] None [] EmptyString false false.

Definition generic_error : JSError :=
  Error "I couldn't process the emotional data right now. Please try again.".


(** The backend's answer to the read of the mood logs. *)
Definition reads (mood_logs : JSError + list MoodLogRow.t) : BackendReads :=
  {| select_mood_logs := mood_logs |}.

Definition rows_stored : list MoodLogRow.t :=
  [ MoodLogRow.mk "u1" "2024-04-30" "Tired" "low" 60%Z;
    MoodLogRow.mk "u1" "2024-05-01" "Anxious" "medium" 55%Z ].

(** The voice analysis answers with [reply]; the first key is set. *)
Definition voice (reply : completion (option string)) : VoiceRuntime :=
  {| GEMINI_API_KEY_1 := Some "key-1";
     GEMINI_API_KEY_2 := "key-2";
     GoogleGenAI_new := fun _ => None;
     voice_systemInstruction := "You are analyzing a voice recording";
     voice_generateContent := fun _ _ _ => reply |}.

(** Answers as [signed_in], without a key for OpenRouter. *)
Definition no_key : Runtime :=
  {| clock := @clock signed_in;
     Date_toISOString := @Date_toISOString signed_in;
     Date_toLocaleTimeString := @Date_toLocaleTimeString signed_in;
     Number_toString := @Number_toString signed_in;
     JSON_parse := @JSON_parse signed_in;
     gemini_systemInstruction := @gemini_systemInstruction signed_in;
     generateContent := @generateContent signed_in;
     OPENROUTER_API_KEY := None;
     openrouter_systemPrompt := @openrouter_systemPrompt signed_in;
     fetch := @fetch signed_in;
     auth_getUser := @auth_getUser signed_in;
     upsert_mood_logs := @upsert_mood_logs signed_in;
     select_conversations := @select_conversations signed_in;
     insert_conversations := @insert_conversations signed_in;
     insert_messages := @insert_messages signed_in |}.

(** The backend has two conversations. *)
Definition with_conversations : Runtime :=
  {| clock := @clock signed_in;
     Date_toISOString := @Date_toISOString signed_in;
     Date_toLocaleTimeString := @Date_toLocaleTimeString signed_in;
     Number_toString := @Number_toString signed_in;
     JSON_parse := @JSON_parse signed_in;
     gemini_systemInstruction := @gemini_systemInstruction signed_in;
     generateContent := @generateContent signed_in;
     OPENROUTER_API_KEY := @OPENROUTER_API_KEY signed_in;
     openrouter_systemPrompt := @openrouter_systemPrompt signed_in;
     fetch := @fetch signed_in;
     auth_getUser := @auth_getUser signed_in;
     upsert_mood_logs := @upsert_mood_logs signed_in;
     select_conversations :=
       inr [ Conversation.mk "c-2" "Session 10:00 AM" "2024-05-01" None;
             Conversation.mk "c-1" "Session 09:00 AM" "2024-04-30" None ];
     insert_conversations := @insert_conversations signed_in;
     insert_messages := @insert_messages signed_in |}.

(** A session of a user without a full name. *)
Definition session : Session.t := Session.mk (JObj []) (Some "ada@example.org").

(** The API server answers every request with [response]. *)
Definition server (response : completion api.Response.t) : api.Server :=
  {| api.respond := fun _ _ => response |}.

Definition unauthorized : api.Response.t :=
  api.Response.mk 401 (Normal (JObj [ ("detail", JStr "Token expired") ])).

(** A browser that holds both tokens. *)
Definition token_world : World :=
  mkWorld [] 0 {[ "access_token" := "t-1"; "refresh_token" := "r-1" ]}.

Definition browser0 : api.Browser := api.mkBrowser [] [].

(** A reply that follows the schema but for the message, which is missing. *)
Definition silent_reply : JSValue :=
  JObj [ ("mood_state", JObj [ ("dominant_mood", JStr "Sad") ]);
         ("support_mode", JStr "listening") ].

(** Answers as [signed_in], where every text parses to [silent_reply]. *)
Definition silent : Runtime :=
  {| clock := @clock signed_in;
     Date_toISOString := @Date_toISOString signed_in;
     Date_toLocaleTimeString := @Date_toLocaleTimeString signed_in;
     Number_toString := @Number_toString signed_in;
     JSON_parse := fun _ => Normal silent_reply;
     gemini_systemInstruction := @gemini_systemInstruction signed_in;
     generateContent := @generateContent signed_in;
     OPENROUTER_API_KEY := @OPENROUTER_API_KEY signed_in;
     openrouter_systemPrompt := @openrouter_systemPrompt signed_in;
     fetch := @fetch signed_in;
     auth_getUser := @auth_getUser signed_in;
     upsert_mood_logs := @upsert_mood_logs signed_in;
     select_conversations := @select_conversations signed_in;
     insert_conversations := @insert_conversations signed_in;
     insert_messages := @insert_messages signed_in |}.

(** OpenRouter answers with the status 500 and no body. *)
Definition server_error : Runtime :=
  runtime (Some "u1") (Throw network_down)
    (Normal (Response.mk false 500%Z "Internal Server Error" EmptyString)) accepted None.

(** The authentication service gives every call the answer [answer]. *)
Definition auth_service (answer : completion (JSError + Auth.AuthData.t))
  : Auth.AuthService :=
  {| Auth.signUp := fun _ _ _ => answer;
     Auth.signInWithPassword := fun _ _ => answer;
     Auth.verifyOtp := fun _ _ => answer |}.

Definition invalid_credentials : JSError :=
  mkError "AuthApiError" "Invalid login credentials".

(** The answer to a sign-in of a user with a full name. *)
Definition signed_in_data : Auth.AuthData.t :=
  Auth.AuthData.mk (JObj [ ("full_name", JStr "Ada") ]) (Some "jwt-1").

(** The sign-in form, filled in. *)
Definition form : Auth.State :=
  Auth.mkState Auth.login "ada@example.org" "secret" EmptyString EmptyString
    false None None.

(** The capture with an image taken. *)
Definition image_taken : MultimodalCapture.State :=
  MultimodalCapture.mkState (Some "aGVsbG8=") None false None.

(** The capture when it opens. *)
Definition nothing_captured : MultimodalCapture.State :=
  MultimodalCapture.mkState None None false None.

End Sample.

(** * Properties *)

(** ** Running computations *)

Ltac run_io :=
  unfold mbind, mret, IO_mbind, IO_mret, IO_bind, IO_ret, try_catch, try_finally,
    not_awaited, await, throw, eval, console, emit, get_state, set_state, Date_now,
    localStorage_getItem, localStorage_setItem, localStorage_removeItem in *;
  simpl in *.

(** Both sides are runs that differ in the bracketing of their traces. *)
Ltac trace_eq :=
  unfold after, emitted; cbn [trace ticks localStorage];
  rewrite ?app_nil_r;
  repeat first [rewrite <- !app_assoc | rewrite <- !app_comm_cons | progress simpl];
  reflexivity.

#[local] Arguments await : simpl never.
#[local] Arguments events : simpl never.
#[local] Arguments outcome : simpl never.

Lemma run_bind {St A B} (m : IO St A) (k : A -> IO St B) s w :
  (m ≫= k) s w =
  match m s w with
  | (Normal a, s', w') => k a s' w'
  | (Throw e, s', w') => (Throw e, s', w')
  end.
Proof. reflexivity. Qed.

Lemma emitted_nil w : emitted [] w = w.
Proof. destruct w. unfold emitted. cbn. by rewrite app_nil_r. Qed.

Lemma emitted_emitted evs1 evs2 w :
  emitted evs2 (emitted evs1 w) = emitted (evs1 ++ evs2) w.
Proof. unfold emitted. cbn. by rewrite app_assoc. Qed.

Lemma new_events_app {St A} (w : World) (r : completion A * St * World) evs :
  trace (world_of r) = trace w ++ evs -> new_events w r = evs.
Proof.
  intros H. unfold new_events. rewrite H. by rewrite drop_app_length.
Qed.

Lemma new_events_after {St A} (w : World) (c : completion A) (s : St) evs n :
  new_events w (c, s, after evs n w) = evs.
Proof. by apply new_events_app. Qed.

Lemma new_events_emitted {St A} (w : World) (c : completion A) (s : St) evs :
  new_events w (c, s, emitted evs w) = evs.
Proof. by apply new_events_app. Qed.

Lemma new_events_none {St A} (w : World) (c : completion A) (s : St) :
  new_events w (c, s, w) = [].
Proof. unfold new_events, world_of. cbn [snd]. by rewrite drop_all. Qed.

(** ** Frames of computations *)

Section frames.
Context `{!Runtime}.

Lemma framed_ret {St A} (a : A) : framed (St:=St) (mret a) (Normal a) [].
Proof. intros s w. by rewrite emitted_nil. Qed.

Lemma framed_eval {St A} (c : completion A) : framed (St:=St) (eval c) c [].
Proof. intros s w. by rewrite emitted_nil. Qed.

Lemma framed_throw {St A} e : framed (St:=St) (A:=A) (throw e) (Throw e) [].
Proof. intros s w. by rewrite emitted_nil. Qed.

Lemma framed_emit {St} ev : framed (St:=St) (emit ev) (Normal tt) [ev].
Proof. by intros s w. Qed.

Lemma framed_bind {St A B} (m : IO St A) (k : A -> IO St B) a evs1 c evs2 :
  framed m (Normal a) evs1 -> framed (k a) c evs2 ->
  framed (m ≫= k) c (evs1 ++ evs2).
Proof.
  intros Hm Hk s w. by rewrite run_bind, Hm, Hk, emitted_emitted.
Qed.

Lemma framed_bind_throw {St A B} (m : IO St A) (k : A -> IO St B) e evs :
  framed m (Throw e) evs -> framed (m ≫= k) (Throw e) evs.
Proof. intros Hm s w. by rewrite run_bind, Hm. Qed.

Lemma framed_try_catch {St A} (m : IO St A) h a evs :
  framed m (Normal a) evs -> framed (try_catch m h) (Normal a) evs.
Proof. intros Hm s w. unfold try_catch. by rewrite Hm. Qed.

Lemma framed_try_catch_throw {St A} (m : IO St A) h e evs1 c evs2 :
  framed m (Throw e) evs1 -> framed (h e) c evs2 ->
  framed (try_catch m h) c (evs1 ++ evs2).
Proof.
  intros Hm Hh s w. unfold try_catch. by rewrite Hm, Hh, emitted_emitted.
Qed.

(** A framed service call completes and adds events as on its own. *)
Lemma framed_outcome {A} (m : Service A) c evs :
  framed m c evs -> outcome m = c /\ events m = evs.
Proof. intros Hm. unfold outcome, events. by rewrite Hm. Qed.

Lemma await_run {St A} (m : Service A) (s : St) w :
  (exists c evs, framed m c evs) ->
  await m s w = (outcome m, s, emitted (events m) w).
Proof.
  intros (c & evs & Hm).
  destruct (framed_outcome m c evs Hm) as [-> ->].
  unfold await. by rewrite Hm.
Qed.

End frames.

(** ** Quiet computations *)

Section quietly.
Context `{!Runtime}.

Lemma quietly_ret {St A} (a : A) : quietly (St:=St) (mret a).
Proof. exists (Normal a), []. split; [apply framed_ret | done]. Qed.

Lemma quietly_eval {St A} (c : completion A) : quietly (St:=St) (eval c).
Proof. exists c, []. split; [apply framed_eval | done]. Qed.

Lemma quietly_throw {St A} e : quietly (St:=St) (A:=A) (throw e).
Proof. exists (Throw e), []. split; [apply framed_throw | done]. Qed.

Lemma quietly_emit {St} ev : quiet ev = true -> quietly (St:=St) (emit ev).
Proof.
  intros Hq. exists (Normal tt), [ev]. split; [apply framed_emit |].
  cbn [forallb]. by rewrite Hq.
Qed.

Lemma quietly_bind {St A B} (m : IO St A) (k : A -> IO St B) :
  quietly m -> (forall a, quietly (k a)) -> quietly (m ≫= k).
Proof.
  intros ([a|e] & evs & Hm & Hq) Hk.
  - destruct (Hk a) as (c & evs' & Hka & Hq').
    exists c, (evs ++ evs'). split; [by eapply framed_bind |].
    by rewrite forallb_app, Hq, Hq'.
  - exists (Throw e), evs. split; [by apply framed_bind_throw | done].
Qed.

Lemma quietly_try_catch {St A} (m : IO St A) h :
  quietly m -> (forall e, quietly (h e)) -> quietly (try_catch m h).
Proof.
  intros ([a|e] & evs & Hm & Hq) Hh.
  - exists (Normal a), evs. split; [by apply framed_try_catch | done].
  - destruct (Hh e) as (c & evs' & Hhe & Hq').
    exists c, (evs ++ evs'). split; [by eapply framed_try_catch_throw |].
    by rewrite forallb_app, Hq, Hq'.
Qed.

(** A computation that emits [ev] and goes on quietly. *)
Lemma framed_entry {St A} ev (m : IO St A) :
  quietly m ->
  exists c tail, framed (emit ev;; m) c (ev :: tail) /\ forallb quiet tail = true.
Proof.
  intros (c & evs & Hm & Hq). exists c, evs. split; [| done].
  apply (framed_bind (emit ev) (fun _ => m) tt [ev] c evs); [apply framed_emit | done].
Qed.

End quietly.

Ltac quietly_step :=
  lazymatch goal with
  | |- quietly (mbind _ _) => apply quietly_bind; [| intros ?]
  | |- quietly (try_catch _ _) => apply quietly_try_catch; [| intros ?]
  | |- quietly (mret _) => apply quietly_ret
  | |- quietly (eval _) => apply quietly_eval
  | |- quietly (throw _) => apply quietly_throw
  | |- quietly (emit _) => apply quietly_emit; reflexivity
  | |- quietly (console _ _) => apply quietly_emit; reflexivity
  | |- quietly (match ?x with _ => _ end) => destruct x
  | |- quietly (let _ := _ in _) => cbv zeta
  end.

(** Quiet events are no calls of a provider or of the parent, no requests to
    the backend and no error reports. *)
Lemma quiet_calls tail :
  forallb quiet tail = true ->
  calls_of_analyzeMultimodalMood tail = []
  /\ calls_of_callOpenRouter tail = []
  /\ existsb is_backend_event tail = false
  /\ existsb is_onMoodDetected tail = false
  /\ existsb is_error_report tail = false.
Proof.
  induction tail as [|ev tail IH]; [done |].
  simpl. intros [Hev Htail]%andb_true_iff.
  destruct (IH Htail) as (HA & HB & Hbackend & Hparent & Hreport).
  unfold calls_of_analyzeMultimodalMood, calls_of_callOpenRouter in *.
  destruct ev as [[] label| | | | | | | | | | |]; try discriminate Hev; simpl in *;
    rewrite ?HA, ?HB, ?Hbackend, ?Hparent, ?Hreport; try done.
  apply negb_true_iff in Hev. by rewrite Hev.
Qed.

Lemma calls_of_callOpenRouter_app tr1 tr2 :
  calls_of_callOpenRouter (tr1 ++ tr2)
  = calls_of_callOpenRouter tr1 ++ calls_of_callOpenRouter tr2.
Proof. apply omap_app. Qed.

Lemma calls_of_analyzeMultimodalMood_app tr1 tr2 :
  calls_of_analyzeMultimodalMood (tr1 ++ tr2)
  = calls_of_analyzeMultimodalMood tr1 ++ calls_of_analyzeMultimodalMood tr2.
Proof. apply omap_app. Qed.

Lemma provider_A_called_calls tr :
  provider_A_called tr = true <-> calls_of_analyzeMultimodalMood tr <> [].
Proof.
  unfold provider_A_called, calls_of_analyzeMultimodalMood.
  induction tr as [|ev tr IH]; [done |].
  destruct ev; cbn; try (rewrite IH; done); done.
Qed.


(** ** The services *)

Section services.
Context `{!Runtime}.

Lemma saveMessage_framed msg id :
  framed (cloudService.saveMessage msg id)
    (match auth_getUser with
     | None => Normal tt
     | Some user_id =>
         match insert_messages (cloudService.message_row user_id msg id) with
         | Some e => Throw e
         | None => Normal tt
         end
     end)
    (match auth_getUser with
     | None => [Supabase_auth_getUser]
     | Some user_id =>
         [Supabase_auth_getUser;
          Supabase_insert_messages (cloudService.message_row user_id msg id)]
     end).
Proof.
  intros s w. unfold cloudService.saveMessage, cloudService.getUser. run_io.
  destruct auth_getUser; [| done]. simpl. rewrite emitted_emitted.
  by destruct (insert_messages _).
Qed.

Lemma saveMoodEntry_framed entry :
  framed (cloudService.saveMoodEntry entry)
    (match auth_getUser with
     | None => Normal tt
     | Some user_id =>
         match upsert_mood_logs (cloudService.mood_log_row user_id entry) with
         | Some e => Throw e
         | None => Normal tt
         end
     end)
    (match auth_getUser with
     | None => [Supabase_auth_getUser]
     | Some user_id =>
         [Supabase_auth_getUser;
          Supabase_upsert_mood_logs (cloudService.mood_log_row user_id entry)
            "user_id,date"]
     end).
Proof.
  intros s w. unfold cloudService.saveMoodEntry, cloudService.getUser. run_io.
  destruct auth_getUser; [| done]. simpl. rewrite emitted_emitted.
  by destruct (upsert_mood_logs _).
Qed.

Lemma saveMessage_events msg id :
  events (cloudService.saveMessage msg id) =
    match auth_getUser with
    | None => [Supabase_auth_getUser]
    | Some user_id =>
        [Supabase_auth_getUser;
         Supabase_insert_messages (cloudService.message_row user_id msg id)]
    end.
Proof. by destruct (framed_outcome _ _ _ (saveMessage_framed msg id)). Qed.

Lemma analyzeMultimodalMood_framed text image audio history :
  exists c tail,
    framed (geminiService.analyzeMultimodalMood text image audio history) c
      (Enter_analyzeMultimodalMood text history :: tail)
    /\ forallb quiet tail = true.
Proof.
  unfold geminiService.analyzeMultimodalMood. apply framed_entry.
  repeat quietly_step.
Qed.

Lemma callOpenRouter_framed messages :
  exists c tail,
    framed (openRouterService.callOpenRouter messages) c
      (Enter_callOpenRouter messages :: tail)
    /\ forallb quiet tail = true.
Proof.
  unfold openRouterService.callOpenRouter, openRouterService.callOpenRouter_model,
    openRouterService.parse_content.
  apply framed_entry. repeat quietly_step.
Qed.

Lemma provider_A_framed s : exists c evs, framed (provider_A s) c evs.
Proof.
  destruct (analyzeMultimodalMood_framed (Some (ChatWindow.inputText s)) None None
              (ChatWindow.recent_turns (ChatWindow.messages s))) as (c & tail & Hm & _).
  eauto.
Qed.

Lemma provider_B_framed s : exists c evs, framed (provider_B s) c evs.
Proof.
  destruct (callOpenRouter_framed (ChatWindow.openRouterHistory s)) as (c & tail & Hm & _).
  eauto.
Qed.

Lemma provider_A_events s :
  exists tail,
    events (provider_A s)
    = Enter_analyzeMultimodalMood (Some (ChatWindow.inputText s))
        (ChatWindow.recent_turns (ChatWindow.messages s)) :: tail
    /\ forallb quiet tail = true.
Proof.
  destruct (analyzeMultimodalMood_framed (Some (ChatWindow.inputText s)) None None
              (ChatWindow.recent_turns (ChatWindow.messages s))) as (c & tail & Hm & Hq).
  exists tail. split; [| done]. by destruct (framed_outcome _ _ _ Hm).
Qed.

Lemma provider_B_events s :
  exists tail,
    events (provider_B s) = Enter_callOpenRouter (ChatWindow.openRouterHistory s) :: tail
    /\ forallb quiet tail = true.
Proof.
  destruct (callOpenRouter_framed (ChatWindow.openRouterHistory s))
    as (c & tail & Hm & Hq).
  exists tail. split; [| done]. by destruct (framed_outcome _ _ _ Hm).
Qed.

End services.

(** ** The response normalizers *)

Lemma lookup_assign_prop k x props : lookup_prop k (assign_prop k x props) = x.
Proof.
  induction props as [|[k' v] props IH]; cbn [assign_prop lookup_prop].
  - by rewrite String.eqb_refl.
  - destruct (String.eqb k' k) eqn:Hk; cbn [lookup_prop]; by rewrite Hk.
Qed.

Lemma get_set v k x v' : set v k x = Normal v' -> get v' k = Normal x.
Proof.
  destruct v; try discriminate; intros [= <-]; cbn [get];
    by rewrite lookup_assign_prop.
Qed.

Lemma includes_In l v :
  includes l v = true -> exists m, v = JStr m /\ In m l.
Proof.
  destruct v; try discriminate. cbn [includes].
  intros (m & Hin & ->%String.eqb_eq)%existsb_exists. eauto.
Qed.

Lemma coerceSupportMode_member value :
  In (openRouterService.coerceSupportMode value) SupportMode.members.
Proof.
  unfold openRouterService.coerceSupportMode, SupportMode.members.
  repeat case_match; cbn [In]; auto 10.
Qed.

(** A value that is not one of the other four modes, in any case of the
    letters, is coerced to [LISTENING]. *)
Lemma coerceSupportMode_default value :
  (forall s, value = JStr s ->
             ~ In (JSString.toUpperCase s)
                  [SupportMode.CALMING; SupportMode.MOTIVATION;
                   SupportMode.STABILITY; SupportMode.CRISIS_AWARE]) ->
  openRouterService.coerceSupportMode value = SupportMode.LISTENING.
Proof.
  intros Hother. unfold openRouterService.coerceSupportMode.
  destruct value as [| | | |s| |]; try reflexivity.
  specialize (Hother s eq_refl). cbn [In] in Hother.
  repeat case_match; try reflexivity; exfalso; apply Hother;
    match goal with H : String.eqb _ _ = true |- _ => apply String.eqb_eq in H end;
    unfold SupportMode.CALMING, SupportMode.MOTIVATION, SupportMode.STABILITY,
      SupportMode.CRISIS_AWARE; auto 10.
Qed.

Section normalizers.
Context `{!Runtime}.

(** On the Gemini path the mood of a result is in the allowed list. *)
Lemma gemini_normalize_allowed response_text r :
  geminiService.normalize response_text = Normal r ->
  exists m, get (Analysis.mood_state r) "dominant_mood" = Normal (JStr m)
            /\ In m geminiService.ALLOWED_MOODS.
Proof.
  unfold geminiService.normalize, mbind, completion_mbind, and_then, mret, completion_mret.
  destruct (JSON_parse _) as [data|]; [| discriminate].
  destruct (get data "mood_state") as [mood_state|]; [| discriminate].
  destruct (get mood_state "dominant_mood") as [dominant_mood|] eqn:Hget; [| discriminate].
  destruct (includes _ dominant_mood) eqn:Hin; cbn [negb].
  - destruct (get data "support_mode") as [support_mode|]; [| discriminate].
    destruct (geminiService.call_toUpperCase support_mode); [| discriminate].
    destruct (get data "message"); [| discriminate].
    intros [= <-]. cbn [Analysis.mood_state].
    apply includes_In in Hin as (m & -> & Hm). eauto.
  - destruct (set mood_state _ _) as [mood_state'|] eqn:Hset; [| discriminate].
    destruct (get data "support_mode") as [support_mode|]; [| discriminate].
    destruct (geminiService.call_toUpperCase support_mode); [| discriminate].
    destruct (get data "message"); [| discriminate].
    intros [= <-]. cbn [Analysis.mood_state].
    exists "Neutral". split; [by eapply get_set |].
    unfold geminiService.ALLOWED_MOODS. cbn [In]. auto 10.
Qed.

(** The completion of [analyzeMultimodalMood]: the normalized reply, or the
    one error it throws for every failure. *)
Lemma analyzeMultimodalMood_outcome text imageBuffer audioBuffer history :
  outcome (geminiService.analyzeMultimodalMood text imageBuffer audioBuffer history) =
    match generateContent gemini_systemInstruction
            (geminiService.build_parts text imageBuffer audioBuffer history)
          ≫= geminiService.normalize with
    | Normal r => Normal r
    | Throw _ =>
        Throw (Error "I couldn't process the emotional data right now. Please try again.")
    end.
Proof.
  unfold outcome, completion_of, geminiService.analyzeMultimodalMood.
  unfold mbind at 3. unfold completion_mbind, and_then.
  run_io.
  destruct (generateContent _ _) as [response_text|]; [| reflexivity].
  cbn [fst snd]. by destruct (geminiService.normalize response_text).
Qed.

(** The completion of the inner [try] of [callOpenRouter]: it never throws. *)
Lemma parse_content_outcome content :
  outcome (openRouterService.parse_content content) =
    Normal (match openRouterService.normalize content with
            | Normal r => r
            | Throw _ =>
                Analysis.mk openRouterService.fallback_mood_state
                  SupportMode.LISTENING content
            end).
Proof.
  unfold outcome, completion_of, openRouterService.parse_content. run_io.
  by destruct (openRouterService.normalize content).
Qed.

Lemma parse_content_run content s w :
  exists evs,
    openRouterService.parse_content content s w
    = (outcome (openRouterService.parse_content content), s, emitted evs w).
Proof.
  rewrite parse_content_outcome. unfold openRouterService.parse_content. run_io.
  destruct (openRouterService.normalize content).
  - exists []. by rewrite emitted_nil.
  - by eexists [_].
Qed.

(** The completion of [callOpenRouter] once the reply has arrived and its
    body has been read. *)
Lemma callOpenRouter_outcome messages response data content :
  openRouterService.api_key_missing = false ->
  fetch "deepseek/deepseek-chat"
    (Turn.mk system (JStr openrouter_systemPrompt) :: messages) = Normal response ->
  Response.ok response = true ->
  JSON_parse (Response.body response) = Normal data ->
  openRouterService.message_content data = Normal content ->
  outcome (openRouterService.callOpenRouter messages)
  = outcome (openRouterService.parse_content content).
Proof.
  intros Hkey Hfetch Hok Hbody Hcontent.
  unfold outcome at 1. unfold completion_of, openRouterService.callOpenRouter,
    openRouterService.callOpenRouter_model.
  rewrite Hkey. run_io. rewrite Hfetch. cbn [fst snd]. rewrite Hok. cbn [negb fst snd].
  rewrite Hbody. cbn [fst snd]. rewrite Hcontent. cbn [fst snd].
  match goal with
  | |- context [openRouterService.parse_content content tt ?w] =>
      destruct (parse_content_run content tt w) as (evs & Hrun)
  end.
  rewrite Hrun. rewrite parse_content_outcome. reflexivity.
Qed.

End normalizers.

(** ** Replacing the first match or appending keeps keys distinct *)

Section replace_or_append.
Context {A K : Type} (f : A -> K) (P : A -> Prop) `{!forall x, Decision (P x)}.
Context (new : A) (P_key : forall x, P x <-> f x = f new).

Lemma replace_or_append_keys l :
  f <$> (match list_find P l with
       | Some (i, _) => <[i := new]> l
       | None => l ++ [new]
       end) = f <$> l \/
  ((f new ∉ f <$> l) /\ f <$> (match list_find P l with
       | Some (i, _) => <[i := new]> l
       | None => l ++ [new]
       end) = (f <$> l) ++ [f new]).
Proof using P_key.
  destruct (list_find P l) as [[i x]|] eqn:Hfind.
  - left. apply list_find_Some in Hfind as (Hi & Hx & _).
    rewrite list_fmap_insert. apply list_insert_id.
    rewrite list_lookup_fmap, Hi. simpl. f_equal. by apply P_key.
  - right. apply list_find_None in Hfind. rewrite Forall_forall in Hfind.
    split; [| by rewrite fmap_app].
    intros (x & Hx & Hin)%list_elem_of_fmap.
    apply (Hfind x Hin). by apply P_key.
Qed.

Lemma replace_or_append_NoDup l :
  NoDup (f <$> l) -> NoDup (f <$> (match list_find P l with
       | Some (i, _) => <[i := new]> l
       | None => l ++ [new]
       end)).
Proof using P_key.
  intros Hnd. destruct (replace_or_append_keys l) as [-> | [Hnew ->]]; [done |].
  apply NoDup_app. split; [done |]. split; [| apply NoDup_singleton].
  by intros k Hk ->%list_elem_of_singleton.
Qed.
End replace_or_append.

(** ** The mood-log merge *)

Section mood_log.
Implicit Types (prev : list MoodLogEntry.t) (today : string).

Lemma mergeMoodLog_overwrite today new prev i e :
  prev !! i = Some e ->
  MoodLogEntry.date e = today ->
  (forall j e', (j < i)%nat -> prev !! j = Some e' -> MoodLogEntry.date e' <> today) ->
  App.mergeMoodLog today new prev = <[i := new]> prev.
Proof.
  intros Hi He Hfirst. unfold App.mergeMoodLog.
  destruct (list_find _ prev) as [[k x]|] eqn:Hfind.
  - apply list_find_Some in Hfind as (Hk & Hx & Hmin).
    destruct (Nat.lt_trichotomy k i) as [Hlt | [-> | Hgt]]; [| done |].
    + exfalso. by apply (Hfirst k x).
    + exfalso. by apply (Hmin i e).
  - apply list_find_None in Hfind.
    rewrite Forall_forall in Hfind. exfalso.
    apply (Hfind e); [| done]. by eapply list_elem_of_lookup_2.
Qed.

Lemma mergeMoodLog_append today new prev :
  Forall (fun e => MoodLogEntry.date e <> today) prev ->
  App.mergeMoodLog today new prev = prev ++ [new].
Proof.
  intros Hnone. unfold App.mergeMoodLog.
  destruct (list_find _ prev) as [[k x]|] eqn:Hfind; [| done].
  apply list_find_Some in Hfind as (Hk & Hx & _).
  rewrite Forall_forall in Hnone. exfalso. apply (Hnone x); [| done].
  by eapply list_elem_of_lookup_2.
Qed.

Lemma mergeMoodLog_has_today today new prev :
  MoodLogEntry.date new = today ->
  today ∈ MoodLogEntry.date <$> App.mergeMoodLog today new prev.
Proof.
  intros Hnew. unfold App.mergeMoodLog.
  destruct (list_find _ prev) as [[k x]|] eqn:Hfind.
  - apply list_find_Some in Hfind as (Hk & Hx & _).
    apply list_elem_of_fmap. exists new. split; [done |].
    eapply list_elem_of_lookup_2. apply list_lookup_insert_eq.
    by eapply lookup_lt_Some.
  - rewrite fmap_app. apply elem_of_app. right.
    by apply list_elem_of_singleton.
Qed.

Lemma mergeMoodLog_length_same_day today new prev :
  today ∈ MoodLogEntry.date <$> prev ->
  length (App.mergeMoodLog today new prev) = length prev.
Proof.
  intros (x & Hx & Hin)%list_elem_of_fmap. unfold App.mergeMoodLog.
  destruct (list_find _ prev) as [[k y]|] eqn:Hfind.
  - apply length_insert.
  - apply list_find_None in Hfind. rewrite Forall_forall in Hfind.
    exfalso. by apply (Hfind x).
Qed.

Lemma mergeMoodLog_NoDup today new prev :
  MoodLogEntry.date new = today ->
  NoDup (MoodLogEntry.date <$> prev) ->
  NoDup (MoodLogEntry.date <$> App.mergeMoodLog today new prev).
Proof.
  intros Hnew. apply (replace_or_append_NoDup MoodLogEntry.date).
  intros x. by rewrite Hnew.
Qed.
End mood_log.

(** ** The backend's upsert under the key (user_id, date) *)

Lemma conflict_user_date r1 r2 :
  Backend.conflict "user_id,date" r1 r2 = true <-> Backend.key r1 = Backend.key r2.
Proof.
  unfold Backend.conflict, Backend.key.
  change (Backend.split_on _ _) with ["user_id"; "date"].
  change (forallb _ _) with
    (String.eqb (MoodLogRow.user_id r1) (MoodLogRow.user_id r2)
     && (String.eqb (MoodLogRow.date r1) (MoodLogRow.date r2) && true)).
  rewrite andb_true_r, andb_true_iff, !String.eqb_eq.
  split; [by intros [-> ->] | by intros [= -> ->]].
Qed.

Lemma upsert_NoDup row table :
  NoDup (Backend.key <$> table) ->
  NoDup (Backend.key <$> Backend.upsert "user_id,date" row table).
Proof.
  apply (replace_or_append_NoDup Backend.key). intros r. apply conflict_user_date.
Qed.

(** ** [handleMoodDetected], run *)

Section handleMoodDetected.
Context `{!Runtime}.

Lemma handleMoodDetected_run mood mode s w :
  let today := App.today_of (clock (ticks w)) in
  let entry := App.newEntry today mood in
  App.handleMoodDetected mood mode s w =
    (Normal tt,
     App.setMoodLogs (App.mergeMoodLog today entry)
       (App.setSupportMode mode (App.setCurrentMood (Some mood) s)),
     after (handleMoodDetected_events (App.isGuest s) entry) 1 w).
Proof.
  intros today entry. unfold App.handleMoodDetected, handleMoodDetected_events.
  unfold mbind, mret, IO_mbind, IO_mret, IO_bind, IO_ret, try_catch, get_state,
    set_state, Date_now, console, emit. cbn beta iota zeta.
  fold today. fold entry.
  destruct (App.isGuest s); cbn [negb].
  - f_equal. trace_eq.
  - rewrite await_run by (eexists _, _; apply saveMoodEntry_framed).
    destruct (framed_outcome _ _ _ (saveMoodEntry_framed entry)) as [-> ->].
    destruct auth_getUser as [u|]; [| f_equal; trace_eq].
    cbv zeta. destruct (upsert_mood_logs _); f_equal; trace_eq.
Qed.

Lemma handleMoodDetected_logs mood mode s w :
  App.moodLogs (state_of (App.handleMoodDetected mood mode s w)) =
    App.mergeMoodLog (App.today_of (clock (ticks w)))
      (App.newEntry (App.today_of (clock (ticks w))) mood) (App.moodLogs s).
Proof. by rewrite handleMoodDetected_run. Qed.

Lemma handleMoodDetected_new_events mood mode s w :
  new_events w (App.handleMoodDetected mood mode s w) =
    handleMoodDetected_events (App.isGuest s)
      (App.newEntry (App.today_of (clock (ticks w))) mood).
Proof. rewrite handleMoodDetected_run. apply new_events_after. Qed.

(** Without a mood the handler throws on reading the risk score, after
    the two setters and the reading of the clock. *)
Lemma handleMoodDetected_without_mood_run mood mode s w :
  App.handleMoodDetected_without_mood mood mode s w
  = (Throw (TypeError ("Cannot read properties of "
                         +:+ match mood with
                             | absent_undefined => "undefined"
                             | absent_null => "null"
                             end
                         +:+ " (reading 'risk_score')")),
     App.setSupportMode mode (App.setCurrentMood None s),
     mkWorld (trace w) (S (ticks w)) (localStorage w)).
Proof.
  unfold App.handleMoodDetected_without_mood.
  unfold mbind, mret, IO_mbind, IO_mret, IO_bind, IO_ret, eval, set_state, Date_now.
  by destruct mood.
Qed.

Lemma handleMoodDetected_without_mood_new_events mood mode s w :
  new_events w (App.handleMoodDetected_without_mood mood mode s w) = [].
Proof.
  rewrite handleMoodDetected_without_mood_run.
  unfold new_events, world_of. cbn. apply drop_all.
Qed.

(** The sibling path of the saves of messages: [handleMoodDetected] logs a
    rejected upsert on the console, completes normally and keeps the merged
    log. *)
Lemma handleMoodDetected_save_failure mood mode s w user_id e :
  App.isGuest s = false ->
  auth_getUser = Some user_id ->
  let today := App.today_of (clock (ticks w)) in
  let entry := App.newEntry today mood in
  upsert_mood_logs (cloudService.mood_log_row user_id entry) = Some e ->
  let r := App.handleMoodDetected mood mode s w in
  completion_of r = Normal tt
  /\ App.moodLogs (state_of r) = App.mergeMoodLog today entry (App.moodLogs s)
  /\ new_events w r
     = [ Supabase_auth_getUser;
         Supabase_upsert_mood_logs (cloudService.mood_log_row user_id entry) "user_id,date";
         Console ConsoleLevel_error (err_message e) ].
Proof.
  intros Hguest Huser today entry Hupsert r. subst r.
  rewrite handleMoodDetected_new_events, handleMoodDetected_run.
  unfold handleMoodDetected_events. rewrite Hguest, Huser.
  fold today. fold entry. cbv zeta. rewrite Hupsert. done.
Qed.

End handleMoodDetected.

(** ** The guest flag and the state of [App] *)

Section guest_flag.
Context `{!Runtime}.

(** [App] starts in agreement with the flag, and its handlers keep it so. *)
Lemma mount_in_sync w : in_sync (App.mount w) w.
Proof. reflexivity. Qed.

Lemma handleLogin_in_sync user token s w :
  in_sync s w ->
  in_sync (state_of (App.handleLogin user token s w))
          (world_of (App.handleLogin user token s w)).
Proof.
  unfold in_sync, App.handleLogin, guest_flag. intros Hsync. run_io.
  destruct (String.eqb token "guest-token"), (truthy (App.full_name user)); cbn;
    try exact Hsync; by rewrite lookup_insert_eq, bool_decide_eq_true_2.
Qed.

Lemma handleLogout_in_sync s w :
  in_sync (state_of (App.handleLogout s w)) (world_of (App.handleLogout s w)).
Proof.
  unfold in_sync, App.handleLogout, guest_flag. run_io.
  rewrite lookup_delete_ne by done. rewrite lookup_delete_eq.
  by rewrite bool_decide_eq_false_2.
Qed.

Lemma handleMoodDetected_in_sync mood mode s w :
  in_sync s w ->
  in_sync (state_of (App.handleMoodDetected mood mode s w))
          (world_of (App.handleMoodDetected mood mode s w)).
Proof. rewrite handleMoodDetected_run. done. Qed.

End guest_flag.

(** ** [handleSend], run *)

Section handleSend.
Context `{!Runtime}.

Lemma saveMessage_well_framed msg id :
  exists c evs, framed (cloudService.saveMessage msg id) c evs.
Proof. eexists _, _. apply saveMessage_framed. Qed.

Lemma handleSend_blocked s w :
  ChatWindow.sendable s = false -> ChatWindow.handleSend s w = (Normal tt, s, w).
Proof.
  intros Hs. apply negb_false_iff in Hs. unfold ChatWindow.handleSend.
  unfold mbind, IO_mbind, IO_bind, get_state. by rewrite Hs.
Qed.

Lemma handleSend_run s w :
  ChatWindow.sendable s = true -> ChatWindow.handleSend s w = handleSend_sent s w.
Proof.
  intros Hs. apply negb_true_iff in Hs.
  unfold ChatWindow.handleSend, handleSend_sent, save_phase, provider_phase, checked,
    reported.
  unfold provider_A, provider_B.
  unfold mbind, mret, IO_mbind, IO_mret, IO_bind, IO_ret, completion_mbind, and_then,
    try_catch, try_finally, throw, eval, console, emit, get_state, set_state,
    Date_now, localStorage_getItem.
  cbn beta iota. rewrite Hs. cbn beta iota zeta.
  cbn [trace ticks localStorage emitted]. fold (guest_flag w).
  destruct (ChatWindow.persists _ _) eqn:Hp; cbn beta iota zeta.
  - rewrite await_run by apply saveMessage_well_framed.
    destruct (outcome (cloudService.saveMessage _ _)) as [[]|e0]; simpl;
      [| f_equal; trace_eq].
    rewrite await_run by apply (provider_A_framed s).
    destruct (outcome (geminiService.analyzeMultimodalMood _ _ _ _)) as [d|eA]; simpl.
    + destruct (truthy (Analysis.response d)); simpl.
      * rewrite await_run by apply saveMessage_well_framed.
        destruct (outcome (cloudService.saveMessage _ _)) as [[]|e3]; simpl;
          f_equal; trace_eq.
      * f_equal; trace_eq.
    + rewrite await_run by apply (provider_B_framed s).
      destruct (outcome (openRouterService.callOpenRouter _)) as [d|eB]; simpl.
      * destruct (truthy (Analysis.response d)); simpl.
        -- rewrite await_run by apply saveMessage_well_framed.
           destruct (outcome (cloudService.saveMessage _ _)) as [[]|e3]; simpl;
             f_equal; trace_eq.
        -- f_equal; trace_eq.
      * f_equal; trace_eq.
  - rewrite await_run by apply (provider_A_framed s).
    destruct (outcome (geminiService.analyzeMultimodalMood _ _ _ _)) as [d|eA]; simpl.
    + destruct (truthy (Analysis.response d)); simpl; f_equal; trace_eq.
    + rewrite await_run by apply (provider_B_framed s).
      destruct (outcome (openRouterService.callOpenRouter _)) as [d|eB]; simpl.
      * destruct (truthy (Analysis.response d)); simpl; f_equal; trace_eq.
      * f_equal; trace_eq.
Qed.

End handleSend.

(** ** The events of a run of [handleSend] *)

Section handleSend_events.
Context `{!Runtime}.

(** Saving a message calls no provider, reports no error and does not call
    the parent; in a guest session or a temporary conversation it does
    nothing. *)
Lemma save_phase_events guest msg id :
  calls_of_analyzeMultimodalMood (save_phase guest msg id).2 = []
  /\ calls_of_callOpenRouter (save_phase guest msg id).2 = []
  /\ existsb is_onMoodDetected (save_phase guest msg id).2 = false
  /\ existsb is_error_report (save_phase guest msg id).2 = false
  /\ existsb is_provider_event (save_phase guest msg id).2 = false
  /\ (ChatWindow.persists guest id = false -> save_phase guest msg id = (Normal tt, [])).
Proof.
  unfold save_phase. destruct (ChatWindow.persists guest id); [| done]. cbn [snd].
  rewrite saveMessage_events. by destruct auth_getUser.
Qed.

(** The events of the provider phase: Provider A once; Provider B once, after
    Provider A threw, and not at all otherwise. *)
Lemma provider_phase_calls s :
  calls_of_analyzeMultimodalMood (provider_phase s).2
  = [(Some (ChatWindow.inputText s), ChatWindow.recent_turns (ChatWindow.messages s))]
  /\ calls_of_callOpenRouter (provider_phase s).2
     = (if ended_normally (outcome (provider_A s)) then []
        else [ChatWindow.openRouterHistory s])
  /\ existsb is_onMoodDetected (provider_phase s).2 = false
  /\ existsb is_error_report (provider_phase s).2 = false
  /\ existsb is_backend_event (provider_phase s).2 = false.
Proof.
  destruct (provider_A_events s) as (tailA & HevA & HqA).
  destruct (provider_B_events s) as (tailB & HevB & HqB).
  destruct (quiet_calls tailA HqA) as (HA1 & HA2 & HA3 & HA4 & HA5).
  destruct (quiet_calls tailB HqB) as (HB1 & HB2 & HB3 & HB4 & HB5).
  unfold provider_phase.
  destruct (outcome (provider_A s)) as [d|e]; cbn [fst snd ended_normally].
  - rewrite HevA.
    change (?a :: (?b :: ?l) ++ ?r) with ([a; b] ++ l ++ r).
    by rewrite calls_of_callOpenRouter_app, calls_of_analyzeMultimodalMood_app,
      calls_of_callOpenRouter_app, calls_of_analyzeMultimodalMood_app,
      !existsb_app, HA1, HA2, HA3, HA4, HA5.
  - rewrite HevA, HevB.
    change (?a :: (?b :: ?l) ++ ?g ++ (?c :: ?l') ++ ?r)
      with ([a; b] ++ l ++ g ++ [c] ++ l' ++ r).
    rewrite !calls_of_callOpenRouter_app, !calls_of_analyzeMultimodalMood_app,
      !existsb_app, HA1, HA2, HA3, HA4, HA5, HB1, HB2, HB3, HB4, HB5.
    by destruct (outcome (provider_B s)).
Qed.

(** The events of a run that passes the guard and saves the user message:
    what comes before the providers, the provider phase, and what comes
    after. *)
Lemma handleSend_sent_events s w :
  ChatWindow.sendable s = true ->
  user_saved s w = true ->
  exists pre post,
    new_events w (ChatWindow.handleSend s w) = pre ++ (provider_phase s).2 ++ post
    /\ calls_of_analyzeMultimodalMood pre = [] /\ calls_of_callOpenRouter pre = []
    /\ existsb is_provider_event pre = false
    /\ existsb is_error_report pre = false
    /\ existsb is_onMoodDetected pre = false
    /\ calls_of_analyzeMultimodalMood post = [] /\ calls_of_callOpenRouter post = []
    /\ existsb is_provider_event post = false
    /\ (ended_normally (checked (provider_phase s).1) = false ->
        existsb is_onMoodDetected post = false)
    /\ (ChatWindow.persists (guest_flag w)
          (default EmptyString (ChatWindow.activeConvId s)) = false ->
        existsb is_backend_event pre = false /\ existsb is_backend_event post = false).
Proof.
  intros Hs Hsaved. rewrite handleSend_run by done.
  unfold user_saved in Hsaved. unfold handleSend_sent, reported.
  set (saved := save_phase _ _ _) in *.
  destruct (save_phase_events (guest_flag w)
              (ChatWindow.userMsg (clock (ticks w)) (clock (S (ticks w)))
                 (ChatWindow.inputText s))
              (default EmptyString (ChatWindow.activeConvId s)))
    as (HA1 & HB1 & Hp1 & Hr1 & Hv1 & Hn1).
  fold saved in HA1, HB1, Hp1, Hr1, Hv1, Hn1.
  clearbody saved.
  destruct saved as [[[]|e0] evs1]; [| done]. cbn [fst snd] in *.
  exists (evs1 ++ [ Console ConsoleLevel_log "[ChatWindow] Sending message:";
                    Console ConsoleLevel_log "[ChatWindow] Active conversation:" ]).
  unfold calls_of_analyzeMultimodalMood, calls_of_callOpenRouter in *.
  destruct (checked (provider_phase s).1) as [data|e].
  - set (saved' := save_phase _ _ _).
    destruct (save_phase_events (guest_flag w)
                (ChatWindow.assistantMsg (clock (2 + ticks w)) (clock (3 + ticks w)) data)
                (default EmptyString (ChatWindow.activeConvId s)))
      as (HA2 & HB2 & Hp2 & Hr2 & Hv2 & Hn2).
    fold saved' in HA2, HB2, Hp2, Hr2, Hv2, Hn2.
    clearbody saved'.
    unfold calls_of_analyzeMultimodalMood, calls_of_callOpenRouter in *.
    destruct saved' as [[[]|e3] evs3]; cbn [fst snd] in *.
    + exists ([OnMoodDetected (Analysis.mood_state data) (Analysis.mode data)] ++ evs3).
      split; [rewrite new_events_after; by rewrite <- !app_assoc |].
      rewrite !omap_app, !existsb_app, HA1, HB1, Hp1, Hr1, Hv1, HA2, HB2, Hv2.
      split_and!; try done.
      all: intros Hp; specialize (Hn1 Hp); specialize (Hn2 Hp); by simplify_eq.
    + exists ([OnMoodDetected (Analysis.mood_state data) (Analysis.mode data)] ++ evs3
              ++ [ Console ConsoleLevel_error "[ChatWindow] Error in handleSend:";
                   Console ConsoleLevel_error "[ChatWindow] Error details:" ]).
      split; [rewrite new_events_after; by rewrite <- !app_assoc |].
      rewrite !omap_app, !existsb_app, HA1, HB1, Hp1, Hr1, Hv1, HA2, HB2, Hv2.
      split_and!; try done.
      all: intros Hp; specialize (Hn1 Hp); specialize (Hn2 Hp); by simplify_eq.
  - exists [ Console ConsoleLevel_error "[ChatWindow] Error in handleSend:";
             Console ConsoleLevel_error "[ChatWindow] Error details:" ].
    split; [rewrite new_events_after; by rewrite <- !app_assoc |].
    rewrite !omap_app, !existsb_app, HA1, HB1, Hp1, Hr1, Hv1.
    split_and!; try done.
    all: intros Hp; specialize (Hn1 Hp); by simplify_eq.
Qed.

End handleSend_events.

Section handleSend_cases.
Context `{!Runtime}.

(** A run whose user message cannot be saved ends there, by throwing. *)
Lemma handleSend_unsaved s w :
  ChatWindow.sendable s = true ->
  user_saved s w = false ->
  let userMsg := ChatWindow.userMsg (clock (ticks w)) (clock (S (ticks w)))
                   (ChatWindow.inputText s) in
  let saved := save_phase (guest_flag w) userMsg
                 (default EmptyString (ChatWindow.activeConvId s)) in
  exists e,
    saved.1 = Throw e
    /\ ChatWindow.handleSend s w =
         (Throw e,
          ChatWindow.setIsTyping true
            (ChatWindow.setInputText EmptyString
               (ChatWindow.setMessages (fun prev => prev ++ [userMsg]) s)),
          after saved.2 2 w).
Proof.
  intros Hs Hsaved userMsg saved. rewrite handleSend_run by done.
  unfold user_saved in Hsaved. unfold handleSend_sent.
  fold userMsg. fold saved. change (ended_normally saved.1 = false) in Hsaved.
  destruct saved.1 as [[]|e]; [done |]. by exists e.
Qed.

(** A run in which no provider gives a usable reply ends in the [catch]. *)
Lemma handleSend_no_reply s w e :
  ChatWindow.sendable s = true ->
  user_saved s w = true ->
  checked (provider_phase s).1 = Throw e ->
  let t := ticks w in
  let userMsg := ChatWindow.userMsg (clock t) (clock (S t)) (ChatWindow.inputText s) in
  ChatWindow.handleSend s w =
    reported e
      (ChatWindow.setIsTyping true
         (ChatWindow.setInputText EmptyString
            (ChatWindow.setMessages (fun prev => prev ++ [userMsg]) s)))
      ((save_phase (guest_flag w) userMsg
          (default EmptyString (ChatWindow.activeConvId s))).2
         ++ [ Console ConsoleLevel_log "[ChatWindow] Sending message:";
              Console ConsoleLevel_log "[ChatWindow] Active conversation:" ]
         ++ (provider_phase s).2)
      2 w.
Proof.
  intros Hs Hsaved Hchecked t userMsg. rewrite handleSend_run by assumption.
  unfold user_saved in Hsaved. unfold handleSend_sent.
  fold t. fold userMsg.
  set (saved := save_phase _ _ _) in *.
  destruct saved.1 as [[]|]; [| discriminate Hsaved].
  rewrite Hchecked. reflexivity.
Qed.

(** Provider A is called exactly in the runs that pass the guard and save
    the user message. *)
Lemma handleSend_calls_provider_A s w :
  provider_A_called (new_events w (ChatWindow.handleSend s w)) = true <->
  ChatWindow.sendable s = true /\ user_saved s w = true.
Proof.
  rewrite provider_A_called_calls.
  destruct (ChatWindow.sendable s) eqn:Hs.
  - destruct (user_saved s w) eqn:Hsaved.
    + destruct (handleSend_sent_events s w Hs Hsaved)
        as (pre & post & Htr & HpreA & _ & _ & _ & _ & HpostA & _).
      destruct (provider_phase_calls s) as (HphA & _).
      rewrite Htr, !calls_of_analyzeMultimodalMood_app, HpreA, HpostA, HphA.
      split; [done | discriminate].
    + destruct (handleSend_unsaved s w Hs Hsaved) as (e & _ & Hrun).
      rewrite Hrun, new_events_after.
      destruct (save_phase_events (guest_flag w)
                  (ChatWindow.userMsg (clock (ticks w)) (clock (S (ticks w)))
                     (ChatWindow.inputText s))
                  (default EmptyString (ChatWindow.activeConvId s))) as (HA & _).
      rewrite HA. split; [done | by intros [_ ?]].
  - rewrite handleSend_blocked, new_events_none by done.
    split; [done | by intros [? _]].
Qed.

End handleSend_cases.

(** * The claims *)

(** ** Provider failover (C1, C6) *)

(** The recent turns are the turns of the last five messages, or of all of
    them when there are fewer. *)
Lemma recent_turns_last_five (messages : list Message.t) :
  exists older last_five,
    messages = older ++ last_five
    /\ length last_five = Nat.min 5 (length messages)
    /\ ChatWindow.recent_turns messages
       = List.map (fun m => Turn.mk (Message.role m) (Message.content m)) last_five.
Proof.
  exists (take (length messages - 5) messages),
         (drop (length messages - 5) messages).
  split; [by rewrite take_drop |].
  split; [rewrite length_drop; lia | reflexivity].
Qed.

Lemma suffix_of_length {A} (l older suf : list A) (n : nat) :
  l = older ++ suf -> length suf = n -> suf = drop (length l - n) l.
Proof.
  intros -> <-. rewrite length_app.
  replace (length older + length suf - length suf)%nat with (length older) by lia.
  by rewrite drop_app_length.
Qed.

Section claims_handleSend.
Context `{!Runtime}.

(** C1: when [handleSend] calls Provider A and that call throws, it calls
    Provider B exactly once, with the same context as Provider A: the last
    five messages of the transcript (all of them when there are fewer), as
    turns, followed for Provider B by the current user text; the call comes
    after the call of Provider A has ended and before any error is reported;
    when Provider A returns, Provider B is not called. *)
Theorem handleSend_falls_back_once s w :
  let tr := new_events w (ChatWindow.handleSend s w) in
  (forall e,
      provider_A_called tr = true ->
      outcome (provider_A s) = Throw e ->
      (exists older last_five,
          ChatWindow.messages s = older ++ last_five
          /\ length last_five = Nat.min 5 (length (ChatWindow.messages s))
          /\ let context :=
               List.map (fun m => Turn.mk (Message.role m) (Message.content m))
                        last_five in
             calls_of_analyzeMultimodalMood tr
             = [(Some (ChatWindow.inputText s), context)]
             /\ calls_of_callOpenRouter tr
                = [context ++ [Turn.mk user (JStr (ChatWindow.inputText s))]])
      /\ exists pre post,
           tr = pre ++ events (provider_A s) ++ gemini_failed
                    ++ events (provider_B s) ++ post
           /\ existsb is_provider_event pre = false
           /\ existsb is_error_report (pre ++ events (provider_A s) ++ gemini_failed)
              = false
           /\ existsb is_provider_event post = false)
  /\ (forall data,
         outcome (provider_A s) = Normal data -> calls_of_callOpenRouter tr = []).
Proof.
  intros tr. subst tr. split.
  - intros e [Hs Hsaved]%handleSend_calls_provider_A HA.
    destruct (handleSend_sent_events s w Hs Hsaved)
      as (pre & post & Htr & HpreA & HpreB & Hpre & Hprer & _ & HpostA & HpostB & Hpost & _).
    rewrite Htr.
    destruct (provider_phase_calls s) as (HphA & HphB & _).
    rewrite HA in HphB.
    rewrite !calls_of_analyzeMultimodalMood_app, !calls_of_callOpenRouter_app.
    rewrite HpreA, HpreB, HpostA, HpostB, HphA, HphB.
    split.
    { destruct (recent_turns_last_five (ChatWindow.messages s))
        as (older & last_five & Hsplit & Hlen & Hturns).
      exists older, last_five.
      split; [exact Hsplit |]. split; [exact Hlen |].
      cbv zeta. rewrite <- Hturns. split; reflexivity. }
    unfold provider_phase. rewrite HA. cbn [fst snd].
    exists (pre ++ [Console ConsoleLevel_log "[ChatWindow] Attempting Gemini analysis..."]).
    exists ((if ended_normally (outcome (provider_B s))
             then [Console ConsoleLevel_log "[ChatWindow] OpenRouter response received:"]
             else []) ++ post).
    split; [trace_eq |].
    destruct (provider_A_events s) as (tailA & HevA & HqA).
    destruct (quiet_calls tailA HqA) as (_ & _ & _ & _ & HrA).
    rewrite HevA, !existsb_app, Hpre, Hprer, Hpost.
    change (existsb is_error_report (?a :: tailA))
      with (is_error_report a || existsb is_error_report tailA).
    rewrite HrA.
    split; [reflexivity |]. split; [reflexivity |].
    destruct (outcome (provider_B s)); reflexivity.
  - intros data HA.
    destruct (ChatWindow.sendable s) eqn:Hs.
    + destruct (user_saved s w) eqn:Hsaved.
      * destruct (handleSend_sent_events s w Hs Hsaved)
          as (pre & post & Htr & _ & HpreB & _ & _ & _ & _ & HpostB & _).
        rewrite Htr.
        destruct (provider_phase_calls s) as (_ & HphB & _).
        rewrite HA in HphB.
        rewrite !calls_of_callOpenRouter_app, HpreB, HpostB, HphB. reflexivity.
      * destruct (handleSend_unsaved s w Hs Hsaved) as (e' & _ & Hrun).
        rewrite Hrun, new_events_after. apply save_phase_events.
    + rewrite handleSend_blocked, new_events_none by assumption. reflexivity.
Qed.


End claims_handleSend.

Lemma handleSend_falls_back_once_witness :
  calls_of_callOpenRouter
    (new_events world0
       (@ChatWindow.handleSend Sample.fallback Sample.ready_after_seven world0))
  = [ [ Turn.mk user (JStr "tired"); Turn.mk assistant (JStr "Did you sleep?");
        Turn.mk user (JStr "not much");
        Turn.mk assistant (JStr "What kept you up?");
        Turn.mk user (JStr "work");
        Turn.mk user (JStr "I feel low") ] ].
Proof.
  destruct (@handleSend_falls_back_once Sample.fallback Sample.ready_after_seven world0)
    as [Hthrows _].
  destruct (Hthrows Sample.generic_error)
    as ((older & last_five & Hsplit & Hlen & _ & HB) & _).
  - reflexivity.
  - reflexivity.
  - rewrite (suffix_of_length _ _ _ _ Hsplit Hlen) in HB. exact HB.
Defined.


(** ** The guard (C10) *)

Lemma trimStart_from_only_white_space s skip :
  JSString.only_white_space_from skip s = true ->
  JSString.trimStart_from skip s = EmptyString.
Proof.
  revert skip. induction s as [|c s IH]; [reflexivity |].
  intros skip. cbn [JSString.only_white_space_from JSString.trimStart_from].
  destruct skip as [|k]; [|by apply IH].
  destruct (JSString.white_space_length (String c s)); [done | by apply IH].
Qed.

Lemma trim_only_white_space s :
  JSString.only_white_space s = true -> JSString.trim s = EmptyString.
Proof.
  intros Hs. unfold JSString.trim, JSString.trimStart.
  by rewrite trimStart_from_only_white_space.
Qed.

Lemma white_space_skipped c rest :
  In c JSString.white_spaces ->
  JSString.only_white_space (c +:+ rest) = JSString.only_white_space rest.
Proof.
  unfold JSString.white_spaces. cbn [In].
  intros Hc. repeat (destruct Hc as [<- | Hc]; [reflexivity |]). destruct Hc.
Qed.

Lemma only_white_space_concat spaces :
  Forall (fun c => In c JSString.white_spaces) spaces ->
  JSString.only_white_space (foldr String.append EmptyString spaces) = true.
Proof.
  induction 1 as [|c spaces Hc _ IH]; [reflexivity |].
  cbn [foldr]. by rewrite white_space_skipped.
Qed.

Section claims_guard.
Context `{!Runtime}.

(** C10: when the input text is empty or consists only of white space and
    line terminators (those that [trim] strips, the no-break space and the
    other ones beyond the ASCII range among them), or a reply is pending,
    or there is no active conversation, [handleSend] returns and leaves the
    state and the world as they are: no message is appended, no provider is
    called and no request goes to the backend. *)
Theorem handleSend_guard s w :
  (exists spaces,
      Forall (fun c => In c JSString.white_spaces) spaces
      /\ ChatWindow.inputText s = foldr String.append EmptyString spaces)
  \/ ChatWindow.isTyping s = true
  \/ ChatWindow.activeConvId s = None
  \/ ChatWindow.activeConvId s = Some EmptyString ->
  let r := ChatWindow.handleSend s w in
  completion_of r = Normal tt
  /\ state_of r = s
  /\ world_of r = w
  /\ new_events w r = []
  /\ calls_of_analyzeMultimodalMood (new_events w r) = []
  /\ calls_of_callOpenRouter (new_events w r) = []
  /\ existsb is_backend_event (new_events w r) = false.
Proof.
  intros Hguard r.
  assert (Hblocked : ChatWindow.sendable s = false).
  { unfold ChatWindow.sendable. apply negb_false_iff.
    destruct Hguard as [(spaces & Hspaces & Htext) | [Htyping | [Hconv | Hconv]]].
    - rewrite Htext, trim_only_white_space; [done |].
      by apply only_white_space_concat.
    - rewrite Htyping. by rewrite orb_true_r.
    - rewrite Hconv. by rewrite orb_true_r.
    - rewrite Hconv. by rewrite orb_true_r. }
  assert (Hrun : r = (Normal tt, s, w)) by (by apply handleSend_blocked).
  assert (Hnone : new_events w r = []).
  { rewrite Hrun. apply new_events_none. }
  rewrite Hnone. by rewrite Hrun.
Qed.

End claims_guard.


Lemma handleSend_guard_witness :
  @ChatWindow.handleSend Sample.signed_in
    (Sample.chat Sample.blank false (Some "c-1")) world0
  = (Normal tt, Sample.chat Sample.blank false (Some "c-1"), world0).
Proof.
  destruct (@handleSend_guard Sample.signed_in
              (Sample.chat Sample.blank false (Some "c-1")) world0)
    as (Hc & Hs & Hw & _).
  - left. exists Sample.blanks. split; [| reflexivity].
    apply (bool_decide_unpack _). vm_compute. exact I.
  - destruct (ChatWindow.handleSend _ _) as [[c s] w].
    cbn in Hc, Hs, Hw. by rewrite Hc, Hs, Hw.
Defined.

(** ** The mood log (C2, C8) *)

Section claims_mood_log.
Context `{!Runtime}.

(** C2: for every mood log and every detected mood, [handleMoodDetected]
    overwrites in place the first entry of the current day when there is one
    (the log keeps its length), appends the new entry when there is none, and
    a further detection on the same day leaves the length of the log as it
    is. *)
Theorem handleMoodDetected_overwrites_or_appends mood mode s w :
  let today := App.today_of (clock (ticks w)) in
  let entry := App.newEntry today mood in
  let logs := App.moodLogs s in
  let logs' := App.moodLogs (state_of (App.handleMoodDetected mood mode s w)) in
  (forall i e,
      logs !! i = Some e ->
      MoodLogEntry.date e = today ->
      (forall j e', (j < i)%nat -> logs !! j = Some e' -> MoodLogEntry.date e' <> today) ->
      logs' = <[i := entry]> logs /\ length logs' = length logs)
  /\ (Forall (fun e => MoodLogEntry.date e <> today) logs -> logs' = logs ++ [entry])
  /\ (forall mood2 mode2 w2,
         App.today_of (clock (ticks w2)) = today ->
         length (App.moodLogs
                   (state_of (App.handleMoodDetected mood2 mode2
                                (state_of (App.handleMoodDetected mood mode s w)) w2)))
         = length logs').
Proof.
  intros today entry logs logs'.
  assert (Hlogs' : logs' = App.mergeMoodLog today entry logs)
    by apply handleMoodDetected_logs.
  split; [| split].
  - intros i e Hi He Hfirst. rewrite Hlogs'.
    rewrite (mergeMoodLog_overwrite today entry logs i e) by done.
    split; [done | apply length_insert].
  - intros Hnone. rewrite Hlogs'. by apply mergeMoodLog_append.
  - intros mood2 mode2 w2 Hday. rewrite handleMoodDetected_logs, Hday. fold logs'.
    apply mergeMoodLog_length_same_day. rewrite Hlogs'.
    by apply mergeMoodLog_has_today.
Qed.

(** C8: [handleMoodDetected] keeps the dates of the mood log pairwise
    distinct, and the upserts that it sends under the key (user_id, date) keep
    one row per user and day in the backend's table. *)
Theorem handleMoodDetected_one_entry_per_day mood mode s w table :
  NoDup (MoodLogEntry.date <$> App.moodLogs s) ->
  NoDup (Backend.key <$> table) ->
  let r := App.handleMoodDetected mood mode s w in
  NoDup (MoodLogEntry.date <$> App.moodLogs (state_of r))
  /\ NoDup (Backend.key <$> Backend.after (new_events w r) table).
Proof.
  intros Hlocal Hremote r. subst r. split.
  - rewrite handleMoodDetected_logs. by apply mergeMoodLog_NoDup.
  - rewrite handleMoodDetected_new_events. unfold handleMoodDetected_events.
    destruct (App.isGuest s); [done |].
    destruct auth_getUser as [u|]; [| done].
    unfold Backend.after. simpl.
    destruct (upsert_mood_logs _); simpl; [done |].
    by apply upsert_NoDup.
Qed.

End claims_mood_log.

Lemma handleMoodDetected_overwrites_or_appends_witness :
  App.moodLogs
    (state_of (@App.handleMoodDetected Sample.signed_in Sample.sad
                 SupportMode.CALMING (Sample.app false Sample.log_before) world0))
  = [ MoodLogEntry.mk "2024-04-30" "Tired" "low" 60;
      MoodLogEntry.mk "2024-05-01" "Sad" "low" 70 ].
Proof.
  destruct (@handleMoodDetected_overwrites_or_appends Sample.signed_in Sample.sad
              SupportMode.CALMING (Sample.app false Sample.log_before) world0)
    as (Hoverwrite & _ & _).
  destruct (Hoverwrite 1%nat (MoodLogEntry.mk "2024-05-01" "Anxious" "medium" 55))
    as [Hlogs _].
  - reflexivity.
  - reflexivity.
  - intros j e' Hj Hlookup. destruct j as [|j]; [| lia].
    injection Hlookup as <-. discriminate.
  - exact Hlogs.
Defined.

Lemma handleMoodDetected_one_entry_per_day_witness :
  NoDup (MoodLogEntry.date <$>
           App.moodLogs
             (state_of (@App.handleMoodDetected Sample.signed_in Sample.sad
                          SupportMode.CALMING (Sample.app false Sample.log_before) world0)))
  /\ NoDup (Backend.key <$>
              @Backend.after Sample.signed_in
                (new_events world0
                   (@App.handleMoodDetected Sample.signed_in Sample.sad
                      SupportMode.CALMING (Sample.app false Sample.log_before) world0))
                [MoodLogRow.mk "u1" "2024-05-01" "Anxious" "medium" 55]).
Proof.
  apply (@handleMoodDetected_one_entry_per_day Sample.signed_in Sample.sad
           SupportMode.CALMING (Sample.app false Sample.log_before) world0
           [MoodLogRow.mk "u1" "2024-05-01" "Anxious" "medium" 55]).
  - apply (bool_decide_unpack _). vm_compute. exact I.
  - apply (bool_decide_unpack _). vm_compute. exact I.
Defined.

(** ** Guest mode (C5) *)

Section claims_guest.
Context `{!Runtime}.


End claims_guest.



(** ** The adapters on replies outside the contract (C3, C4, C7) *)

(** C3: on the OpenRouter path a mood outside the allowed list is handed on
    as it is; [callOpenRouter], run on a reply whose mood is Confused, returns
    a mood state whose mood is Confused. *)
Theorem callOpenRouter_hands_on_mood :
  includes geminiService.ALLOWED_MOODS (JStr "Confused") = false
  /\ outcome (@openRouterService.callOpenRouter Sample.odd_replies Sample.hi)
     = Normal (Analysis.mk (JObj [("dominant_mood", JStr "Confused")])
                 SupportMode.LISTENING (JStr "Tell me more.")).
Proof. split; reflexivity. Qed.

Section claims_adapters.
Context `{!Runtime}.

(** C4, as amended: when the content of the reply is not parseable as JSON,
    [callOpenRouter] returns the raw content as the response, with the default
    mood state (Neutral) and mode (LISTENING), and throws nothing; when the
    text of the reply is not parseable, [analyzeMultimodalMood] throws its one
    error and returns no result. *)
Theorem unparseable_reply :
  (forall messages response data content e,
      openRouterService.api_key_missing = false ->
      fetch "deepseek/deepseek-chat"
        (Turn.mk system (JStr openrouter_systemPrompt) :: messages) = Normal response ->
      Response.ok response = true ->
      JSON_parse (Response.body response) = Normal data ->
      openRouterService.message_content data = Normal content ->
      JSON_parse (ToString Number_toString content) = Throw e ->
      outcome (openRouterService.callOpenRouter messages)
      = Normal (Analysis.mk openRouterService.fallback_mood_state
                  SupportMode.LISTENING content)
      /\ get openRouterService.fallback_mood_state "dominant_mood"
         = Normal (JStr "Neutral"))
  /\ (forall text imageBuffer audioBuffer history response_text e,
         generateContent gemini_systemInstruction
           (geminiService.build_parts text imageBuffer audioBuffer history)
         = Normal response_text ->
         JSON_parse (geminiService.text_or_empty_object response_text) = Throw e ->
         outcome (geminiService.analyzeMultimodalMood text imageBuffer audioBuffer history)
         = Throw (Error "I couldn't process the emotional data right now. Please try again.")).
Proof.
  split.
  - intros messages response data content e Hkey Hfetch Hok Hbody Hcontent Hparse.
    split; [| reflexivity].
    rewrite (callOpenRouter_outcome messages response data content) by assumption.
    rewrite parse_content_outcome. unfold openRouterService.normalize.
    rewrite Hparse. reflexivity.
  - intros text imageBuffer audioBuffer history response_text e Hreply Hparse.
    rewrite analyzeMultimodalMood_outcome, Hreply.
    unfold mbind, completion_mbind, and_then, geminiService.normalize.
    rewrite Hparse. reflexivity.
Qed.

End claims_adapters.

(** C4, as stated, fails on the Gemini path: a reply that is not JSON makes
    [analyzeMultimodalMood] throw. *)
Lemma gemini_unparseable_reply_throws :
  @JSON_parse Sample.plain_replies Sample.plain_reply_text
  = Throw (mkError "SyntaxError" "Unexpected token")
  /\ outcome (@geminiService.analyzeMultimodalMood Sample.plain_replies
                (Some "hi") None None [])
     = Throw Sample.generic_error.
Proof. split; reflexivity. Qed.

Lemma unparseable_reply_witness :
  outcome (@openRouterService.callOpenRouter Sample.plain_replies Sample.hi)
  = Normal (Analysis.mk openRouterService.fallback_mood_state SupportMode.LISTENING
              (JStr Sample.plain_reply_text))
  /\ outcome (@geminiService.analyzeMultimodalMood Sample.plain_replies
                (Some "hi") None None [])
     = Throw Sample.generic_error.
Proof.
  destruct (@unparseable_reply Sample.plain_replies) as [HB HA].
  split.
  - eapply (proj1 (HB Sample.hi _ _ _ _ eq_refl eq_refl eq_refl eq_refl eq_refl eq_refl)).
  - eapply (HA (Some "hi") None None [] _ _ eq_refl eq_refl).
Defined.

(** C7: on the Gemini path a support mode outside the enum is handed on in
    upper case; [analyzeMultimodalMood], run on a reply whose mode is
    cheerful, returns the mode CHEERFUL. *)
Theorem analyzeMultimodalMood_hands_on_mode :
  ~ In "CHEERFUL" SupportMode.members
  /\ outcome (@geminiService.analyzeMultimodalMood Sample.odd_replies
                (Some "hi") None None [])
     = Normal (Analysis.mk (JObj [("dominant_mood", JStr "Neutral")])
                 "CHEERFUL" (JStr "Tell me more.")).
Proof.
  split; [| reflexivity].
  unfold SupportMode.members. cbn [In]. intros H.
  repeat (destruct H as [H | H]; [discriminate H |]). exact H.
Qed.

(** ** Failed saves (C9) *)

(** C9: a rejected insert of the user message makes [handleSend] end by
    throwing, with the typing indicator left on and no provider called; a
    rejected insert of the assistant's message puts an error message into the
    transcript after the reply. *)
Theorem handleSend_save_failure_surfaces :
  (let r := @ChatWindow.handleSend Sample.messages_rejected Sample.ready world0 in
   completion_of r = Throw Sample.backend_down
   /\ ChatWindow.isTyping (state_of r) = true
   /\ new_events world0 r
      = [ Supabase_auth_getUser;
          Supabase_insert_messages
            (MessageRow.mk "c-1" "u1" user (JStr "I feel low")
               "2024-05-01T10:00:00.000Z" JUndefined) ])
  /\ (let r := @ChatWindow.handleSend Sample.replies_rejected Sample.ready world0 in
      completion_of r = Normal tt
      /\ Message.content <$> drop 2 (ChatWindow.messages (state_of r))
         = [ JStr "I feel low"; JStr "I hear you.";
             JStr (ChatWindow.error_content Sample.backend_down) ]).
Proof. split; vm_compute; repeat split; reflexivity. Qed.

(** * Further properties of the code *)

(** ** The provider adapters *)

Lemma existsb_filter_nil {A} (p : A -> bool) l :
  existsb p l = false -> List.filter p l = [].
Proof.
  induction l as [|a l IH]; [done |]. cbn.
  intros [-> Hl]%orb_false_iff. by apply IH.
Qed.

Section adapters.
Context `{!Runtime}.

(** X1: [analyzeMultimodalMood] ends in one of two ways.  When it returns,
    the dominant mood of its result is one of the allowed moods.  When it
    throws, it throws its one error, whatever went wrong (the request, the
    parsing of the reply, a reply of another shape), after the request and
    one error on the console; the cause is not handed on. *)
Theorem analyzeMultimodalMood_ends text imageBuffer audioBuffer history :
  let call := geminiService.analyzeMultimodalMood text imageBuffer audioBuffer history in
  match outcome call with
  | Normal r =>
      exists m, get (Analysis.mood_state r) "dominant_mood" = Normal (JStr m)
                /\ In m geminiService.ALLOWED_MOODS
  | Throw e =>
      e = Error "I couldn't process the emotional data right now. Please try again."
      /\ events call
         = [ Enter_analyzeMultimodalMood text history;
             Gemini_generateContent gemini_systemInstruction
               (geminiService.build_parts text imageBuffer audioBuffer history);
             Console ConsoleLevel_error "Gemini Multimodal Analysis Error:" ]
  end.
Proof.
  cbv zeta.
  unfold outcome, events, completion_of, world_of, geminiService.analyzeMultimodalMood.
  run_io.
  destruct (generateContent _ _) as [response_text|]; cbn [fst snd]; [| done].
  destruct (geminiService.normalize response_text) as [r|] eqn:Hnorm; cbn [fst snd];
    [| done].
  by eapply gemini_normalize_allowed.
Qed.

Lemma openRouter_normalize_mode content r :
  openRouterService.normalize content = Normal r ->
  In (Analysis.mode r) SupportMode.members.
Proof.
  unfold openRouterService.normalize, mbind, completion_mbind, and_then, mret,
    completion_mret.
  destruct (JSON_parse _) as [parsed|]; [| discriminate].
  destruct (get parsed "mood_state"); [| discriminate].
  destruct (get parsed "support_mode"); [| discriminate].
  destruct (get parsed "message"); [| discriminate].
  intros [= <-]. apply coerceSupportMode_member.
Qed.

(** X2: whenever [callOpenRouter] returns, the mode of its result is one of
    the five support modes. *)
Theorem callOpenRouter_mode_member messages r :
  outcome (openRouterService.callOpenRouter messages) = Normal r ->
  In (Analysis.mode r) SupportMode.members.
Proof.
  unfold outcome, completion_of, openRouterService.callOpenRouter,
    openRouterService.callOpenRouter_model.
  destruct openRouterService.api_key_missing; run_io; [discriminate |].
  destruct (fetch _ _) as [response|]; cbn [fst snd]; [| discriminate].
  destruct (Response.ok response); cbn [negb fst snd]; [| discriminate].
  destruct (JSON_parse _) as [data|]; cbn [fst snd]; [| discriminate].
  destruct (openRouterService.message_content data) as [content|]; cbn [fst snd];
    [| discriminate].
  match goal with
  | |- context [openRouterService.parse_content content tt ?w] =>
      destruct (parse_content_run content tt w) as (evs & ->)
  end.
  rewrite parse_content_outcome. cbn [fst snd]. intros [= <-].
  destruct (openRouterService.normalize content) eqn:Hnorm.
  - by eapply openRouter_normalize_mode.
  - cbn. auto.
Qed.

(** X3: how [callOpenRouter] fails.  Without an API key it throws before it
    does anything: no request is made and nothing is logged.  A response
    that is not ok is thrown as an error whose message carries the status
    and the body of the response, or the status text when the body is
    empty; the body is not parsed.  An error of the request itself is
    thrown on as it is.  The errors of the last two kinds are logged. *)
Theorem callOpenRouter_failures messages :
  let request := Fetch_openrouter "deepseek/deepseek-chat"
                   (Turn.mk system (JStr openrouter_systemPrompt) :: messages) in
  let answer := fetch "deepseek/deepseek-chat"
                  (Turn.mk system (JStr openrouter_systemPrompt) :: messages) in
  (openRouterService.api_key_missing = true ->
   framed (openRouterService.callOpenRouter messages)
     (Throw (Error "OpenRouter API Key is missing"))
     [Enter_callOpenRouter messages])
  /\ (forall response,
         openRouterService.api_key_missing = false ->
         answer = Normal response ->
         Response.ok response = false ->
         framed (openRouterService.callOpenRouter messages)
           (Throw (Error ("OpenRouter API Error ("
                            +:+ JSString.of_Z (Response.status response) +:+ "): "
                            +:+ (if JSString.truthy (Response.body response)
                                 then Response.body response
                                 else Response.statusText response))))
           [ Enter_callOpenRouter messages; request;
             Console ConsoleLevel_error "[OpenRouterService] API Error:";
             Console ConsoleLevel_error "[OpenRouterService] Error:";
             Console ConsoleLevel_error "[OpenRouterService] Error details:" ])
  /\ (forall e,
         openRouterService.api_key_missing = false ->
         answer = Throw e ->
         framed (openRouterService.callOpenRouter messages) (Throw e)
           [ Enter_callOpenRouter messages; request;
             Console ConsoleLevel_error "[OpenRouterService] Error:";
             Console ConsoleLevel_error "[OpenRouterService] Error details:" ]).
Proof.
  cbv zeta. split_and!.
  - intros Hkey s w.
    unfold openRouterService.callOpenRouter, openRouterService.callOpenRouter_model.
    rewrite Hkey. reflexivity.
  - intros response Hkey Hfetch Hok s w.
    unfold openRouterService.callOpenRouter, openRouterService.callOpenRouter_model.
    rewrite Hkey. run_io. rewrite Hfetch. cbn [fst snd]. rewrite Hok.
    cbn [negb fst snd]. f_equal. unfold emitted. cbn. by rewrite <- !app_assoc.
  - intros e Hkey Hfetch s w.
    unfold openRouterService.callOpenRouter, openRouterService.callOpenRouter_model.
    rewrite Hkey. run_io. rewrite Hfetch. cbn [fst snd].
    f_equal. unfold emitted. cbn. by rewrite <- !app_assoc.
Qed.

(** X4: with nobody signed in, the persistence adapter writes nothing:
    [saveMoodEntry] and [saveMessage] return after asking for the user, and
    [createConversation] throws Unauthorized. *)
Theorem signed_out_writes_nothing :
  auth_getUser = None ->
  (forall entry,
      framed (cloudService.saveMoodEntry entry) (Normal tt) [Supabase_auth_getUser])
  /\ (forall msg conversationId,
         framed (cloudService.saveMessage msg conversationId) (Normal tt)
           [Supabase_auth_getUser])
  /\ (forall title,
         framed (cloudService.createConversation title) (Throw (Error "Unauthorized"))
           [Supabase_auth_getUser]).
Proof.
  intros Hout. split_and!.
  - intros entry. pose proof (saveMoodEntry_framed entry) as Hrun.
    by rewrite Hout in Hrun.
  - intros msg id. pose proof (saveMessage_framed msg id) as Hrun.
    by rewrite Hout in Hrun.
  - intros title s w. unfold cloudService.createConversation, cloudService.getUser.
    run_io. by rewrite Hout.
Qed.

End adapters.

Lemma callOpenRouter_mode_member_witness :
  In (Analysis.mode
        (Analysis.mk (JObj [("dominant_mood", JStr "Confused")])
           SupportMode.LISTENING (JStr "Tell me more.")))
     SupportMode.members.
Proof.
  apply (@callOpenRouter_mode_member Sample.odd_replies Sample.hi). reflexivity.
Defined.

Lemma callOpenRouter_failures_witness :
  outcome (@openRouterService.callOpenRouter Sample.no_key Sample.hi)
  = Throw (Error "OpenRouter API Key is missing")
  /\ outcome (@openRouterService.callOpenRouter Sample.server_error Sample.hi)
     = Throw (Error "OpenRouter API Error (500): Internal Server Error")
  /\ outcome (@openRouterService.callOpenRouter Sample.offline Sample.hi)
     = Throw Sample.network_down.
Proof.
  split_and!.
  - destruct (@callOpenRouter_failures Sample.no_key Sample.hi) as (Hkey & _ & _).
    apply (framed_outcome _ _ _ (Hkey eq_refl)).
  - destruct (@callOpenRouter_failures Sample.server_error Sample.hi) as (_ & Hhttp & _).
    apply (framed_outcome _ _ _ (Hhttp _ eq_refl eq_refl eq_refl)).
  - destruct (@callOpenRouter_failures Sample.offline Sample.hi) as (_ & _ & Hnet).
    apply (framed_outcome _ _ _ (Hnet _ eq_refl eq_refl)).
Defined.

Lemma signed_out_writes_nothing_witness :
  events (@cloudService.saveMoodEntry Sample.signed_out
            (MoodLogEntry.mk "2024-05-01" "Sad" "low" 70))
  = [Supabase_auth_getUser].
Proof.
  destruct (@signed_out_writes_nothing Sample.signed_out eq_refl) as (Hmood & _ & _).
  apply (framed_outcome _ _ _ (Hmood _)).
Defined.

(** ** The application: sessions, names and mood logs *)

Section application.
Context `{!Runtime} `{!BackendReads}.

Lemma mergeMoodLog_In today new prev :
  new ∈ App.mergeMoodLog today new prev.
Proof.
  unfold App.mergeMoodLog.
  destruct (list_find _ prev) as [[i x]|] eqn:Hfind.
  - apply list_find_Some in Hfind as (Hi & _).
    eapply list_elem_of_lookup_2. apply list_lookup_insert_eq.
    by eapply lookup_lt_Some.
  - apply elem_of_app. right. by apply list_elem_of_singleton.
Qed.

(** X5: [handleMoodDetected] never throws for a mood state of the declared
    type and always throws when it is handed no mood.  For a mood state of
    the declared type, whatever the backend answers, it sets the current
    mood and the support mode, the log it leaves holds the entry of this
    detection, and it changes neither the screen nor local storage.  For a
    mood that is undefined or null, which [callOpenRouter] hands on for a
    reply without a mood state, it throws a type error before it comes to
    the log: the support mode is set, the log is as it was, and nothing is
    sent to the backend. *)
Theorem handleMoodDetected_throws_without_mood mode s w :
  (forall mood,
      let r := App.handleMoodDetected mood mode s w in
      let entry := App.newEntry (App.today_of (clock (ticks w))) mood in
      completion_of r = Normal tt
      /\ App.currentMood (state_of r) = Some mood
      /\ App.supportMode (state_of r) = mode
      /\ entry ∈ App.moodLogs (state_of r)
      /\ App.appState (state_of r) = App.appState s
      /\ localStorage (world_of r) = localStorage w)
  /\ (forall mood,
         let r := App.handleMoodDetected_without_mood mood mode s w in
         completion_of r
         = Throw (TypeError ("Cannot read properties of "
                               +:+ match mood with
                                   | absent_undefined => "undefined"
                                   | absent_null => "null"
                                   end
                               +:+ " (reading 'risk_score')"))
         /\ App.supportMode (state_of r) = mode
         /\ App.moodLogs (state_of r) = App.moodLogs s
         /\ App.appState (state_of r) = App.appState s
         /\ new_events w r = []
         /\ localStorage (world_of r) = localStorage w).
Proof.
  split.
  - intros mood r entry. subst r. rewrite handleMoodDetected_run.
    split_and!; try reflexivity. apply mergeMoodLog_In.
  - intros mood. cbv zeta.
    rewrite handleMoodDetected_without_mood_new_events.
    rewrite handleMoodDetected_without_mood_run.
    split_and!; reflexivity.
Qed.

(** X6: the name given at the end of the onboarding is the name that the
    application starts with when it is mounted again; the guest flag is
    left as it is, and nothing is sent to the backend. *)
Theorem handleOnboardingComplete_remount name s w :
  let r := App.handleOnboardingComplete name s w in
  completion_of r = Normal tt
  /\ App.userName (state_of r) = JStr name
  /\ App.appState (state_of r) = App.main
  /\ App.userName (App.mount (world_of r)) = JStr name
  /\ App.isGuest (App.mount (world_of r)) = guest_flag w
  /\ new_events w r = [].
Proof.
  cbv zeta. unfold App.handleOnboardingComplete. run_io.
  unfold App.mount, guest_flag. cbn.
  rewrite lookup_insert_eq, lookup_insert_ne by done.
  split_and!; try reflexivity.
  unfold new_events, world_of. cbn. apply drop_all.
Qed.

(** X7: after a logout nothing of the session is left in the browser: the
    application that is mounted again is not in guest mode, has no user
    name, shows the sign-in screen, and stays there when there is no
    session. *)
Theorem handleLogout_remount s w :
  let r := App.handleLogout s w in
  let s' := App.mount (world_of r) in
  completion_of r = Normal tt
  /\ App.appState (state_of r) = App.auth
  /\ App.isGuest (state_of r) = false
  /\ new_events w r = [Supabase_auth_signOut]
  /\ App.isGuest s' = false
  /\ App.userName s' = JStr EmptyString
  /\ App.initAuth (mret None) s' (world_of r) = (Normal tt, s', world_of r).
Proof.
  cbv zeta. unfold App.handleLogout. run_io.
  unfold App.mount, guest_flag, world_of, emitted. cbn [snd localStorage trace ticks].
  rewrite (lookup_delete_eq (M:=gmap string)).
  rewrite (lookup_delete_ne (M:=gmap string)) by done.
  rewrite (lookup_delete_eq (M:=gmap string)).
  rewrite bool_decide_eq_false_2 by done.
  split_and!; try reflexivity.
  unfold new_events, world_of. cbn. by rewrite drop_app_length.
Qed.

(** X8: guest mode ignores sessions.  In guest mode [initAuth] does not
    ask for the session, whatever asking would do: it goes to the main
    screen when a non-empty user name is stored, to the onboarding
    otherwise, and changes nothing else.  While the guest flag is set, a
    change of the authentication state is ignored. *)
Theorem guest_mode_ignores_sessions :
  (forall getSession s w,
      App.isGuest s = true ->
      App.initAuth getSession s w
      = (Normal tt,
         App.setAppState (if App.stored_truthy (localStorage w !! "md_username")
                          then App.main else App.onboarding) s,
         w))
  /\ (forall event session s w,
         guest_flag w = true ->
         App.onAuthStateChange event session s w = (Normal tt, s, w)).
Proof.
  split.
  - intros getSession s w Hguest. unfold App.initAuth. run_io. rewrite Hguest.
    by destruct (App.stored_truthy _).
  - intros event session s w. unfold guest_flag. intros Hguest.
    unfold App.onAuthStateChange. run_io. by rewrite Hguest.
Qed.

Lemma session_name_truthy session : truthy (App.session_name session) = true.
Proof.
  unfold App.session_name.
  destruct (truthy (App.full_name _)) eqn:Hfn; [done |].
  destruct (Session.email session) as [email|]; [| done].
  by destruct (JSString.truthy (JSString.split_head _ email)) eqn:Hhead.
Qed.

(** X9: when there is a session, [initAuth] leaves a signed-in user with a
    non-empty name: with a non-empty name in local storage the user name is
    that stored name and the screen is the main one; with no name or an
    empty name stored, the user name is the full name, the part of the
    e-mail address before the at sign, or Explorer, and the screen is the
    onboarding. *)
Theorem initAuth_names_the_user getSession session s s' w w' :
  App.isGuest s = false ->
  getSession s w = (Normal (Some session), s', w') ->
  let r := App.initAuth getSession s w in
  completion_of r = Normal tt
  /\ truthy (App.userName (state_of r)) = true
  /\ App.appState (state_of r)
     = (if App.stored_truthy (localStorage w' !! "md_username")
        then App.main else App.onboarding)
  /\ (App.stored_truthy (localStorage w' !! "md_username") = false ->
      App.userName (state_of r) = App.session_name session)
  /\ world_of r = w'
  /\ (forall name,
         localStorage w' !! "md_username" = Some name ->
         name <> EmptyString ->
         App.userName (state_of r) = JStr name
         /\ App.appState (state_of r) = App.main)
  /\ (localStorage w' !! "md_username" = None
      \/ localStorage w' !! "md_username" = Some EmptyString ->
      App.appState (state_of r) = App.onboarding
      /\ App.userName (state_of r)
         = (if truthy (App.full_name (Session.user_metadata session))
            then App.full_name (Session.user_metadata session)
            else match Session.email session with
                 | Some email =>
                     if JSString.truthy (JSString.split_head "@"%char email)
                     then JStr (JSString.split_head "@"%char email)
                     else JStr "Explorer"
                 | None => JStr "Explorer"
                 end)).
Proof.
  intros Hguest Hsession. cbv zeta. unfold App.initAuth. run_io.
  rewrite Hguest, Hsession. cbn [fst snd].
  destruct (localStorage w' !! "md_username") as [name|] eqn:Hname; cbn.
  - destruct (JSString.truthy name) eqn:Ht; cbn; split_and!; try done.
    + by intros name' [= <-] _.
    + by intros [|[= ->]].
    + apply session_name_truthy.
    + intros name' [= <-] Hne. by destruct name.
  - split_and!; try done. apply session_name_truthy.
Qed.

(** X10: for a signed-in user on the main screen the effect reads the mood
    logs once and replaces the log by what it read, never throwing.  A
    failed read empties the log without a word on the console; rows of one
    user that are distinct by user and day give a log with one entry per
    day. *)
Theorem effect_moodLogs_loads s w :
  App.appState s = App.main ->
  App.isGuest s = false ->
  let r := App.effect_moodLogs s w in
  completion_of r = Normal tt
  /\ new_events w r = [Supabase_select "mood_logs"]
  /\ (forall e, select_mood_logs = inl e -> App.moodLogs (state_of r) = [])
  /\ (forall data,
         select_mood_logs = inr data ->
         App.moodLogs (state_of r) = cloudService.mood_log_entry <$> data
         /\ (forall user_id,
                Forall (fun row => MoodLogRow.user_id row = user_id) data ->
                NoDup (Backend.key <$> data) ->
                NoDup (MoodLogEntry.date <$> App.moodLogs (state_of r)))).
Proof.
  intros Hmain Hguest. cbv zeta.
  unfold App.effect_moodLogs, cloudService.getMoodLogs. run_io.
  rewrite Hmain, Hguest. cbn [negb].
  destruct select_mood_logs as [e|data] eqn:Hread; cbn [fst snd];
    unfold completion_of, state_of; cbn [fst snd];
    rewrite new_events_emitted.
  - split_and!; try done.
  - split_and!; try done.
    intros data' [= <-]. split; [reflexivity |].
    intros user_id Huser Hkeys. cbn [App.setMoodLogs App.moodLogs].
    rewrite <- list_fmap_compose.
    apply (NoDup_fmap_1 (fun d => (user_id, d))).
    rewrite <- list_fmap_compose.
    erewrite list_fmap_ext; [exact Hkeys |].
    intros i row Hrow. rewrite Forall_forall in Huser.
    unfold Backend.key, compose. cbn.
    rewrite (Huser row) by (by eapply list_elem_of_lookup_2). reflexivity.
Qed.

(** X11: a guest session from the sign-in to the next start of the
    application: after the guest login and the onboarding with a non-empty
    name, the application that is mounted again is in guest mode under that
    name, [initAuth] takes it to the main screen whatever asking for the
    session would do, the effect does not load the mood logs, and in all of
    this nothing is sent to the backend. *)
Theorem guest_session_restarts user name getSession s w :
  JSString.truthy name = true ->
  let r1 := App.handleLogin user "guest-token" s w in
  let r2 := App.handleOnboardingComplete name (state_of r1) (world_of r1) in
  let s3 := App.mount (world_of r2) in
  let r4 := App.initAuth getSession s3 (world_of r2) in
  let r5 := App.effect_moodLogs (state_of r4) (world_of r4) in
  App.isGuest (state_of r2) = true
  /\ completion_of r5 = Normal tt
  /\ state_of r5
     = App.mkState App.main (JStr name) None SupportMode.LISTENING true []
  /\ trace (world_of r5) = trace w.
Proof.
  intros Hname. cbv zeta.
  unfold App.handleLogin. cbn [String.eqb Ascii.eqb Bool.eqb]. run_io.
  assert (Hlogin :
    forall s1, App.isGuest s1 = true ->
      let w1 := {| trace := trace w; ticks := ticks w;
                   localStorage := <["md_is_guest":="true"]> (localStorage w) |} in
      let r2 := App.handleOnboardingComplete name s1 w1 in
      let s3 := App.mount (world_of r2) in
      let r4 := App.initAuth getSession s3 (world_of r2) in
      let r5 := App.effect_moodLogs (state_of r4) (world_of r4) in
      App.isGuest (state_of r2) = true
      /\ completion_of r5 = Normal tt
      /\ state_of r5
         = App.mkState App.main (JStr name) None SupportMode.LISTENING true []
      /\ trace (world_of r5) = trace w).
  { intros s1 Hs1. cbv zeta.
    unfold App.handleOnboardingComplete, App.initAuth, App.effect_moodLogs,
      App.mount, guest_flag.
    run_io.
    rewrite !(lookup_insert_eq (M:=gmap string)).
    rewrite !(lookup_insert_ne (M:=gmap string)) by done.
    rewrite !(lookup_insert_eq (M:=gmap string)).
    rewrite bool_decide_eq_true_2 by done. cbn.
    rewrite !(lookup_insert_eq (M:=gmap string)). cbn. rewrite Hname. cbn.
    split_and!; try reflexivity. exact Hs1. }
  destruct (truthy (App.full_name user)); cbn [fst snd]; by apply Hlogin.
Qed.

End application.

Lemma guest_mode_ignores_sessions_witness :
  @App.initAuth (fun s w => (Throw Sample.network_down, s, w))
    (App.mount Sample.guest_world) Sample.guest_world
  = (Normal tt, App.setAppState App.onboarding (App.mount Sample.guest_world),
     Sample.guest_world)
  /\ App.onAuthStateChange "SIGNED_OUT" None (Sample.app true []) Sample.guest_world
     = (Normal tt, Sample.app true [], Sample.guest_world).
Proof.
  destruct guest_mode_ignores_sessions as [Hinit Hchange].
  split.
  - apply (Hinit (fun s w => (Throw Sample.network_down, s, w))). reflexivity.
  - apply Hchange. reflexivity.
Defined.

Lemma initAuth_names_the_user_witness :
  App.userName (state_of (App.initAuth (fun s w => (Normal (Some Sample.session), s, w))
                            (App.mount world0) world0))
  = JStr "ada".
Proof.
  destruct (initAuth_names_the_user
              (fun s w => (Normal (Some Sample.session), s, w)) Sample.session
              (App.mount world0) (App.mount world0) world0 world0)
    as (_ & _ & _ & Hname & _).
  - reflexivity.
  - reflexivity.
  - rewrite Hname; reflexivity.
Defined.

Lemma effect_moodLogs_loads_witness :
  App.moodLogs
    (state_of (@App.effect_moodLogs (Sample.reads (inr Sample.rows_stored))
                 (Sample.app false []) world0))
  = Sample.log_before.
Proof.
  destruct (@effect_moodLogs_loads (Sample.reads (inr Sample.rows_stored))
              (Sample.app false []) world0)
    as (_ & _ & _ & Hdata).
  - reflexivity.
  - reflexivity.
  - destruct (Hdata Sample.rows_stored eq_refl) as [Hlogs _]. exact Hlogs.
Defined.

Lemma guest_session_restarts_witness :
  let getSession : IO App.State (option Session.t) :=
    fun s w => (Throw Sample.network_down, s, w) in
  let r1 := App.handleLogin (JObj []) "guest-token" (App.mount world0) world0 in
  let r2 := App.handleOnboardingComplete "Ada" (state_of r1) (world_of r1) in
  let r4 := App.initAuth getSession (App.mount (world_of r2)) (world_of r2) in
  let r5 := @App.effect_moodLogs (Sample.reads (inl Sample.backend_down))
              (state_of r4) (world_of r4) in
  state_of r5
  = App.mkState App.main (JStr "Ada") None SupportMode.LISTENING true []
  /\ trace (world_of r5) = [].
Proof.
  destruct (@guest_session_restarts (Sample.reads (inl Sample.backend_down))
              (JObj []) "Ada" (fun s w => (Throw Sample.network_down, s, w))
              (App.mount world0) world0 eq_refl)
    as (_ & _ & Hstate & Htrace).
  split; [exact Hstate | exact Htrace].
Defined.

(** ** The chat window: conversations and sends *)

Section chat.
Context `{!Runtime}.

(** A send in a session that does not persist messages sends nothing to the
    backend. *)
Lemma handleSend_not_persisting s w :
  ChatWindow.persists (guest_flag w) (default EmptyString (ChatWindow.activeConvId s))
  = false ->
  existsb is_backend_event (new_events w (ChatWindow.handleSend s w)) = false.
Proof.
  intros Hpersists.
  destruct (ChatWindow.sendable s) eqn:Hs.
  - assert (Hsaved : user_saved s w = true).
    { unfold user_saved.
      destruct (save_phase_events (guest_flag w)
                  (ChatWindow.userMsg (clock (ticks w)) (clock (S (ticks w)))
                     (ChatWindow.inputText s))
                  (default EmptyString (ChatWindow.activeConvId s)))
        as (_ & _ & _ & _ & _ & Hnone).
      by rewrite Hnone. }
    destruct (handleSend_sent_events s w Hs Hsaved)
      as (pre & post & Htr & _ & _ & _ & _ & _ & _ & _ & _ & _ & Hbackend).
    destruct (Hbackend Hpersists) as [Hpre Hpost].
    destruct (provider_phase_calls s) as (_ & _ & _ & _ & Hph).
    by rewrite Htr, !existsb_app, Hpre, Hph, Hpost.
  - by rewrite handleSend_blocked, new_events_none.
Qed.

(** X12: when nobody is signed in, [startNewChat] opens a temporary
    conversation with an empty transcript, and a send in that conversation
    writes nothing to the backend, with or without the guest flag:
    [handleSend] itself sends no request, so no message is saved; and
    [handleMoodDetected], which the application passes to the chat window
    as [onMoodDetected], sends nothing in guest mode or without a mood, and
    otherwise only asks who is signed in. *)
Theorem startNewChat_temporary fuel s w :
  auth_getUser = None ->
  let r := ChatWindow.startNewChat fuel s w in
  let s' := state_of r in
  completion_of r = Normal tt
  /\ ChatWindow.activeConvId s'
     = Some ("temp-" +:+ JSString.of_Z (clock (S (ticks w))))
  /\ ChatWindow.messages s' = []
  /\ new_events w r = [Supabase_auth_getUser]
  /\ (forall text w',
         existsb is_backend_event
           (new_events w' (ChatWindow.handleSend (ChatWindow.setInputText text s') w'))
         = false)
  /\ (forall mood mode p w',
         new_events w' (App.handleMoodDetected mood mode p w')
         = (if App.isGuest p then [] else [Supabase_auth_getUser]))
  /\ (forall mood mode p w',
         new_events w' (App.handleMoodDetected_without_mood mood mode p w') = []).
Proof.
  intros Hout. cbv zeta.
  unfold ChatWindow.startNewChat, ChatWindow.startNewChat_body,
    cloudService.createConversation, cloudService.getUser.
  run_io. rewrite Hout. cbn [fst snd].
  unfold completion_of, state_of. cbn [fst snd ChatWindow.activeConvId
    ChatWindow.setMessages ChatWindow.setActiveConvId ChatWindow.messages].
  split_and!; try reflexivity.
  - apply new_events_app. cbn. reflexivity.
  - intros text w'. apply handleSend_not_persisting.
    cbn [ChatWindow.setInputText ChatWindow.activeConvId default].
    unfold ChatWindow.persists, JSString.startsWith. cbn.
    apply andb_false_r.
  - intros mood mode p w'. rewrite handleMoodDetected_new_events.
    unfold handleMoodDetected_events. by rewrite Hout.
  - intros mood mode p w'. apply handleMoodDetected_without_mood_new_events.
Qed.

Lemma loadConversations_body_completes startNewChat s w :
  completion_of (ChatWindow.loadConversations_body startNewChat s w) = Normal tt.
Proof.
  unfold ChatWindow.loadConversations_body, cloudService.getConversations. run_io.
  destruct select_conversations as [e|[|first rest]]; cbn [fst snd].
  - by destruct (startNewChat _ _) as [[c s'] w'].
  - by destruct (startNewChat _ _) as [[c s'] w'].
  - by destruct (negb _).
Qed.

Lemma startNewChat_body_completes loadConversations s w :
  completion_of (ChatWindow.startNewChat_body loadConversations s w) = Normal tt.
Proof.
  unfold ChatWindow.startNewChat_body, cloudService.createConversation,
    cloudService.getUser.
  run_io.
  destruct auth_getUser as [user_id|]; cbn [fst snd]; [| done].
  destruct (insert_conversations _ _) as [e|id]; cbn [fst snd]; [done |].
  by destruct (loadConversations _ _) as [[c s'] w'].
Qed.

(** X13: [loadConversations] and [startNewChat] never throw, whatever the
    backend answers and however often they call each other. *)
Theorem loadConversations_never_throws fuel s w :
  completion_of (ChatWindow.loadConversations fuel s w) = Normal tt
  /\ completion_of (ChatWindow.startNewChat fuel s w) = Normal tt.
Proof.
  split.
  - destruct fuel; [done |]. apply loadConversations_body_completes.
  - apply startNewChat_body_completes.
Qed.

(** X14: when the backend has conversations and none is open,
    [loadConversations] opens the first one of the answer and creates none;
    a conversation that is open stays open. *)
Theorem loadConversations_opens_first fuel first rest s w :
  select_conversations = inr (first :: rest) ->
  let r := ChatWindow.loadConversations (S fuel) s w in
  ChatWindow.conversations (state_of r) = first :: rest
  /\ ChatWindow.activeConvId (state_of r)
     = (if ChatWindow.id_truthy (ChatWindow.activeConvId s)
        then ChatWindow.activeConvId s
        else Some (Conversation.id first))
  /\ ChatWindow.messages (state_of r) = ChatWindow.messages s
  /\ new_events w r = [Supabase_select "conversations"].
Proof.
  intros Hdata. cbv zeta.
  cbn [ChatWindow.loadConversations].
  unfold ChatWindow.loadConversations_body, cloudService.getConversations. run_io.
  rewrite Hdata. cbn [fst snd].
  destruct (ChatWindow.id_truthy _); cbn [negb fst snd];
    unfold state_of; cbn [fst snd]; rewrite new_events_emitted; done.
Qed.

(** X15: a send that passes the guard and saves the user message always
    completes: it clears the input and the typing indicator and appends the
    user message and then, when a provider returned a reply with a response,
    the reply as an assistant message, otherwise the error message of the
    failure.  An error message follows the reply exactly when the messages
    are saved and saving the reply failed: for a signed-in user whose reply
    is saved, for a guest and in a temporary conversation the reply is the
    last message. *)
Theorem handleSend_appends s w :
  ChatWindow.sendable s = true ->
  user_saved s w = true ->
  let r := ChatWindow.handleSend s w in
  let t := ticks w in
  let conv := default EmptyString (ChatWindow.activeConvId s) in
  let userMsg :=
    Message.mk (JSString.of_Z (clock t)) user (JStr (ChatWindow.inputText s))
      (clock (1 + t)) JUndefined None in
  let reply data :=
    Message.mk (JSString.of_Z (clock (2 + t) + 1)) assistant (Analysis.response data)
      (clock (3 + t)) (Analysis.mood_state data) (Some (Analysis.mode data)) in
  let apology n e :=
    Message.mk (JSString.of_Z (clock (n + t) + 1)) assistant
      (JStr ("âŒ Sorry, I encountered an error: "
             +:+ (if JSString.truthy (err_message e) then err_message e
                  else "Unknown error")
             +:+ ". Please check your API keys in .env and try again."))
      (clock (1 + n + t)) JUndefined None in
  completion_of r = Normal tt
  /\ ChatWindow.inputText (state_of r) = EmptyString
  /\ ChatWindow.isTyping (state_of r) = false
  /\ ChatWindow.activeConvId (state_of r) = ChatWindow.activeConvId s
  /\ ChatWindow.messages (state_of r)
     = ChatWindow.messages s
         ++ userMsg
         :: match checked (provider_phase s).1 with
            | Throw e => [apology 2%nat e]
            | Normal data =>
                reply data
                :: (if ChatWindow.persists (guest_flag w) conv
                    then match outcome (cloudService.saveMessage (reply data) conv) with
                         | Throw e => [apology 4%nat e]
                         | Normal _ => []
                         end
                    else [])
            end.
Proof.
  intros Hs Hsaved. cbv zeta. rewrite handleSend_run by done.
  unfold user_saved in Hsaved. unfold handleSend_sent, reported.
  set (saved := save_phase _ _ _) in *.
  destruct saved.1 as [[]|]; [| discriminate Hsaved].
  destruct (checked (provider_phase s).1) as [data|e].
  - unfold save_phase.
    destruct (ChatWindow.persists _ _); cbn [fst snd].
    + destruct (outcome (cloudService.saveMessage _ _)) as [[]|e3] eqn:Hsaved'.
      * split_and!; try reflexivity.
        unfold state_of. cbn. rewrite <- app_assoc. reflexivity.
      * split_and!; try reflexivity.
        unfold state_of. cbn. rewrite <- !app_assoc. reflexivity.
    + split_and!; try reflexivity.
      unfold state_of. cbn. rewrite <- app_assoc. reflexivity.
  - split_and!; try reflexivity.
    unfold state_of. cbn. rewrite <- app_assoc. reflexivity.
Qed.

(** X16: a reply without a response text counts as a failure of the send,
    not of the provider: when Provider A returns such a reply, Provider B is
    not asked, the parent is not told a mood, and the transcript ends with
    the user message and an assistant message whose text is the error
    message on No response received from AI. *)
Theorem handleSend_empty_response s w data :
  ChatWindow.sendable s = true ->
  user_saved s w = true ->
  outcome (provider_A s) = Normal data ->
  truthy (Analysis.response data) = false ->
  let r := ChatWindow.handleSend s w in
  let t := ticks w in
  completion_of r = Normal tt
  /\ ChatWindow.messages (state_of r)
     = ChatWindow.messages s
         ++ [ Message.mk (JSString.of_Z (clock t)) user
                (JStr (ChatWindow.inputText s)) (clock (1 + t)) JUndefined None;
              Message.mk (JSString.of_Z (clock (2 + t) + 1)) assistant
                (JStr ("âŒ Sorry, I encountered an error: No response received "
                       +:+ "from AI. Please check your API keys in .env and try again."))
                (clock (3 + t)) JUndefined None ]
  /\ calls_of_callOpenRouter (new_events w r) = []
  /\ existsb is_onMoodDetected (new_events w r) = false.
Proof.
  intros Hs Hsaved HA Hempty. cbv zeta.
  assert (Hchecked : checked (provider_phase s).1
                     = Throw (Error "No response received from AI")).
  { unfold provider_phase. rewrite HA. cbn [fst]. unfold checked.
    cbn [mbind completion_mbind and_then]. by rewrite Hempty. }
  pose proof (handleSend_no_reply s w _ Hs Hsaved Hchecked) as Hrun.
  cbv zeta in Hrun.
  destruct (handleSend_sent_events s w Hs Hsaved)
    as (pre & post & Htr & _ & HpreB & _ & _ & Hpre & _ & HpostB & _ & Hpost & _).
  destruct (provider_phase_calls s) as (_ & HphB & Hph & _). rewrite HA in HphB.
  split; [by rewrite Hrun |]. split.
  { rewrite Hrun. unfold reported, state_of. cbn [fst snd].
    unfold ChatWindow.setIsTyping, ChatWindow.setInputText, ChatWindow.setMessages.
    cbn [ChatWindow.messages]. rewrite <- app_assoc. reflexivity. }
  rewrite Htr, !calls_of_callOpenRouter_app, !existsb_app, HpreB, HpostB, HphB, Hpre, Hph.
  rewrite Hpost by (rewrite Hchecked; reflexivity).
  done.
Qed.

(** X17: in a send that passes the guard and saves the user message,
    [onMoodDetected] is called at most once: once, with the mood state and
    the mode of the reply, exactly when a provider returned a reply with a
    response, also when that reply cannot be saved afterwards. *)
Theorem handleSend_tells_parent_once s w :
  ChatWindow.sendable s = true ->
  user_saved s w = true ->
  List.filter is_onMoodDetected (new_events w (ChatWindow.handleSend s w))
  = match checked (provider_phase s).1 with
    | Normal data => [OnMoodDetected (Analysis.mood_state data) (Analysis.mode data)]
    | Throw _ => []
    end.
Proof.
  intros Hs Hsaved. rewrite handleSend_run by done.
  unfold user_saved in Hsaved. unfold handleSend_sent, reported.
  set (saved := save_phase _ _ _) in *.
  destruct (save_phase_events (guest_flag w)
              (ChatWindow.userMsg (clock (ticks w)) (clock (S (ticks w)))
                 (ChatWindow.inputText s))
              (default EmptyString (ChatWindow.activeConvId s)))
    as (_ & _ & Hp1 & _).
  fold saved in Hp1.
  destruct saved.1 as [[]|]; [| discriminate Hsaved].
  destruct (provider_phase_calls s) as (_ & _ & Hph & _).
  destruct (checked (provider_phase s).1) as [data|e].
  - set (saved' := save_phase _ _ _).
    destruct (save_phase_events (guest_flag w)
                (ChatWindow.assistantMsg (clock (2 + ticks w)) (clock (3 + ticks w)) data)
                (default EmptyString (ChatWindow.activeConvId s)))
      as (_ & _ & Hp2 & _).
    fold saved' in Hp2.
    destruct saved'.1 as [[]|e3]; rewrite new_events_after, !List.filter_app,
      (existsb_filter_nil _ _ Hp1), (existsb_filter_nil _ _ Hph),
      (existsb_filter_nil _ _ Hp2); reflexivity.
  - rewrite new_events_after, !List.filter_app,
      (existsb_filter_nil _ _ Hp1), (existsb_filter_nil _ _ Hph). reflexivity.
Qed.

End chat.

Lemma startNewChat_temporary_witness :
  ChatWindow.activeConvId
    (state_of (@ChatWindow.startNewChat Sample.signed_out 1 Sample.mounted world0))
  = Some "temp-1714557600001".
Proof.
  destruct (@startNewChat_temporary Sample.signed_out 1 Sample.mounted world0 eq_refl)
    as (_ & Hid & _).
  exact Hid.
Defined.

Lemma loadConversations_opens_first_witness :
  ChatWindow.activeConvId
    (state_of (@ChatWindow.loadConversations Sample.with_conversations 1
                 Sample.mounted world0))
  = Some "c-2".
Proof.
  destruct (@loadConversations_opens_first Sample.with_conversations 0 _ _
              Sample.mounted world0 eq_refl)
    as (_ & Hid & _).
  exact Hid.
Defined.

Lemma handleSend_appends_witness :
  Message.role
    <$> ChatWindow.messages
          (state_of (@ChatWindow.handleSend Sample.signed_in Sample.ready world0))
  = [user; assistant; user; assistant]
  /\ Message.role
       <$> ChatWindow.messages
             (state_of (@ChatWindow.handleSend Sample.replies_rejected Sample.ready
                          world0))
     = [user; assistant; user; assistant; assistant].
Proof.
  destruct (@handleSend_appends Sample.signed_in Sample.ready world0)
    as (_ & _ & _ & _ & Hsaved).
  - reflexivity.
  - reflexivity.
  - destruct (@handleSend_appends Sample.replies_rejected Sample.ready world0)
      as (_ & _ & _ & _ & Hrejected).
    + reflexivity.
    + reflexivity.
    + split; [rewrite Hsaved | rewrite Hrejected]; reflexivity.
Defined.

Lemma handleSend_empty_response_witness :
  Message.content
    <$> last (ChatWindow.messages
                (state_of (@ChatWindow.handleSend Sample.silent Sample.ready world0)))
  = Some (JStr ("âŒ Sorry, I encountered an error: No response received "
                +:+ "from AI. Please check your API keys in .env and try again."))
  /\ calls_of_callOpenRouter
       (new_events world0 (@ChatWindow.handleSend Sample.silent Sample.ready world0))
     = [].
Proof.
  destruct (@handleSend_empty_response Sample.silent Sample.ready world0
              (Analysis.mk (JObj [("dominant_mood", JStr "Sad")]) "LISTENING" JUndefined))
    as (_ & Hmessages & Hcalls & _).
  - reflexivity.
  - reflexivity.
  - reflexivity.
  - reflexivity.
  - split; [rewrite Hmessages; reflexivity | exact Hcalls].
Defined.

Lemma handleSend_tells_parent_once_witness :
  List.filter is_onMoodDetected
    (new_events world0 (@ChatWindow.handleSend Sample.signed_in Sample.ready world0))
  = [ OnMoodDetected (JObj [ ("dominant_mood", JStr "Sad");
                             ("risk_score", JNum (1 # 4)) ]) "CALMING" ].
Proof.
  apply (@handleSend_tells_parent_once Sample.signed_in Sample.ready world0);
    reflexivity.
Defined.

(** ** The figures of the dashboard *)

Section dashboard.
Context `{!Runtime}.

Lemma latestLog_last (l : list MoodLogEntry.t) : Dashboard.latestLog l = last l.
Proof.
  unfold Dashboard.latestLog. destruct l as [|e l]; [reflexivity |].
  change (0 <? length (e :: l))%nat with true. cbv iota.
  rewrite last_lookup. f_equal. cbn [length]. lia.
Qed.

(** X20: the dashboard after a mood detection.  After the first detection
    of a day the latest log is the entry of this detection, the energy
    shown is its energy level, or Calm when that is empty, and the streak
    has grown by one.  After a further detection on a day the streak is as
    it was; and when the entry of the day is not the last entry of the log,
    the latest log, and with it the energy shown, is as it was. *)
Theorem dashboard_after_detection mood mode s w :
  let today := App.today_of (clock (ticks w)) in
  let entry := App.newEntry today mood in
  let logs := App.moodLogs s in
  let logs' := App.moodLogs (state_of (App.handleMoodDetected mood mode s w)) in
  (Forall (fun e => MoodLogEntry.date e <> today) logs ->
   Dashboard.latestLog logs' = Some entry
   /\ Dashboard.currentEnergy logs'
      = (if JSString.truthy (MoodState.energy_level mood)
         then MoodState.energy_level mood else "Calm")
   /\ Dashboard.calculateStreak logs' = S (Dashboard.calculateStreak logs))
  /\ (today ∈ MoodLogEntry.date <$> logs ->
      Dashboard.calculateStreak logs' = Dashboard.calculateStreak logs)
  /\ (forall i e,
         logs !! i = Some e ->
         MoodLogEntry.date e = today ->
         (forall j e', (j < i)%nat -> logs !! j = Some e' ->
                       MoodLogEntry.date e' <> today) ->
         (S i < length logs)%nat ->
         Dashboard.latestLog logs' = Dashboard.latestLog logs
         /\ Dashboard.currentEnergy logs' = Dashboard.currentEnergy logs).
Proof.
  cbv zeta. rewrite handleMoodDetected_logs.
  set (today := App.today_of _). set (entry := App.newEntry today mood).
  split_and!.
  - intros Hnone. rewrite (mergeMoodLog_append today entry _ Hnone).
    assert (Hlatest : Dashboard.latestLog (App.moodLogs s ++ [entry]) = Some entry)
      by (rewrite latestLog_last; apply last_snoc).
    split; [exact Hlatest |]. split.
    + unfold Dashboard.currentEnergy. rewrite Hlatest. reflexivity.
    + unfold Dashboard.calculateStreak. rewrite length_app. cbn [length].
      replace (length (App.moodLogs s) + 1 =? 0)%nat with false
        by (symmetry; apply Nat.eqb_neq; lia).
      destruct (length (App.moodLogs s)) eqn:Hlen; cbn; lia.
  - intros Htoday. unfold Dashboard.calculateStreak.
    by rewrite (mergeMoodLog_length_same_day today entry _ Htoday).
  - intros i e Hi He Hfirst Hlast.
    rewrite (mergeMoodLog_overwrite today entry _ i e Hi He Hfirst).
    assert (Hlatest : Dashboard.latestLog (<[i:=entry]> (App.moodLogs s))
                      = Dashboard.latestLog (App.moodLogs s)).
    { rewrite !latestLog_last, !last_lookup, length_insert.
      apply list_lookup_insert_ne. lia. }
    split; [exact Hlatest |].
    unfold Dashboard.currentEnergy. by rewrite Hlatest.
Qed.

End dashboard.

Lemma dashboard_after_detection_witness :
  Dashboard.calculateStreak
    (App.moodLogs
       (state_of (@App.handleMoodDetected Sample.signed_in Sample.sad
                    SupportMode.CALMING (Sample.app false Sample.log_before) world0)))
  = 2%nat.
Proof.
  destruct (@dashboard_after_detection Sample.signed_in Sample.sad SupportMode.CALMING
              (Sample.app false Sample.log_before) world0)
    as (_ & Hsame & _).
  rewrite Hsame; [reflexivity |].
  apply (bool_decide_unpack _). vm_compute. exact I.
Defined.

(** ** The voice analysis *)

Section voice.
Context `{!Runtime} `{!VoiceRuntime}.

Lemma getNextApiKey_run c w :
  geminiService.getNextApiKey c w
  = (Normal (if (Z.rem (c + 1) 2 =? 0)%Z then GEMINI_API_KEY_1
             else Some GEMINI_API_KEY_2),
     Z.rem (c + 1) 2, w).
Proof. reflexivity. Qed.

Lemma repeatedly_getNextApiKey n i w :
  repeatedly n geminiService.getNextApiKey (Z.of_nat i mod 2)%Z w
  = (Normal (List.map (fun k => if Nat.odd k then Some GEMINI_API_KEY_2
                                else GEMINI_API_KEY_1) (seq (S i) n)),
     (Z.of_nat (i + n) mod 2)%Z, w).
Proof.
  revert i. induction n as [|n IH]; intros i.
  - cbn [repeatedly seq List.map]. by rewrite Nat.add_0_r.
  - cbn [repeatedly seq List.map]. rewrite run_bind, getNextApiKey_run.
    assert (Hnext : Z.rem (Z.of_nat i mod 2 + 1) 2 = (Z.of_nat (S i) mod 2)%Z).
    { rewrite Z.rem_mod_nonneg by (pose proof (Z.mod_pos_bound (Z.of_nat i) 2); lia).
      rewrite Nat2Z.inj_succ. unfold Z.succ.
      by rewrite Zplus_mod_idemp_l. }
    rewrite Hnext, run_bind, IH.
    replace (S i + n)%nat with (i + S n)%nat by lia.
    assert (Hkey : (Z.of_nat (S i) mod 2 =? 0)%Z = negb (Nat.odd (S i))).
    { rewrite <- Nat.negb_even, negb_involutive.
      destruct (Nat.even (S i)) eqn:Heven.
      - apply Nat.even_spec in Heven as [k Hk]. rewrite Hk.
        rewrite Nat2Z.inj_mul, Z.mul_comm, Z_mod_mult. reflexivity.
      - apply (f_equal negb) in Heven. rewrite Nat.negb_even in Heven. cbn in Heven.
        apply Nat.odd_spec in Heven as [k Hk]. rewrite Hk.
        rewrite Nat2Z.inj_add, Nat2Z.inj_mul, Z.add_comm, Z.mul_comm, Z_mod_plus_full.
        reflexivity. }
    rewrite Hkey. by destruct (Nat.odd (S i)).
Qed.

(** X21: the keys are handed out in turn.  From the start of the module,
    the calls of [getNextApiKey] give the second key, the first key, the
    second key and so on, and after [n] calls the counter is [n] modulo 2. *)
Theorem getNextApiKey_round_robin n w :
  repeatedly n geminiService.getNextApiKey 0%Z w
  = (Normal (List.map (fun k => if Nat.odd k then Some GEMINI_API_KEY_2
                                else GEMINI_API_KEY_1) (seq 1 n)),
     (Z.of_nat n mod 2)%Z, w).
Proof. apply (repeatedly_getNextApiKey n 0). Qed.

Lemma normalize_voice_allowed response_text data :
  geminiService.normalize_voice response_text = Normal data ->
  exists m, get data "mood" = Normal (JStr m) /\ In m geminiService.ALLOWED_MOODS.
Proof.
  unfold geminiService.normalize_voice, mbind, completion_mbind, and_then, mret,
    completion_mret.
  destruct (JSON_parse _) as [parsed|]; [| discriminate].
  destruct (get parsed "mood") as [mood|] eqn:Hget; [| discriminate].
  destruct (includes _ mood) eqn:Hin; cbn [negb].
  - intros [= <-]. apply includes_In in Hin as (m & -> & Hm). eauto.
  - intros Hset. exists "Neutral". split; [by eapply get_set |].
    unfold geminiService.ALLOWED_MOODS. cbn [In]. auto 10.
Qed.

Lemma get_defined data k v k' :
  get data k = Normal v -> exists v', get data k' = Normal v'.
Proof. destruct data; try discriminate; cbn; eauto. Qed.

(** The run of [analyzeVoiceOnly] with the key that it takes. *)
Lemma analyzeVoiceOnly_run audioBuffer c w :
  let apiKey := if (Z.rem (c + 1) 2 =? 0)%Z then GEMINI_API_KEY_1
                else Some GEMINI_API_KEY_2 in
  let request := Gemini_generateContent voice_systemInstruction
                   (geminiService.voice_parts audioBuffer) in
  exists c' evs,
    geminiService.analyzeVoiceOnly audioBuffer c w
    = (c', Z.rem (c + 1) 2, emitted evs w)
    /\ match GoogleGenAI_new apiKey with
       | Some e => c' = Throw e /\ evs = []
       | None =>
           match voice_generateContent apiKey voice_systemInstruction
                   (geminiService.voice_parts audioBuffer)
                 ≫= geminiService.normalize_voice with
           | Normal data =>
               exists r logs, c' = Normal r
                 /\ get data "mood" = Normal (VoiceAnalysis.mood r)
                 /\ get data "transcription" = Normal (VoiceAnalysis.transcription r)
                 /\ get data "confidence" = Normal (VoiceAnalysis.confidence r)
                 /\ evs = request :: logs
                 /\ forallb quiet logs = true
           | Throw _ =>
               c' = Throw (Error "I couldn't analyze the voice recording. Please try again.")
               /\ evs = [ request;
                          Console ConsoleLevel_error "Gemini Voice Analysis Error:" ]
           end
       end.
Proof.
  cbv zeta. unfold geminiService.analyzeVoiceOnly.
  rewrite run_bind, getNextApiKey_run.
  set (apiKey := if (Z.rem (c + 1) 2 =? 0)%Z then _ else _).
  destruct (GoogleGenAI_new apiKey) as [e|].
  { exists (Throw e), []. by rewrite emitted_nil. }
  run_io.
  destruct (voice_generateContent _ _ _) as [response_text|];
    cbn [fst snd mbind completion_mbind and_then];
    [| rewrite emitted_emitted; by eexists _, _].
  destruct (geminiService.normalize_voice response_text) as [data|] eqn:Hnorm;
    cbn [fst snd]; [| rewrite emitted_emitted; by eexists _, _].
  destruct (normalize_voice_allowed _ _ Hnorm) as (m & Hmood & _).
  destruct (get_defined _ _ _ "transcription" Hmood) as (t & Ht).
  destruct (get_defined _ _ _ "confidence" Hmood) as (cf & Hcf).
  rewrite Hmood, Ht, Hcf. cbn [fst snd]. rewrite !emitted_emitted. cbn [app].
  eexists _, _. split; [reflexivity |].
  eexists _, _. split_and!; try reflexivity.
Qed.

(** X22: every call of [analyzeVoiceOnly] takes the next key, also a call
    that fails, and ends in one of three ways.  When it returns, its mood is
    one of the allowed moods.  When the client cannot be made, the error of
    that is thrown on as it is and no request is made.  Every failure after
    that (the request, the parsing of the reply, a reply that is no object)
    is logged once and thrown as the one error of the voice analysis. *)
Theorem analyzeVoiceOnly_ends audioBuffer c w :
  let r := geminiService.analyzeVoiceOnly audioBuffer c w in
  let apiKey := if (Z.rem (c + 1) 2 =? 0)%Z then GEMINI_API_KEY_1
                else Some GEMINI_API_KEY_2 in
  state_of r = Z.rem (c + 1) 2
  /\ match completion_of r with
     | Normal result =>
         exists m, VoiceAnalysis.mood result = JStr m
                   /\ In m geminiService.ALLOWED_MOODS
     | Throw e =>
         match GoogleGenAI_new apiKey with
         | Some e' => e = e' /\ new_events w r = []
         | None =>
             e = Error "I couldn't analyze the voice recording. Please try again."
             /\ new_events w r
                = [ Gemini_generateContent voice_systemInstruction
                      (geminiService.voice_parts audioBuffer);
                    Console ConsoleLevel_error "Gemini Voice Analysis Error:" ]
         end
     end.
Proof.
  cbv zeta.
  destruct (analyzeVoiceOnly_run audioBuffer c w) as (c' & evs & -> & Hrun).
  cbn [completion_of state_of fst snd]. rewrite new_events_emitted.
  split; [reflexivity |].
  destruct (GoogleGenAI_new _).
  { destruct Hrun as [-> ->]. done. }
  destruct (voice_generateContent _ _ _) as [response_text|];
    cbn [mbind completion_mbind and_then] in Hrun.
  - destruct (geminiService.normalize_voice response_text) as [data|] eqn:Hnorm.
    + destruct Hrun as (result & logs & -> & Hmood & _).
      destruct (normalize_voice_allowed _ _ Hnorm) as (m & Hm & Hin).
      exists m. split; [congruence | done].
    + destruct Hrun as [-> ->]. done.
  - destruct Hrun as [-> ->]. done.
Qed.

End voice.

Lemma analyzeVoiceOnly_ends_witness :
  state_of (@geminiService.analyzeVoiceOnly Sample.signed_in
              (Sample.voice (Normal None)) "UklGRg==" 0%Z world0)
  = 1%Z.
Proof.
  destruct (@analyzeVoiceOnly_ends Sample.signed_in (Sample.voice (Normal None))
              "UklGRg==" 0%Z world0)
    as [Hstate _].
  exact Hstate.
Defined.

(** ** services/api.ts *)

Lemma of_Z_parsed n : NilZero.int_of_string (JSString.of_Z n) = Some (Z.to_int n).
Proof.
  unfold JSString.of_Z. apply NilZero.isi.
  - destruct n as [|p|p]; cbn; try discriminate.
    intros [= Hp]. by apply (DecimalPos.Unsigned.to_uint_nonnil p).
  - destruct n as [|p|p]; cbn; try discriminate.
    intros [= Hp]. by apply (DecimalPos.Unsigned.to_uint_nonnil p).
Qed.

Lemma of_Z_inj n m : JSString.of_Z n = JSString.of_Z m -> n = m.
Proof.
  intros Heq. apply DecimalZ.to_int_inj.
  pose proof (of_Z_parsed n) as Hn. rewrite Heq, of_Z_parsed in Hn.
  by injection Hn.
Qed.

Lemma of_Z_not_a_number n name :
  NilZero.int_of_string name = None -> JSString.of_Z n <> name.
Proof. intros Hname <-. by rewrite of_Z_parsed in Hname. Qed.

Lemma indexed_lookup pairs : forall i j name value,
  pairs !! j = Some (name, value) ->
  api.indexed i pairs !! JSString.of_Z (Z.of_nat (i + j))
  = Some (JArr [JStr name; JStr value] []).
Proof.
  induction pairs as [|[name' value'] pairs IH]; intros i j name value Hj; [done |].
  cbn [api.indexed]. destruct j as [|j].
  - injection Hj as -> ->. rewrite Nat.add_0_r. apply lookup_insert_eq.
  - rewrite lookup_insert_ne.
    + replace (i + S j)%nat with (S i + j)%nat by lia. by apply IH.
    + intros Heq%of_Z_inj. lia.
Qed.

Lemma indexed_lookup_None pairs : forall i name,
  (forall j, (j < length pairs)%nat -> name <> JSString.of_Z (Z.of_nat (i + j))) ->
  api.indexed i pairs !! name = None.
Proof.
  induction pairs as [|[name' value'] pairs IH]; intros i name Hname; [done |].
  cbn [api.indexed]. rewrite lookup_insert_ne.
  - apply IH. intros j Hj. replace (S i + j)%nat with (i + S j)%nat by lia.
    apply Hname. cbn [length]. lia.
  - intros Heq. apply (Hname 0%nat); [cbn [length]; lia |].
    by rewrite Nat.add_0_r.
Qed.

Lemma indexed_not_a_number pairs i name :
  NilZero.int_of_string name = None -> api.indexed i pairs !! name = None.
Proof.
  intros Hname. apply indexed_lookup_None. intros j _ Heq.
  by apply (of_Z_not_a_number (Z.of_nat (i + j)) name).
Qed.

Section api.
Context `{!Runtime} `{!api.Server}.

(** The headers that [apiFetch] sends. *)
Lemma apiFetch_run endpoint options b w :
  let headers :=
    api.spread (api.RequestInit.headers options)
      ∪ api.token_header (localStorage w !! "access_token")
      ∪ {[ "Content-Type" := JStr "application/json" ]} in
  let init := api.Request.mk headers (api.RequestInit.rest options) in
  let url := api.BASE_URL +:+ endpoint in
  let b1 := api.mkBrowser (api.network b ++ [(url, init)]) (api.dispatched b) in
  api.apiFetch endpoint options b w
  = match api.respond url init with
    | Throw e => (Throw e, b1, w)
    | Normal response =>
        if (api.Response.status response =? 401)%Z then
          api.parsed_or_thrown response
            (api.mkBrowser (api.network b1) (api.dispatched b1 ++ ["auth-reset"]))
            (mkWorld (trace w) (ticks w)
               (delete "refresh_token" (delete "access_token" (localStorage w))))
        else api.parsed_or_thrown response b1 w
    end.
Proof.
  cbv zeta. unfold api.apiFetch, api.fetch, api.dispatchEvent.
  unfold mbind, mret, IO_mbind, IO_mret, IO_bind, IO_ret, eval, set_state,
    localStorage_getItem, localStorage_removeItem.
  cbn beta iota.
  destruct (api.respond _ _) as [response|e]; [| reflexivity].
  destruct (api.Response.status response =? 401)%Z; reflexivity.
Qed.

Lemma parsed_or_thrown_run response b w :
  exists c, api.parsed_or_thrown response b w = (c, b, w)
    /\ (api.Response.ok response = false -> ended_normally c = false)
    /\ (api.Response.ok response = true -> c = api.Response.json response).
Proof.
  unfold api.parsed_or_thrown.
  unfold mbind, mret, IO_mbind, IO_mret, IO_bind, IO_ret, eval, throw.
  destruct (api.Response.ok response); cbn [negb].
  - eexists. split; [reflexivity |]. done.
  - destruct (get _ "detail"); eexists; (split; [reflexivity |]); done.
Qed.

(** The headers sent, given what the spread copies from the caller's. *)
Lemma headers_sent (given : gmap string JSValue) (token : option string) :
  let headers := given ∪ api.token_header token
                   ∪ {[ "Content-Type" := JStr "application/json" ]} in
  let bearer := match token with
                | Some t => if JSString.truthy t then Some (JStr ("Bearer " +:+ t))
                            else None
                | None => None
                end in
  (forall name value, given !! name = Some value -> headers !! name = Some value)
  /\ (given !! "Content-Type" = None ->
      headers !! "Content-Type" = Some (JStr "application/json"))
  /\ (given !! "Authorization" = None -> headers !! "Authorization" = bearer)
  /\ (forall name,
         name <> "Content-Type" -> name <> "Authorization" ->
         headers !! name = given !! name).
Proof.
  cbv zeta. set (sent := api.token_header token).
  assert (Htoken : forall name, name <> "Authorization" -> sent !! name = None).
  { intros name Hname. subst sent. unfold api.token_header.
    destruct token as [t|]; [| apply lookup_empty].
    destruct (JSString.truthy t); [| apply lookup_empty].
    by apply lookup_singleton_ne. }
  split_and!.
  - intros name value Hgiven.
    apply lookup_union_Some_l. by apply lookup_union_Some_l.
  - intros Hnone. rewrite lookup_union_r.
    + apply lookup_singleton_eq.
    + apply lookup_union_None_2; [done |]. by apply Htoken.
  - intros Hnone.
    rewrite lookup_union_l by (by apply lookup_singleton_ne).
    rewrite lookup_union_r by done.
    subst sent. unfold api.token_header.
    destruct token as [t|]; [| apply lookup_empty].
    destruct (JSString.truthy t); [| apply lookup_empty].
    apply lookup_singleton_eq.
  - intros name Hct Hauth.
    rewrite lookup_union_l by (by apply lookup_singleton_ne).
    destruct (given !! name) as [v|] eqn:Hgiven.
    + by apply lookup_union_Some_l.
    + apply lookup_union_None_2; [done |]. by apply Htoken.
Qed.

(** X23: [apiFetch] makes one request, to the endpoint under /api/v1, and
    hands on the other options as they are.  What it sends of the caller's
    headers depends on their kind.  The headers of a plain object are sent
    as the caller gave them.  The headers of a [Headers] instance are not
    sent at all.  The pairs of an array are sent under their indices, each
    as the pair, and not under their names.  The content type is JSON, and
    the authorization is the stored access token as a bearer token, or
    absent when no token or an empty one is stored; only a plain object can
    replace them. *)
Theorem apiFetch_request endpoint options b w :
  let r := api.apiFetch endpoint options b w in
  let bearer := match localStorage w !! "access_token" with
                | Some token =>
                    if JSString.truthy token then Some (JStr ("Bearer " +:+ token))
                    else None
                | None => None
                end in
  exists headers,
    api.network (state_of r)
    = api.network b
        ++ [ (api.BASE_URL +:+ endpoint,
              api.Request.mk headers (api.RequestInit.rest options)) ]
    /\ (forall members,
           api.RequestInit.headers options = Some (api.Headers_object members) ->
           (forall name value,
               members !! name = Some value -> headers !! name = Some (JStr value))
           /\ (members !! "Content-Type" = None ->
               headers !! "Content-Type" = Some (JStr "application/json"))
           /\ (members !! "Authorization" = None ->
               headers !! "Authorization" = bearer)
           /\ (forall name,
                  name <> "Content-Type" -> name <> "Authorization" ->
                  members !! name = None -> headers !! name = None))
    /\ ((api.RequestInit.headers options = None
         \/ exists entries,
              api.RequestInit.headers options = Some (api.Headers_instance entries)) ->
        headers !! "Content-Type" = Some (JStr "application/json")
        /\ headers !! "Authorization" = bearer
        /\ (forall name,
               name <> "Content-Type" -> name <> "Authorization" ->
               headers !! name = None))
    /\ (forall pairs,
           api.RequestInit.headers options = Some (api.Headers_pairs pairs) ->
           (forall i name value,
               pairs !! i = Some (name, value) ->
               headers !! JSString.of_Z (Z.of_nat i)
               = Some (JArr [JStr name; JStr value] []))
           /\ headers !! "Content-Type" = Some (JStr "application/json")
           /\ headers !! "Authorization" = bearer
           /\ (forall name,
                  name <> "Content-Type" -> name <> "Authorization" ->
                  (forall i, (i < length pairs)%nat ->
                             name <> JSString.of_Z (Z.of_nat i)) ->
                  headers !! name = None)).
Proof.
  cbv zeta. rewrite apiFetch_run. cbv zeta.
  set (given := api.spread _).
  destruct (headers_sent given (localStorage w !! "access_token"))
    as (Hgiven & Htype & Hauth & Hother).
  set (headers := given ∪ _ ∪ _) in *.
  exists headers. split.
  { destruct (api.respond _ _) as [response|e]; [| reflexivity].
    destruct (api.Response.status response =? 401)%Z;
      match goal with
      | |- context [api.parsed_or_thrown response ?b1 ?w1] =>
          destruct (parsed_or_thrown_run response b1 w1) as (c & -> & _)
      end; reflexivity. }
  split_and!.
  - intros members Hmembers. subst given. rewrite Hmembers in *. cbn [api.spread] in *.
    split_and!.
    + intros name value Hname. apply Hgiven. by rewrite lookup_fmap, Hname.
    + intros Hnone. apply Htype. by rewrite lookup_fmap, Hnone.
    + intros Hnone. apply Hauth. by rewrite lookup_fmap, Hnone.
    + intros name H1 H2 Hnone. rewrite Hother by done. by rewrite lookup_fmap, Hnone.
  - intros Hnone.
    assert (Hempty : given = ∅).
    { subst given. by destruct Hnone as [-> | [entries ->]]. }
    rewrite Hempty in *. split_and!.
    + by apply Htype.
    + by apply Hauth.
    + intros name H1 H2. by rewrite Hother.
  - intros pairs Hpairs. subst given. rewrite Hpairs in *. cbn [api.spread] in *.
    split_and!.
    + intros i name value Hi. apply Hgiven.
      by apply (indexed_lookup pairs 0 i).
    + apply Htype. by apply indexed_not_a_number.
    + apply Hauth. by apply indexed_not_a_number.
    + intros name H1 H2 Hname. rewrite Hother by done.
      by apply indexed_lookup_None.
Qed.
(** X24: the two functions change the browser in one case only.  An
    answer with the status 401 makes [apiFetch] forget both tokens, dispatch
    the event auth-reset on the window once, and then throw.  On every
    other answer and on a failed request [apiFetch] leaves local storage as
    it is and dispatches nothing; so does [apiUpload] on every answer, also
    on 401, after its one request. *)
Theorem browser_changes_on_401_only endpoint options formData b w :
  let r := api.apiFetch endpoint options b w in
  let r' := api.apiUpload endpoint formData b w in
  (forall response,
      (forall url init, api.respond url init = Normal response) ->
      api.Response.status response = 401%Z ->
      ended_normally (completion_of r) = false
      /\ localStorage (world_of r) !! "access_token" = None
      /\ localStorage (world_of r) !! "refresh_token" = None
      /\ (forall key, key <> "access_token" -> key <> "refresh_token" ->
                      localStorage (world_of r) !! key = localStorage w !! key)
      /\ api.dispatched (state_of r) = api.dispatched b ++ ["auth-reset"])
  /\ ((forall url init response,
          api.respond url init = Normal response ->
          api.Response.status response <> 401%Z) ->
      world_of r = w /\ api.dispatched (state_of r) = api.dispatched b)
  /\ world_of r' = w
  /\ api.dispatched (state_of r') = api.dispatched b
  /\ length (api.network (state_of r')) = S (length (api.network b)).
Proof.
  cbv zeta. split; [| split].
  - intros response Hrespond Hstatus. rewrite apiFetch_run. cbv zeta.
    rewrite Hrespond, Hstatus. cbn [Z.eqb Pos.eqb].
    match goal with
    | |- context [api.parsed_or_thrown response ?b1 ?w1] =>
        destruct (parsed_or_thrown_run response b1 w1) as (c & -> & Hc & _)
    end.
    cbn [completion_of state_of world_of fst snd localStorage api.dispatched].
    split_and!.
    + apply Hc. unfold api.Response.ok. by rewrite Hstatus.
    + rewrite lookup_delete_ne by done. apply lookup_delete_eq.
    + apply lookup_delete_eq.
    + intros key H1 H2. by rewrite !lookup_delete_ne.
    + reflexivity.
  - intros Hstatus. rewrite apiFetch_run. cbv zeta.
    destruct (api.respond _ _) as [response|e] eqn:Hrespond; [| done].
    destruct (api.Response.status response =? 401)%Z eqn:H401.
    + apply Z.eqb_eq in H401. by destruct (Hstatus _ _ response Hrespond).
    + match goal with
      | |- context [api.parsed_or_thrown response ?b1 ?w1] =>
          destruct (parsed_or_thrown_run response b1 w1) as (c & -> & _)
      end. done.
  - unfold api.apiUpload, api.fetch.
    unfold mbind, mret, IO_mbind, IO_mret, IO_bind, IO_ret, eval, set_state,
      localStorage_getItem.
    cbn beta iota.
    destruct (api.respond _ _) as [response|e].
    + match goal with
      | |- context [api.parsed_or_thrown response ?b1 ?w1] =>
          destruct (parsed_or_thrown_run response b1 w1) as (c & -> & _)
      end.
      cbn. rewrite length_app. cbn. split_and!; try done. lia.
    + cbn. rewrite length_app. cbn. split_and!; try done. lia.
Qed.

(** X25: what the two functions make of an answer.  The parsed body of an
    answer that is ok is returned.  An answer that is not ok is thrown as an
    error whose message is the detail of the body when the body is an object
    with a detail that is not falsy, API request failed when the detail is
    missing or falsy, and Unknown error when the body is not JSON.  The two
    functions agree on this. *)
Theorem answers_returned_or_thrown endpoint options formData b w response :
  (forall url init, api.respond url init = Normal response) ->
  let c := completion_of (api.apiFetch endpoint options b w) in
  c = completion_of (api.apiUpload endpoint formData b w)
  /\ (api.Response.ok response = true -> c = api.Response.json response)
  /\ (api.Response.ok response = false ->
      ended_normally c = false
      /\ (forall e,
             api.Response.json response = Throw e -> c = Throw (Error "Unknown error"))
      /\ (forall props,
             api.Response.json response = Normal (JObj props) ->
             c = Throw (Error (if truthy (lookup_prop "detail" props)
                               then ToString Number_toString (lookup_prop "detail" props)
                               else "API request failed")))).
Proof.
  intros Hrespond. cbv zeta.
  assert (Hrun : forall b1 w1,
            completion_of (api.parsed_or_thrown response b1 w1)
            = completion_of (api.parsed_or_thrown response b w)).
  { intros b1 w1. unfold api.parsed_or_thrown.
    unfold mbind, mret, IO_mbind, IO_mret, IO_bind, IO_ret, eval, throw.
    destruct (api.Response.ok response); cbn [negb]; [reflexivity |].
    by destruct (get _ "detail"). }
  assert (Hfetch : completion_of (api.apiFetch endpoint options b w)
                   = completion_of (api.parsed_or_thrown response b w)).
  { rewrite apiFetch_run. cbv zeta. rewrite Hrespond.
    destruct (api.Response.status response =? 401)%Z; apply Hrun. }
  assert (Hupload : completion_of (api.apiUpload endpoint formData b w)
                    = completion_of (api.parsed_or_thrown response b w)).
  { unfold api.apiUpload, api.fetch.
    unfold mbind at 1 2 3. unfold IO_mbind, IO_bind, eval, set_state,
      localStorage_getItem.
    cbn beta iota. rewrite Hrespond. apply Hrun. }
  rewrite Hfetch, Hupload. split; [reflexivity |].
  unfold api.parsed_or_thrown.
  unfold mbind, mret, IO_mbind, IO_mret, IO_bind, IO_ret, eval, throw.
  split.
  - intros ->. reflexivity.
  - intros ->. cbn [negb]. split_and!.
    + by destruct (get _ "detail").
    + intros e ->. reflexivity.
    + intros props ->. reflexivity.
Qed.

End api.

Lemma apiFetch_request_witness :
  exists headers,
    api.network
      (state_of (@api.apiFetch Sample.signed_in
                   (Sample.server (Normal Sample.unauthorized))
                   "/moods"
                   (api.RequestInit.mk
                      (Some (api.Headers_pairs [("Accept", "text/plain")]))
                      [ ("method", JStr "GET") ])
                   Sample.browser0 Sample.token_world))
    = [ ("/api/v1/moods", api.Request.mk headers [ ("method", JStr "GET") ]) ]
    /\ headers !! "0" = Some (JArr [JStr "Accept"; JStr "text/plain"] [])
    /\ headers !! "Accept" = None
    /\ headers !! "Authorization" = Some (JStr "Bearer t-1")
    /\ headers !! "Content-Type" = Some (JStr "application/json").
Proof.
  destruct (@apiFetch_request Sample.signed_in (Sample.server (Normal Sample.unauthorized))
              "/moods"
              (api.RequestInit.mk
                 (Some (api.Headers_pairs [("Accept", "text/plain")]))
                 [ ("method", JStr "GET") ])
              Sample.browser0 Sample.token_world)
    as (headers & Hnetwork & _ & _ & Hpairs).
  destruct (Hpairs [("Accept", "text/plain")] eq_refl)
    as (Hindex & Htype & Hauth & Hother).
  exists headers. split; [exact Hnetwork |]. split_and!.
  - exact (Hindex 0%nat "Accept" "text/plain" eq_refl).
  - apply Hother; [discriminate | discriminate |].
    intros i Hi. destruct i as [|i]; [discriminate | cbn in Hi; lia].
  - exact Hauth.
  - exact Htype.
Defined.

Lemma browser_changes_on_401_only_witness :
  api.dispatched
    (state_of (@api.apiFetch Sample.signed_in (Sample.server (Normal Sample.unauthorized))
                 "/moods" (api.RequestInit.mk None []) Sample.browser0
                 Sample.token_world))
  = ["auth-reset"]
  /\ world_of (@api.apiUpload Sample.signed_in
                 (Sample.server (Normal Sample.unauthorized))
                 "/voice" (JObj []) Sample.browser0 Sample.token_world)
     = Sample.token_world.
Proof.
  destruct (@browser_changes_on_401_only Sample.signed_in
              (Sample.server (Normal Sample.unauthorized))
              "/moods" (api.RequestInit.mk None []) (JObj [])
              Sample.browser0 Sample.token_world)
    as (H401 & _ & _).
  destruct (@browser_changes_on_401_only Sample.signed_in
              (Sample.server (Normal Sample.unauthorized))
              "/voice" (api.RequestInit.mk None []) (JObj [])
              Sample.browser0 Sample.token_world)
    as (_ & _ & Hupload & _).
  split.
  - destruct (H401 Sample.unauthorized) as (_ & _ & _ & _ & Hdispatched).
    + reflexivity.
    + reflexivity.
    + exact Hdispatched.
  - exact Hupload.
Defined.

Lemma answers_returned_or_thrown_witness :
  completion_of
    (@api.apiFetch Sample.signed_in (Sample.server (Normal Sample.unauthorized))
       "/moods" (api.RequestInit.mk None []) Sample.browser0 Sample.token_world)
  = Throw (Error "Token expired").
Proof.
  destruct (@answers_returned_or_thrown Sample.signed_in
              (Sample.server (Normal Sample.unauthorized))
              "/moods" (api.RequestInit.mk None []) (JObj [])
              Sample.browser0 Sample.token_world Sample.unauthorized)
    as (_ & _ & Hthrown).
  - reflexivity.
  - destruct (Hthrown eq_refl) as (_ & _ & Hdetail).
    apply (Hdetail _ eq_refl).
Defined.

(** ** The biometric scan *)

Section scan.
Context `{!Runtime}.

(** X26: without a captured image and without a recorded voice note,
    [handleAnalyze] only shows its hint: the provider is not asked, the
    callback is not called, and the state of the parent is left as it is. *)
Theorem handleAnalyze_needs_input {P} history
    (onAnalysisComplete : JSValue -> string -> JSValue -> IO P unit) s (p : P) w :
  MultimodalCapture.captured (MultimodalCapture.capturedImageBase64 s) = false ->
  MultimodalCapture.captured (MultimodalCapture.audioBase64 s) = false ->
  MultimodalCapture.handleAnalyze history onAnalysisComplete (s, p) w
  = (Normal tt,
     (MultimodalCapture.setError
        (Some "Please capture an image or record a voice note for analysis.") s, p),
     w).
Proof.
  intros Himage Haudio. unfold MultimodalCapture.handleAnalyze.
  unfold mbind at 1. unfold IO_mbind, IO_bind, on_fst, get_state. cbn [fst snd].
  rewrite Himage, Haudio. reflexivity.
Qed.

(** The run of a scan in terms of the call of Provider A that it makes. *)
Lemma scan_run s chat showCapture w :
  (MultimodalCapture.captured (MultimodalCapture.capturedImageBase64 s)
   || MultimodalCapture.captured (MultimodalCapture.audioBase64 s)) = true ->
  let call := geminiService.analyzeMultimodalMood None
                (MultimodalCapture.or_undefined (MultimodalCapture.capturedImageBase64 s))
                (MultimodalCapture.or_undefined (MultimodalCapture.audioBase64 s)) [] in
  let s1 := MultimodalCapture.setIsAnalyzing false
              (MultimodalCapture.setError None
                 (MultimodalCapture.setIsAnalyzing true s)) in
  MultimodalCapture.scan (s, (chat, showCapture)) w
  = match outcome call with
    | Normal data =>
        let t := ticks w in
        (Normal tt,
         (s1,
          (ChatWindow.setMessages
             (fun prev => prev ++ [ Message.mk (JSString.of_Z (clock t)) assistant
                                      (Analysis.response data) (clock (S t))
                                      (Analysis.mood_state data)
                                      (Some (Analysis.mode data)) ]) chat,
           false)),
         after (events call
                  ++ [OnMoodDetected (Analysis.mood_state data) (Analysis.mode data)])
               2 w)
    | Throw err =>
        (Normal tt,
         (MultimodalCapture.setIsAnalyzing false
            (MultimodalCapture.setError
               (Some ("Emotional sync failed. "
                        +:+ (if JSString.truthy (err_message err) then err_message err
                             else "Please check your connection and try again.")))
               (MultimodalCapture.setError None
                  (MultimodalCapture.setIsAnalyzing true s))),
          (chat, showCapture)),
         emitted (events call ++ [Console ConsoleLevel_error "Analysis Error:"]) w)
    end.
Proof.
  intros Hinput. cbv zeta.
  unfold MultimodalCapture.scan, MultimodalCapture.handleAnalyze,
    ChatWindow.onAnalysisComplete.
  unfold mbind, mret, IO_mbind, IO_mret, IO_bind, IO_ret, try_catch, try_finally,
    not_awaited, on_fst, on_snd, console, emit, get_state, set_state, Date_now.
  cbn [fst snd List.map].
  apply orb_true_iff in Hinput.
  assert (Hguard : negb (MultimodalCapture.captured (MultimodalCapture.capturedImageBase64 s))
                   && negb (MultimodalCapture.captured (MultimodalCapture.audioBase64 s))
                   = false).
  { destruct Hinput as [-> | ->]; [done | apply andb_false_r]. }
  rewrite Hguard.
  rewrite await_run; last first.
  { destruct (analyzeMultimodalMood_framed None
                (MultimodalCapture.or_undefined (MultimodalCapture.capturedImageBase64 s))
                (MultimodalCapture.or_undefined (MultimodalCapture.audioBase64 s)) [])
      as (c & tail & Hm & _).
    eauto. }
  destruct (outcome _) as [data|err]; cbn [fst snd].
  - f_equal. trace_eq.
  - f_equal. trace_eq.
Qed.


(** X27: a scan asks Provider A once, for the image and the voice note and
    without a text or a history, and always completes with the analysis
    indicator cleared.  It never asks Provider B, and the reply of a scan is
    not saved as a message, also for a signed-in user: the capture and the
    callback of the chat window send no request, and [handleMoodDetected],
    which the callback calls in the application, sends nothing in guest
    mode or without a mood, and otherwise asks who is signed in and, for a
    signed-in user, upserts the mood entry of the day. *)
Theorem scan_saves_no_message s chat showCapture w :
  (MultimodalCapture.captured (MultimodalCapture.capturedImageBase64 s)
   || MultimodalCapture.captured (MultimodalCapture.audioBase64 s)) = true ->
  let r := MultimodalCapture.scan (s, (chat, showCapture)) w in
  completion_of r = Normal tt
  /\ MultimodalCapture.isAnalyzing (state_of r).1 = false
  /\ calls_of_analyzeMultimodalMood (new_events w r) = [(None, [])]
  /\ calls_of_callOpenRouter (new_events w r) = []
  /\ existsb is_backend_event (new_events w r) = false
  /\ (forall mood mode p w',
         let sent := List.filter is_backend_event
                       (new_events w' (App.handleMoodDetected mood mode p w')) in
         (App.isGuest p = true -> sent = [])
         /\ (App.isGuest p = false -> auth_getUser = None ->
             sent = [Supabase_auth_getUser])
         /\ (forall user_id,
                App.isGuest p = false -> auth_getUser = Some user_id ->
                exists row,
                  sent = [Supabase_auth_getUser;
                          Supabase_upsert_mood_logs row "user_id,date"]
                  /\ MoodLogRow.user_id row = user_id
                  /\ MoodLogRow.date row = App.today_of (clock (ticks w'))
                  /\ MoodLogRow.mood row = MoodState.dominant_mood mood))
  /\ (forall mood mode p w',
         new_events w' (App.handleMoodDetected_without_mood mood mode p w') = []).
Proof.
  intros Hinput. cbv zeta. rewrite scan_run by done. cbv zeta.
  destruct (analyzeMultimodalMood_framed None
              (MultimodalCapture.or_undefined (MultimodalCapture.capturedImageBase64 s))
              (MultimodalCapture.or_undefined (MultimodalCapture.audioBase64 s)) [])
    as (c & tail & Hm & Hq).
  destruct (framed_outcome _ _ _ Hm) as [-> ->].
  destruct (quiet_calls tail Hq) as (HA & HB & Hbackend & _).
  assert (Hparent : forall mood mode p w',
             let sent := List.filter is_backend_event
                           (new_events w' (App.handleMoodDetected mood mode p w')) in
             (App.isGuest p = true -> sent = [])
             /\ (App.isGuest p = false -> auth_getUser = None ->
                 sent = [Supabase_auth_getUser])
             /\ (forall user_id,
                    App.isGuest p = false -> auth_getUser = Some user_id ->
                    exists row,
                      sent = [Supabase_auth_getUser;
                              Supabase_upsert_mood_logs row "user_id,date"]
                      /\ MoodLogRow.user_id row = user_id
                      /\ MoodLogRow.date row = App.today_of (clock (ticks w'))
                      /\ MoodLogRow.mood row = MoodState.dominant_mood mood)).
  { intros mood mode p w'. cbv zeta. rewrite handleMoodDetected_new_events.
    unfold handleMoodDetected_events. split_and!.
    - by intros ->.
    - by intros -> ->.
    - intros user_id -> ->.
      exists (cloudService.mood_log_row user_id
                (App.newEntry (App.today_of (clock (ticks w'))) mood)).
      split; [by destruct (upsert_mood_logs _) | done]. }
  pose proof handleMoodDetected_without_mood_new_events as Hwithout.
  destruct c as [data|err]; cbn [completion_of state_of fst snd].
  - rewrite new_events_after.
    change (?a :: tail) with ([a] ++ tail).
    rewrite !calls_of_analyzeMultimodalMood_app, !calls_of_callOpenRouter_app,
      !existsb_app, HA, HB, Hbackend.
    done.
  - rewrite new_events_emitted.
    change (?a :: tail) with ([a] ++ tail).
    rewrite !calls_of_analyzeMultimodalMood_app, !calls_of_callOpenRouter_app,
      !existsb_app, HA, HB, Hbackend.
    done.
Qed.

(** X28: the two ends of a scan.  When Provider A returns, the parent is
    told the mood and the mode once, the reply is appended to the transcript
    as an assistant message, whatever its response is, and the capture is
    closed.  When Provider A throws, the transcript and the capture stay as
    they are, the parent is not told anything, and the hint shows the one
    error of the Gemini adapter. *)
Theorem scan_ends s chat showCapture w :
  (MultimodalCapture.captured (MultimodalCapture.capturedImageBase64 s)
   || MultimodalCapture.captured (MultimodalCapture.audioBase64 s)) = true ->
  let call := geminiService.analyzeMultimodalMood None
                (MultimodalCapture.or_undefined (MultimodalCapture.capturedImageBase64 s))
                (MultimodalCapture.or_undefined (MultimodalCapture.audioBase64 s)) [] in
  let r := MultimodalCapture.scan (s, (chat, showCapture)) w in
  (forall data,
      outcome call = Normal data ->
      List.filter is_onMoodDetected (new_events w r)
      = [OnMoodDetected (Analysis.mood_state data) (Analysis.mode data)]
      /\ (exists reply,
             ChatWindow.messages (state_of r).2.1 = ChatWindow.messages chat ++ [reply]
             /\ Message.role reply = assistant
             /\ Message.content reply = Analysis.response data
             /\ Message.mood_state reply = Analysis.mood_state data)
      /\ (state_of r).2.2 = false
      /\ MultimodalCapture.error (state_of r).1 = None)
  /\ (forall err,
         outcome call = Throw err ->
         (state_of r).2 = (chat, showCapture)
         /\ existsb is_onMoodDetected (new_events w r) = false
         /\ MultimodalCapture.error (state_of r).1
            = Some ("Emotional sync failed. "
                      +:+ "I couldn't process the emotional data right now. "
                      +:+ "Please try again.")).
Proof.
  intros Hinput. cbv zeta. rewrite scan_run by done. cbv zeta.
  destruct (analyzeMultimodalMood_framed None
              (MultimodalCapture.or_undefined (MultimodalCapture.capturedImageBase64 s))
              (MultimodalCapture.or_undefined (MultimodalCapture.audioBase64 s)) [])
    as (c & tail & Hm & Hq).
  pose proof (analyzeMultimodalMood_outcome None
                (MultimodalCapture.or_undefined (MultimodalCapture.capturedImageBase64 s))
                (MultimodalCapture.or_undefined (MultimodalCapture.audioBase64 s)) [])
    as Hout.
  destruct (framed_outcome _ _ _ Hm) as [Hc Hev]. rewrite Hev.
  destruct (quiet_calls tail Hq) as (_ & _ & _ & Hparent & _).
  split.
  - intros data Hdata. rewrite Hdata. cbn [state_of fst snd].
    rewrite new_events_after. split_and!; try reflexivity.
    + cbn [app List.filter is_onMoodDetected].
      rewrite List.filter_app, (existsb_filter_nil _ _ Hparent). reflexivity.
    + eexists. split; [reflexivity |]. done.
  - intros err Herr. rewrite Herr. cbn [state_of fst snd].
    rewrite new_events_emitted. split_and!; try reflexivity.
    + cbn [app existsb is_onMoodDetected]. rewrite existsb_app, Hparent. reflexivity.
    + rewrite Herr in Hout.
      destruct (_ ≫= geminiService.normalize); [discriminate Hout |].
      injection Hout as ->. reflexivity.
Qed.

End scan.

Lemma handleAnalyze_needs_input_witness :
  @MultimodalCapture.scan Sample.signed_in
    (Sample.nothing_captured, (Sample.ready, true)) world0
  = (Normal tt,
     (MultimodalCapture.setError
        (Some "Please capture an image or record a voice note for analysis.")
        Sample.nothing_captured,
      (Sample.ready, true)),
     world0).
Proof.
  unfold MultimodalCapture.scan.
  apply (@handleAnalyze_needs_input Sample.signed_in (ChatWindow.State * bool) []
           ChatWindow.onAnalysisComplete Sample.nothing_captured (Sample.ready, true)
           world0);
    reflexivity.
Defined.

Lemma scan_saves_no_message_witness :
  existsb is_backend_event
    (new_events world0
       (@MultimodalCapture.scan Sample.signed_in
          (Sample.image_taken, (Sample.ready, true)) world0))
  = false.
Proof.
  destruct (@scan_saves_no_message Sample.signed_in Sample.image_taken Sample.ready true
              world0 eq_refl)
    as (_ & _ & _ & _ & Hbackend & _).
  exact Hbackend.
Defined.

Lemma scan_ends_witness :
  (state_of (@MultimodalCapture.scan Sample.signed_in
               (Sample.image_taken, (Sample.ready, true)) world0)).2.2
  = false
  /\ MultimodalCapture.error
       (state_of (@MultimodalCapture.scan Sample.offline
                    (Sample.image_taken, (Sample.ready, true)) world0)).1
     = Some ("Emotional sync failed. "
               +:+ "I couldn't process the emotional data right now. "
               +:+ "Please try again.").
Proof.
  destruct (@scan_ends Sample.signed_in Sample.image_taken Sample.ready true world0
              eq_refl)
    as [Hreply _].
  destruct (@scan_ends Sample.offline Sample.image_taken Sample.ready true world0
              eq_refl)
    as [_ Hfailure].
  split.
  - destruct (Hreply _ eq_refl) as (_ & _ & Hclosed & _). exact Hclosed.
  - destruct (Hfailure _ eq_refl) as (_ & _ & Herror). exact Herror.
Defined.

(** ** The sign-in component *)

Ltac run_pair :=
  unfold Auth.accepted;
  unfold mbind, mret, IO_mbind, IO_mret, IO_bind, IO_ret, try_catch, try_finally,
    on_fst, on_snd, throw, eval, get_state, set_state;
  cbn [fst snd].

Section auth.
Context `{!Runtime} `{!Auth.AuthService}.

(** X29: [handleSubmit] never throws and always clears the loading
    indicator, whatever the authentication service answers and whatever the
    parent's [onLogin] does; and a submission that the service does not
    answer with a session does not log in.  When the service answers with
    an error or the call fails, the message of the error is shown, or
    Verification failed when it has none; a sign-up that is accepted without
    a session leads to the entry of the code; a sign-in that is accepted
    without a session shows the type error of reading its token.  In these
    cases [onLogin] is not called, whatever it would do. *)
Theorem handleSubmit_without_session {P} (onLogin : JSValue -> string -> IO P unit)
    s (p : P) w :
  let answer := match Auth.view s with
                | Auth.login => Auth.signInWithPassword (Auth.email s) (Auth.password s)
                | Auth.signup =>
                    Auth.signUp (Auth.email s) (Auth.password s) (Auth.fullName s)
                | Auth.otp => Auth.verifyOtp (Auth.email s) (Auth.otpCode s)
                end in
  let s1 := Auth.setLoading true (Auth.setError None s) in
  let shown (e : JSError) :=
    (Normal tt,
     (Auth.setLoading false
        (Auth.setError (Some (if JSString.truthy (err_message e) then err_message e
                              else "Verification failed.")) s1), p),
     w) in
  let r := Auth.handleSubmit onLogin (s, p) w in
  completion_of r = Normal tt
  /\ Auth.loading (state_of r).1 = false
  /\ (forall e, answer = Normal (inl e) \/ answer = Throw e -> r = shown e)
  /\ (forall data,
         Auth.view s = Auth.signup ->
         answer = Normal (inr data) ->
         Auth.AuthData.session data = None ->
         r = (Normal tt,
              (Auth.setLoading false
                 (Auth.setView Auth.otp
                    (Auth.setSuccessMsg
                       (Some "Authentication code transmitted to your email.") s1)),
               p),
              w))
  /\ (forall data,
         Auth.view s = Auth.login ->
         answer = Normal (inr data) ->
         Auth.AuthData.session data = None ->
         r = shown (TypeError "Cannot read properties of null (reading 'access_token')")).
Proof.
  cbv zeta. unfold Auth.handleSubmit. run_pair. split_and!.
  - destruct (Auth.view s).
    + destruct (Auth.signInWithPassword _ _) as [[e|data]|e]; cbn [fst snd]; try done.
      destruct (Auth.AuthData.session data); cbn [fst snd]; [| done].
      by destruct (onLogin _ _ _ _) as [[[[]|e'] p'] w'].
    + destruct (Auth.signUp _ _ _) as [[e|data]|e]; cbn [fst snd]; try done.
      destruct (Auth.AuthData.session data); cbn [fst snd]; [| done].
      by destruct (onLogin _ _ _ _) as [[[[]|e'] p'] w'].
    + destruct (Auth.verifyOtp _ _) as [[e|data]|e]; cbn [fst snd]; try done.
      by destruct (onLogin _ _ _ _) as [[[[]|e'] p'] w'].
  - destruct (Auth.view s).
    + destruct (Auth.signInWithPassword _ _) as [[e|data]|e]; cbn [fst snd]; try done.
      destruct (Auth.AuthData.session data); cbn [fst snd]; [| done].
      by destruct (onLogin _ _ _ _) as [[[[]|e'] p'] w'].
    + destruct (Auth.signUp _ _ _) as [[e|data]|e]; cbn [fst snd]; try done.
      destruct (Auth.AuthData.session data); cbn [fst snd]; [| done].
      by destruct (onLogin _ _ _ _) as [[[[]|e'] p'] w'].
    + destruct (Auth.verifyOtp _ _) as [[e|data]|e]; cbn [fst snd]; try done.
      by destruct (onLogin _ _ _ _) as [[[[]|e'] p'] w'].
  - intros e Hanswer.
    destruct (Auth.view s); destruct Hanswer as [-> | ->]; reflexivity.
  - intros data Hview Hanswer Hsession. rewrite Hview in *.
    rewrite Hanswer. cbn [fst snd]. rewrite Hsession. reflexivity.
  - intros data Hview Hanswer Hsession. rewrite Hview in *.
    rewrite Hanswer. cbn [fst snd]. rewrite Hsession. reflexivity.
Qed.

(** X30: the two ways in.  The guest login through [handleLogin] sets the
    guest flag in the state and in local storage, names the user Explorer
    and shows the splash screen, without a request to the backend.  A
    sign-in with a password that the service answers with a session whose
    token is not the guest token leaves the guest mode as it was, takes the
    full name of the user when there is one, and shows the splash screen. *)
Theorem logins_reach_the_application s p w :
  (let r := Auth.handleGuestLogin App.handleLogin (s, p) w in
   completion_of r = Normal tt
   /\ App.isGuest (state_of r).2 = true
   /\ guest_flag (world_of r) = true
   /\ App.userName (state_of r).2 = JStr "Explorer"
   /\ App.appState (state_of r).2 = App.splash
   /\ new_events w r = [])
  /\ (forall data access_token,
         Auth.view s = Auth.login ->
         Auth.signInWithPassword (Auth.email s) (Auth.password s) = Normal (inr data) ->
         Auth.AuthData.session data = Some access_token ->
         access_token <> "guest-token" ->
         let r := Auth.handleSubmit App.handleLogin (s, p) w in
         completion_of r = Normal tt
         /\ App.isGuest (state_of r).2 = App.isGuest p
         /\ world_of r = w
         /\ App.appState (state_of r).2 = App.splash
         /\ App.userName (state_of r).2
            = (if truthy (App.full_name (Auth.AuthData.user_metadata data))
               then App.full_name (Auth.AuthData.user_metadata data)
               else App.userName p)
         /\ Auth.error (state_of r).1 = None
         /\ Auth.loading (state_of r).1 = false).
Proof.
  split.
  - cbv zeta. unfold Auth.handleGuestLogin, App.handleLogin. run_pair.
    cbn [String.eqb Ascii.eqb Bool.eqb]. run_io.
    unfold guest_flag, world_of, state_of, completion_of. cbn [fst snd localStorage].
    rewrite lookup_insert_eq, bool_decide_eq_true_2 by done.
    split_and!; try reflexivity.
    unfold new_events, world_of. cbn. apply drop_all.
  - intros data access_token Hview Hanswer Hsession Htoken. cbv zeta.
    unfold Auth.handleSubmit, App.handleLogin. run_pair.
    rewrite Hview, Hanswer. cbn [fst snd]. rewrite Hsession.
    apply String.eqb_neq in Htoken. rewrite Htoken. run_io.
    destruct w as [tr t ls].
    destruct (truthy (App.full_name _)); cbn; split_and!; reflexivity.
Qed.

End auth.

Lemma handleSubmit_without_session_witness :
  Auth.error
    (state_of (@Auth.handleSubmit
                 (Sample.auth_service (Normal (inl Sample.invalid_credentials)))
                 App.State App.handleLogin (Sample.form, App.mount world0) world0)).1
  = Some "Invalid login credentials".
Proof.
  destruct (@handleSubmit_without_session
              (Sample.auth_service (Normal (inl Sample.invalid_credentials)))
              App.State App.handleLogin Sample.form (App.mount world0) world0)
    as (_ & _ & Hshown & _).
  rewrite (Hshown Sample.invalid_credentials) by (left; reflexivity).
  reflexivity.
Defined.

Lemma logins_reach_the_application_witness :
  App.userName
    (state_of (@Auth.handleSubmit
                 (Sample.auth_service (Normal (inr Sample.signed_in_data)))
                 App.State App.handleLogin (Sample.form, App.mount world0) world0)).2
  = JStr "Ada".
Proof.
  destruct (@logins_reach_the_application
              (Sample.auth_service (Normal (inr Sample.signed_in_data)))
              Sample.form (App.mount world0) world0)
    as [_ Hpassword].
  destruct (Hpassword Sample.signed_in_data "jwt-1")
    as (_ & _ & _ & _ & Hname & _).
  - reflexivity.
  - reflexivity.
  - reflexivity.
  - discriminate.
  - rewrite Hname. reflexivity.
Defined.
